(** * Verification of the year-end helper bot

    A shallow embedding of [flow_core.py] (the flow engine and the
    MarkdownV2 escaper) and of [bot_app.py] (label normalisation, the
    per-step message handler and the admin broadcast), followed by the
    properties of the specification that were checked against it. *)

From Stdlib Require Import ZArith NArith List Lia Decimal DecimalZ QArith_base.
From Stdlib Require Import Ascii String.
From stdpp Require Import base option list gmap sorting.
Import ListNotations.

Set Default Proof Using "Type".

(* ===================================================================== *)
(** * Python values *)
(* ===================================================================== *)

(** A Python [str] is a sequence of Unicode code points. *)
Abbreviation pystr := (list N).

(** The values that reach the functions below.  [escape_md_v2] and
    [message.answer] are handed whatever a dictionary lookup returned, so
    the embedding keeps the dynamic type. *)
#[warnings="-register-all"]
Inductive PyVal : Type :=
| PNone
| PBool (b : bool)
| PInt (z : Z)
| PStr (s : pystr)
| PList (l : list PyVal).

(** [isinstance(v, str)] *)
Definition isinstance_str (v : PyVal) : bool :=
  match v with PStr _ => true | _ => false end.

(** Digits of [str(int)]. *)
Fixpoint digits_of_uint (d : Decimal.uint) : pystr :=
  match d with
  | Nil => []
  | D0 d => 0x30 :: digits_of_uint d
  | D1 d => 0x31 :: digits_of_uint d
  | D2 d => 0x32 :: digits_of_uint d
  | D3 d => 0x33 :: digits_of_uint d
  | D4 d => 0x34 :: digits_of_uint d
  | D5 d => 0x35 :: digits_of_uint d
  | D6 d => 0x36 :: digits_of_uint d
  | D7 d => 0x37 :: digits_of_uint d
  | D8 d => 0x38 :: digits_of_uint d
  | D9 d => 0x39 :: digits_of_uint d
  end%N.

(** [str(z)] for an [int] [z]: decimal digits, most significant first,
    with a leading minus sign (U+002D) for negative numbers. *)
Definition str_of_int (z : Z) : pystr :=
  match Z.to_int z with
  | Pos d => digits_of_uint d
  | Neg d => 0x2D%N :: digits_of_uint d
  end.

(** [int(x)] for a float [x]: truncation towards zero.  A finite float is
    a rational number; only its integer part matters below. *)
Definition int_of_float (x : Q) : Z := Z.quot (Qnum x) (Z.pos (Qden x)).

(* ===================================================================== *)
(** * Unicode data used by [str.lower], [str.strip] and [\s] *)
(* ===================================================================== *)

Section Unicode.
Local Open Scope N_scope.

(** [Py_UNICODE_ISSPACE]: the characters [str.isspace], [str.strip] and
    the regular-expression class [\s] (on [str] patterns) agree on. *)
Definition Py_UNICODE_ISSPACE (c : N) : bool :=
  ((0x09 <=? c) && (c <=? 0x0D)) || ((0x1C <=? c) && (c <=? 0x20))
  || (c =? 0x85) || (c =? 0xA0) || (c =? 0x1680)
  || ((0x2000 <=? c) && (c <=? 0x200A))
  || (c =? 0x2028) || (c =? 0x2029) || (c =? 0x202F) || (c =? 0x205F)
  || (c =? 0x3000).

(** The simple lowercase mappings of the Unicode Character Database
    (version 14.0, as CPython 3.11 ships it), run-length encoded:
    [(lo, hi, step, lo')] maps [lo + k*step] to [lo' + k*step] for every
    [lo + k*step <= hi]. *)
Definition lower_runs : list (N * N * N * N) := [
  (0x41, 0x5A, 1, 0x61); (0xC0, 0xD6, 1, 0xE0); (0xD8, 0xDE, 1, 0xF8);
  (0x100, 0x12E, 2, 0x101); (0x132, 0x136, 2, 0x133);
  (0x139, 0x147, 2, 0x13A); (0x14A, 0x176, 2, 0x14B);
  (0x178, 0x178, 1, 0xFF); (0x179, 0x17D, 2, 0x17A);
  (0x181, 0x181, 1, 0x253); (0x182, 0x184, 2, 0x183);
  (0x186, 0x186, 1, 0x254); (0x187, 0x187, 1, 0x188);
  (0x189, 0x18A, 1, 0x256); (0x18B, 0x18B, 1, 0x18C);
  (0x18E, 0x18E, 1, 0x1DD); (0x18F, 0x18F, 1, 0x259);
  (0x190, 0x190, 1, 0x25B); (0x191, 0x191, 1, 0x192);
  (0x193, 0x193, 1, 0x260); (0x194, 0x194, 1, 0x263);
  (0x196, 0x196, 1, 0x269); (0x197, 0x197, 1, 0x268);
  (0x198, 0x198, 1, 0x199); (0x19C, 0x19C, 1, 0x26F);
  (0x19D, 0x19D, 1, 0x272); (0x19F, 0x19F, 1, 0x275);
  (0x1A0, 0x1A4, 2, 0x1A1); (0x1A6, 0x1A6, 1, 0x280);
  (0x1A7, 0x1A7, 1, 0x1A8); (0x1A9, 0x1A9, 1, 0x283);
  (0x1AC, 0x1AC, 1, 0x1AD); (0x1AE, 0x1AE, 1, 0x288);
  (0x1AF, 0x1AF, 1, 0x1B0); (0x1B1, 0x1B2, 1, 0x28A);
  (0x1B3, 0x1B5, 2, 0x1B4); (0x1B7, 0x1B7, 1, 0x292);
  (0x1B8, 0x1B8, 1, 0x1B9); (0x1BC, 0x1BC, 1, 0x1BD);
  (0x1C4, 0x1C4, 1, 0x1C6); (0x1C5, 0x1C5, 1, 0x1C6);
  (0x1C7, 0x1C7, 1, 0x1C9); (0x1C8, 0x1C8, 1, 0x1C9);
  (0x1CA, 0x1CA, 1, 0x1CC); (0x1CB, 0x1DB, 2, 0x1CC);
  (0x1DE, 0x1EE, 2, 0x1DF); (0x1F1, 0x1F1, 1, 0x1F3);
  (0x1F2, 0x1F4, 2, 0x1F3); (0x1F6, 0x1F6, 1, 0x195);
  (0x1F7, 0x1F7, 1, 0x1BF); (0x1F8, 0x21E, 2, 0x1F9);
  (0x220, 0x220, 1, 0x19E); (0x222, 0x232, 2, 0x223);
  (0x23A, 0x23A, 1, 0x2C65); (0x23B, 0x23B, 1, 0x23C);
  (0x23D, 0x23D, 1, 0x19A); (0x23E, 0x23E, 1, 0x2C66);
  (0x241, 0x241, 1, 0x242); (0x243, 0x243, 1, 0x180);
  (0x244, 0x244, 1, 0x289); (0x245, 0x245, 1, 0x28C);
  (0x246, 0x24E, 2, 0x247); (0x370, 0x372, 2, 0x371);
  (0x376, 0x376, 1, 0x377); (0x37F, 0x37F, 1, 0x3F3);
  (0x386, 0x386, 1, 0x3AC); (0x388, 0x38A, 1, 0x3AD);
  (0x38C, 0x38C, 1, 0x3CC); (0x38E, 0x38F, 1, 0x3CD);
  (0x391, 0x3A1, 1, 0x3B1); (0x3A3, 0x3AB, 1, 0x3C3);
  (0x3CF, 0x3CF, 1, 0x3D7); (0x3D8, 0x3EE, 2, 0x3D9);
  (0x3F4, 0x3F4, 1, 0x3B8); (0x3F7, 0x3F7, 1, 0x3F8);
  (0x3F9, 0x3F9, 1, 0x3F2); (0x3FA, 0x3FA, 1, 0x3FB);
  (0x3FD, 0x3FF, 1, 0x37B); (0x400, 0x40F, 1, 0x450);
  (0x410, 0x42F, 1, 0x430); (0x460, 0x480, 2, 0x461);
  (0x48A, 0x4BE, 2, 0x48B); (0x4C0, 0x4C0, 1, 0x4CF);
  (0x4C1, 0x4CD, 2, 0x4C2); (0x4D0, 0x52E, 2, 0x4D1);
  (0x531, 0x556, 1, 0x561); (0x10A0, 0x10C5, 1, 0x2D00);
  (0x10C7, 0x10C7, 1, 0x2D27); (0x10CD, 0x10CD, 1, 0x2D2D);
  (0x13A0, 0x13EF, 1, 0xAB70); (0x13F0, 0x13F5, 1, 0x13F8);
  (0x1C90, 0x1CBA, 1, 0x10D0); (0x1CBD, 0x1CBF, 1, 0x10FD);
  (0x1E00, 0x1E94, 2, 0x1E01); (0x1E9E, 0x1E9E, 1, 0xDF);
  (0x1EA0, 0x1EFE, 2, 0x1EA1); (0x1F08, 0x1F0F, 1, 0x1F00);
  (0x1F18, 0x1F1D, 1, 0x1F10); (0x1F28, 0x1F2F, 1, 0x1F20);
  (0x1F38, 0x1F3F, 1, 0x1F30); (0x1F48, 0x1F4D, 1, 0x1F40);
  (0x1F59, 0x1F5F, 2, 0x1F51); (0x1F68, 0x1F6F, 1, 0x1F60);
  (0x1F88, 0x1F8F, 1, 0x1F80); (0x1F98, 0x1F9F, 1, 0x1F90);
  (0x1FA8, 0x1FAF, 1, 0x1FA0); (0x1FB8, 0x1FB9, 1, 0x1FB0);
  (0x1FBA, 0x1FBB, 1, 0x1F70); (0x1FBC, 0x1FBC, 1, 0x1FB3);
  (0x1FC8, 0x1FCB, 1, 0x1F72); (0x1FCC, 0x1FCC, 1, 0x1FC3);
  (0x1FD8, 0x1FD9, 1, 0x1FD0); (0x1FDA, 0x1FDB, 1, 0x1F76);
  (0x1FE8, 0x1FE9, 1, 0x1FE0); (0x1FEA, 0x1FEB, 1, 0x1F7A);
  (0x1FEC, 0x1FEC, 1, 0x1FE5); (0x1FF8, 0x1FF9, 1, 0x1F78);
  (0x1FFA, 0x1FFB, 1, 0x1F7C); (0x1FFC, 0x1FFC, 1, 0x1FF3);
  (0x2126, 0x2126, 1, 0x3C9); (0x212A, 0x212A, 1, 0x6B);
  (0x212B, 0x212B, 1, 0xE5); (0x2132, 0x2132, 1, 0x214E);
  (0x2160, 0x216F, 1, 0x2170); (0x2183, 0x2183, 1, 0x2184);
  (0x24B6, 0x24CF, 1, 0x24D0); (0x2C00, 0x2C2F, 1, 0x2C30);
  (0x2C60, 0x2C60, 1, 0x2C61); (0x2C62, 0x2C62, 1, 0x26B);
  (0x2C63, 0x2C63, 1, 0x1D7D); (0x2C64, 0x2C64, 1, 0x27D);
  (0x2C67, 0x2C6B, 2, 0x2C68); (0x2C6D, 0x2C6D, 1, 0x251);
  (0x2C6E, 0x2C6E, 1, 0x271); (0x2C6F, 0x2C6F, 1, 0x250);
  (0x2C70, 0x2C70, 1, 0x252); (0x2C72, 0x2C72, 1, 0x2C73);
  (0x2C75, 0x2C75, 1, 0x2C76); (0x2C7E, 0x2C7F, 1, 0x23F);
  (0x2C80, 0x2CE2, 2, 0x2C81); (0x2CEB, 0x2CED, 2, 0x2CEC);
  (0x2CF2, 0x2CF2, 1, 0x2CF3); (0xA640, 0xA66C, 2, 0xA641);
  (0xA680, 0xA69A, 2, 0xA681); (0xA722, 0xA72E, 2, 0xA723);
  (0xA732, 0xA76E, 2, 0xA733); (0xA779, 0xA77B, 2, 0xA77A);
  (0xA77D, 0xA77D, 1, 0x1D79); (0xA77E, 0xA786, 2, 0xA77F);
  (0xA78B, 0xA78B, 1, 0xA78C); (0xA78D, 0xA78D, 1, 0x265);
  (0xA790, 0xA792, 2, 0xA791); (0xA796, 0xA7A8, 2, 0xA797);
  (0xA7AA, 0xA7AA, 1, 0x266); (0xA7AB, 0xA7AB, 1, 0x25C);
  (0xA7AC, 0xA7AC, 1, 0x261); (0xA7AD, 0xA7AD, 1, 0x26C);
  (0xA7AE, 0xA7AE, 1, 0x26A); (0xA7B0, 0xA7B0, 1, 0x29E);
  (0xA7B1, 0xA7B1, 1, 0x287); (0xA7B2, 0xA7B2, 1, 0x29D);
  (0xA7B3, 0xA7B3, 1, 0xAB53); (0xA7B4, 0xA7C2, 2, 0xA7B5);
  (0xA7C4, 0xA7C4, 1, 0xA794); (0xA7C5, 0xA7C5, 1, 0x282);
  (0xA7C6, 0xA7C6, 1, 0x1D8E); (0xA7C7, 0xA7C9, 2, 0xA7C8);
  (0xA7D0, 0xA7D0, 1, 0xA7D1); (0xA7D6, 0xA7D8, 2, 0xA7D7);
  (0xA7F5, 0xA7F5, 1, 0xA7F6); (0xFF21, 0xFF3A, 1, 0xFF41);
  (0x10400, 0x10427, 1, 0x10428); (0x104B0, 0x104D3, 1, 0x104D8);
  (0x10570, 0x1057A, 1, 0x10597); (0x1057C, 0x1058A, 1, 0x105A3);
  (0x1058C, 0x10592, 1, 0x105B3); (0x10594, 0x10595, 1, 0x105BB);
  (0x10C80, 0x10CB2, 1, 0x10CC0); (0x118A0, 0x118BF, 1, 0x118C0);
  (0x16E40, 0x16E5F, 1, 0x16E60); (0x1E900, 0x1E921, 1, 0x1E922)
].

(** Characters whose lowercase form is more than one code point
    (SpecialCasing): only U+0130. *)
Definition lower_special : list (N * pystr) := [ (0x130, [0x69; 0x307]) ].

Definition expand_run (r : N * N * N * N) : list (N * pystr) :=
  let '(lo, hi, step, lo') := r in
  map (fun k => let d := N.of_nat k * step in (lo + d, [lo' + d]))
      (seq 0 (N.to_nat ((hi - lo) / step) + 1)).

Definition lower_table : list (N * pystr) :=
  lower_special ++ flat_map expand_run lower_runs.

Fixpoint assoc {A} (c : N) (t : list (N * A)) : option A :=
  match t with
  | [] => None
  | (k, v) :: t' => if c =? k then Some v else assoc c t'
  end.

(** [_PyUnicode_ToLowerFull] *)
Definition to_lower_full (c : N) : pystr :=
  match assoc c lower_table with
  | Some v => v
  | None => [c]
  end.

End Unicode.

(** The derived core properties Cased and Case_Ignorable decide only
    which of the two small sigmas a capital sigma becomes; they are left
    abstract. *)
Class CaseProps := {
  _PyUnicode_IsCased : N -> bool;
  _PyUnicode_IsCaseIgnorable : N -> bool
}.

Fixpoint drop_while {A} (p : A -> bool) (l : list A) : list A :=
  match l with
  | [] => []
  | x :: l' => if p x then drop_while p l' else l
  end.

Section Lower.
Context `{CaseProps}.
Local Open Scope N_scope.

(** [handle_capital_sigma]: U+03A3 is a final sigma when the nearest
    character that is not case-ignorable before it is cased, and the
    nearest one after it (if any) is not.  [before] is the text to the
    left of the sigma, nearest character first. *)
Definition handle_capital_sigma (before after : pystr) : N :=
  let final_sigma :=
    match drop_while _PyUnicode_IsCaseIgnorable before with
    | [] => false
    | c :: _ =>
        _PyUnicode_IsCased c &&
        match drop_while _PyUnicode_IsCaseIgnorable after with
        | [] => true
        | c' :: _ => negb (_PyUnicode_IsCased c')
        end
    end in
  if final_sigma then 0x3C2 else 0x3C3.

(** [lower_ucs4] *)
Definition lower_ucs4 (before after : pystr) (c : N) : pystr :=
  if c =? 0x3A3 then [handle_capital_sigma before after]
  else to_lower_full c.

Fixpoint lower_from (before s : pystr) : pystr :=
  match s with
  | [] => []
  | c :: s' => lower_ucs4 before s' c ++ lower_from (c :: before) s'
  end.

(** [str.lower] *)
Definition str_lower (s : pystr) : pystr := lower_from [] s.

End Lower.

Section StringOps.
Local Open Scope N_scope.

(** [s.replace(old, new)] for one-character [old] and [new]. *)
Definition str_replace1 (old new : N) (s : pystr) : pystr :=
  map (fun c => if c =? old then new else c) s.

(** [re.sub(r"\s+", " ", s)]: every maximal run of whitespace becomes one
    space.  [in_run] tells that the previous character was whitespace. *)
Fixpoint sub_ws_from (in_run : bool) (s : pystr) : pystr :=
  match s with
  | [] => []
  | c :: s' =>
      if Py_UNICODE_ISSPACE c
      then (if in_run then sub_ws_from true s' else 0x20 :: sub_ws_from true s')
      else c :: sub_ws_from false s'
  end.

Definition sub_ws (s : pystr) : pystr := sub_ws_from false s.

(** [str.strip()] *)
Definition str_lstrip (s : pystr) : pystr := drop_while Py_UNICODE_ISSPACE s.
Definition str_rstrip (s : pystr) : pystr := rev (drop_while Py_UNICODE_ISSPACE (rev s)).
Definition str_strip (s : pystr) : pystr := str_rstrip (str_lstrip s).

(** [s.startswith(p)] *)
Fixpoint startswith (s p : pystr) : bool :=
  match p, s with
  | [], _ => true
  | _ :: _, [] => false
  | a :: p', b :: s' => (a =? b) && startswith s' p'
  end.

End StringOps.

(* ===================================================================== *)
(** * [bot_app.normalize_label] *)
(* ===================================================================== *)

Section Normalize.
Context `{CaseProps}.
Local Open Scope N_scope.

(** The argument is [None] or a [str] at every call site. *)
Definition normalize_label (s : option pystr) : pystr :=
  match s with
  | None => []
  | Some text =>
      let text := str_replace1 0xA0 0x20 text in
      let text := str_replace1 0x2019 0x27 text in
      let text := str_replace1 0x2018 0x27 text in
      let text := str_replace1 0x201C 0x22 text in
      let text := str_replace1 0x201D 0x22 text in
      let text := sub_ws text in
      str_lower (str_strip text)
  end.

End Normalize.

(* ===================================================================== *)
(** * String literals *)
(* ===================================================================== *)

(** Source literals are written as UTF-8 text and decoded to code points
    here, so that the embedding can quote the program's strings. *)
Section Utf8.
Local Open Scope N_scope.

Fixpoint utf8_decode (fuel : nat) (bs : list N) : pystr :=
  match fuel, bs with
  | S fuel, b0 :: bs1 =>
      if b0 <? 0x80 then b0 :: utf8_decode fuel bs1
      else match bs1 with
      | b1 :: bs2 =>
          if b0 <? 0xE0
          then ((b0 - 0xC0) * 64 + (b1 - 0x80)) :: utf8_decode fuel bs2
          else match bs2 with
          | b2 :: bs3 =>
              if b0 <? 0xF0
              then ((b0 - 0xE0) * 4096 + (b1 - 0x80) * 64 + (b2 - 0x80))
                     :: utf8_decode fuel bs3
              else match bs3 with
              | b3 :: bs4 =>
                  ((b0 - 0xF0) * 262144 + (b1 - 0x80) * 4096
                   + (b2 - 0x80) * 64 + (b3 - 0x80)) :: utf8_decode fuel bs4
              | [] => []
              end
          | [] => []
          end
      | [] => []
      end
  | _, _ => []
  end.

Definition py (s : string) : pystr :=
  let bs := map (fun a => N.of_nat (Ascii.nat_of_ascii a)) (String.list_ascii_of_string s) in
  utf8_decode (length bs) bs.

End Utf8.

(* ===================================================================== *)
(** * [flow_core.escape_md_v2] *)
(* ===================================================================== *)

Section Escape.
Local Open Scope N_scope.

Definition BACKSLASH : N := 0x5C.

(** The character class of [base_pattern]:
    backslash [ ] ( ) ~ ` > # + - = | { } . ! *)
Definition base_pattern (c : N) : bool :=
  existsb (N.eqb c)
    [0x5C; 0x5B; 0x5D; 0x28; 0x29; 0x7E; 0x60; 0x3E; 0x23; 0x2B; 0x2D;
     0x3D; 0x7C; 0x7B; 0x7D; 0x2E; 0x21].

(** The character class [[_*]]. *)
Definition emphasis_pattern (c : N) : bool := (c =? 0x5F) || (c =? 0x2A).

(** [re.sub(cls, lambda m: "\\" + m.group(1), s)] for a pattern that is a
    single character class: every matching character gets a backslash in
    front of it. *)
Definition re_sub_escape (cls : N -> bool) (s : pystr) : pystr :=
  flat_map (fun c => if cls c then [BACKSLASH; c] else [c]) s.

(** [enumerate(s)] *)
Definition enumerate {A} (s : list A) : list (nat * A) :=
  combine (seq 0 (length s)) s.

(** [range(0, stop, 2)] *)
Definition range_step2 (stop : nat) : list nat :=
  map (fun k => 2 * k)%nat (seq 0 (Nat.div2 (stop + 1))).

(** The inner function [preserve_pairs] of [escape_md_v2]. *)
Definition preserve_pairs (s : pystr) (marker : N) : pystr :=
  let positions := map fst (List.filter (fun ic => snd ic =? marker) (enumerate s)) in
  match positions with
  | [] => s
  | _ =>
      let allow_pos : gset nat :=
        fold_left
          (fun acc i => {[ nth (i + 1) positions 0%nat ]} ∪ ({[ nth i positions 0%nat ]} ∪ acc))
          (range_step2 (length positions - 1)) ∅ in
      flat_map
        (fun ic => let '(idx, ch) := ic in
           if ch =? marker
           then (if bool_decide (idx ∈ allow_pos) then [ch] else [BACKSLASH; ch])
           else [ch])
        (enumerate s)
  end.

Definition escape_str (text : pystr) (allow_markdown : bool) : pystr :=
  let escaped := re_sub_escape base_pattern text in
  if negb allow_markdown then re_sub_escape emphasis_pattern escaped
  else
    let result := preserve_pairs escaped 0x2A in
    preserve_pairs result 0x5F.

Definition escape_md_v2 (text : PyVal) (allow_markdown : bool) : PyVal :=
  match text with
  | PStr s => PStr (escape_str s allow_markdown)
  | _ => text
  end.

End Escape.

(* ===================================================================== *)
(** * Transport, session store and the handler monad *)
(* ===================================================================== *)

Inductive ParseMode := MARKDOWN_V2.

Record InlineKeyboardButton := {
  button_text : pystr;
  callback_data : pystr
}.

Inductive ReplyMarkup :=
| ReplyKeyboardMarkup (keyboard : list (list pystr)) (resize_keyboard : bool)
| ReplyKeyboardRemove
| InlineKeyboardMarkup (inline_keyboard : list (list InlineKeyboardButton)).

(** The calls the handlers make on the chat transport.  [MessageAnswer]
    and its variants reply into the chat the update came from; the [Bot]
    calls address another chat. *)
Inductive Call :=
| MessageAnswer (chat_id : Z) (text : PyVal)
    (reply_markup : option ReplyMarkup) (parse_mode : option ParseMode)
| MessageAnswerDocument (chat_id : Z) (path : pystr)
| MessageAnswerPhoto (chat_id : Z) (path : pystr)
| BotForwardMessage (chat_id from_chat_id message_id : Z)
| BotSendMessage (chat_id : Z) (text : PyVal)
    (reply_markup : option ReplyMarkup) (parse_mode : option ParseMode).

(** [meta["pending_payment"]] *)
Record Pending := {
  order_tag : pystr;
  method : pystr
}.

(** The FSM data of one user: a dictionary with the keys below; [None]
    stands for a missing key. *)
Record FsmData := {
  flow : option pystr;
  step : option pystr;
  meta : option (gmap string Pending);
  awaiting_broadcast : option bool
}.

Definition fsm_empty : FsmData :=
  {| flow := None; step := None; meta := None; awaiting_broadcast := None |}.

Inductive LogEvent :=
| LogGetStep (step_id : option pystr)
| LogStart (user : Z) (step_id : pystr)
| LogEnterStep (user : Z) (step_id : pystr)
| LogReplyOptions (step_id : pystr) (descriptor : list (list pystr))
| LogCallOnEnter (step_id : pystr) (user : Z)
| LogSendText (step_id : pystr) (user : Z)
| LogHandleMessage (user : Z) (step_id : pystr) (text : option pystr)
| LogNoHandler (step_id : pystr) (user : Z)
| LogUnmatched (user : Z) (step_id : option pystr)
    (text_raw normalized : pystr) (available_labels : list pystr)
| LogIncoming (user chat : Z) (text : option pystr) (ctx : FsmData)
| LogIgnoringCommand (text : pystr)
| LogBroadcastRequest (len : nat)
| LogBroadcastFailed (user : Z)
| LogException (site : string).

(** What a handler can change: the user's FSM data, the known-user file,
    the transport calls made so far (each with its outcome) and the log. *)
Record World := {
  fsm : FsmData;
  users_file : option (list Z);
  sent : list (Call * bool);
  log : list LogEvent
}.

(** How an attempt to write the known-user file ends: the list is
    written; the file cannot be opened, and stays as it was; or the dump
    breaks off, and what is left cannot be read. *)
Inductive WriteResult := Written | OpenFailed | DumpFailed.

(** What a handler only reads.  [transport_ok n c] tells whether the
    transport accepts call [c] when [n] calls were made before it; a
    refused call raises in the handler.  [path_exists] is
    [os.path.exists] on the files next to the program and [time_time] the
    reading of [time.time()]; [write_users l] is how writing the list [l]
    to the known-user file ends.  [ADMIN_ID] (module [admins]) and
    [SYSTEM_TEXTS] (module [bot_text]) are configuration that the program
    imports. *)
Record Env := {
  transport_ok : nat -> Call -> bool;
  path_exists : pystr -> bool;
  time_time : Q;
  write_users : list Z -> WriteResult;
  ADMIN_ID : option Z;
  SYSTEM_TEXTS : gmap string PyVal
}.

Inductive Exn :=
| TransportError (c : Call)
| TypeError
| IndexError.

Inductive Outcome (A : Type) :=
| Returned (a : A)
| Raised (e : Exn).
Arguments Returned {A} a.
Arguments Raised {A} e.

Definition M (A : Type) : Type := World -> Outcome A * World.

#[global] Instance M_ret : MRet M := fun A a w => (Returned a, w).

#[global] Instance M_bind : MBind M := fun A B f m w =>
  match m w with
  | (Returned a, w') => f a w'
  | (Raised e, w') => (Raised e, w')
  end.

Definition raise {A} (e : Exn) : M A := fun w => (Raised e, w).

(** [try: body  except Exception: handler] *)
Definition try_except {A} (body handler : M A) : M A := fun w =>
  match body w with
  | (Returned a, w') => (Returned a, w')
  | (Raised _, w') => handler w'
  end.

Definition set_fsm (d : FsmData) (w : World) : World :=
  {| fsm := d; users_file := users_file w; sent := sent w; log := log w |}.

Definition set_users_file (u : option (list Z)) (w : World) : World :=
  {| fsm := fsm w; users_file := u; sent := sent w; log := log w |}.

(** [await state.get_data()] *)
Definition get_data : M FsmData := fun w => (Returned (fsm w), w).

(** [await state.update_data(...)]: the given keys are overwritten. *)
Definition update_data (f : FsmData -> FsmData) : M unit :=
  fun w => (Returned tt, set_fsm (f (fsm w)) w).

Definition logger (e : LogEvent) : M unit := fun w =>
  (Returned tt,
   {| fsm := fsm w; users_file := users_file w; sent := sent w;
      log := log w ++ [e] |}).

(** One call on the transport, recorded with its outcome. *)
Definition transport (E : Env) (c : Call) : M unit := fun w =>
  let ok := transport_ok E (length (sent w)) c in
  let w' := {| fsm := fsm w; users_file := users_file w;
               sent := sent w ++ [(c, ok)]; log := log w |} in
  if ok then (Returned tt, w') else (Raised (TransportError c), w').

(** [SYSTEM_TEXTS.get(key)] *)
Definition system_text (E : Env) (key : string) : PyVal :=
  default PNone (SYSTEM_TEXTS E !! key).

(** The incoming update. *)
Record Message := {
  msg_text : option pystr;
  msg_photo : bool;
  msg_document : bool;
  from_user_id : Z;
  msg_chat_id : Z;
  message_id : Z
}.

Definition answer (E : Env) (message : Message) (text : PyVal)
    (reply_markup : option ReplyMarkup) (parse_mode : option ParseMode) : M unit :=
  transport E (MessageAnswer (msg_chat_id message) text reply_markup parse_mode).

(* ===================================================================== *)
(** * [flow_core]: steps and the flow manager *)
(* ===================================================================== *)

(** [Step.text]: [None], a string, or a function of the meta data. *)
Inductive StepText :=
| TextNone
| TextStr (s : pystr)
| TextFn (f : gmap string Pending -> pystr).

(** An answer's action dictionary, read with [.get]. *)
Record Action := {
  action_type : option pystr;
  action_target : option pystr;
  action_payload : option PyVal
}.

(** A value of the map built for a step: [{"orig": ..., "action": ...}]. *)
Record ActionEntry := {
  orig : pystr;
  action : Action
}.

(** A Python [dict] with string keys, in insertion order. *)
Fixpoint dict_get {V} (k : pystr) (d : list (pystr * V)) : option V :=
  match d with
  | [] => None
  | (k', v) :: d' => if bool_decide (k = k') then Some v else dict_get k d'
  end.

Fixpoint dict_set {V} (k : pystr) (v : V) (d : list (pystr * V)) : list (pystr * V) :=
  match d with
  | [] => [(k, v)]
  | (k', v') :: d' =>
      if bool_decide (k = k') then (k', v) :: d' else (k', v') :: dict_set k v d'
  end.

Definition dict_values {V} (d : list (pystr * V)) : list V := map snd d.

(** The two handler closures [bot_app] creates, by what they capture:
    [make_on_enter(doc)] and [make_on_message(map_local)]. *)
Record Step := {
  id : pystr;
  text : StepText;
  reply_keyboard_descriptor : option (list (list pystr));
  on_enter : option pystr;
  on_message : option (list (pystr * ActionEntry));
  preformatted_md : bool
}.

Record FlowManager := {
  name : pystr;
  steps : gmap pystr Step
}.

Section FlowCore.
Context (E : Env).

Definition add_step (fm : FlowManager) (s : Step) : FlowManager :=
  {| name := name fm; steps := <[id s := s]> (steps fm) |}.

Definition get_step (fm : FlowManager) (step_id : option pystr) : M (option Step) :=
  logger (LogGetStep step_id);;
  mret (sid ← step_id; steps fm !! sid).

(** [on_enter_fn] of [make_on_enter(doc)] *)
Definition on_enter_fn (doc : pystr) (message : Message) : M unit :=
  if path_exists E doc
  then transport E (MessageAnswerDocument (msg_chat_id message) doc)
  else mret tt.

Definition _enter_step (message : Message) (s : Step) : M unit :=
  ctx ← get_data;
  let meta := default ∅ (meta ctx) in
  let text :=
    match text s with
    | TextFn f => f meta
    | TextStr t => t
    | TextNone => []
    end in
  logger (LogEnterStep (from_user_id message) (id s));;
  reply_kb ←
    match reply_keyboard_descriptor s with
    | Some (row :: rows) =>
        logger (LogReplyOptions (id s) (row :: rows));;
        mret (ReplyKeyboardMarkup (row :: rows) true)
    | _ => mret ReplyKeyboardRemove
    end;
  match on_enter s with
  | Some doc =>
      logger (LogCallOnEnter (id s) (from_user_id message));;
      on_enter_fn doc message
  | None => mret tt
  end;;
  match text with
  | [] => mret tt
  | _ =>
      logger (LogSendText (id s) (from_user_id message));;
      answer E message (PStr (escape_str text (preformatted_md s)))
        (Some reply_kb) (Some MARKDOWN_V2)
  end.

(** [FlowManager.start].  The target is what the caller passes: a string,
    or [None] when an action has no ["target"]. *)
Definition start (fm : FlowManager) (message : Message) (step_id : option pystr) : M unit :=
  s ← get_step fm step_id;
  match s with
  | None =>
      match step_id with
      | Some sid =>
          answer E message (escape_md_v2 (PStr (py "Шаг не найден: " ++ sid)) false)
            None (Some MARKDOWN_V2)
      | None => raise TypeError
      end
  | Some s =>
      update_data (fun d =>
        {| flow := Some (name fm); step := step_id; meta := Some ∅;
           awaiting_broadcast := awaiting_broadcast d |});;
      logger (LogStart (from_user_id message) (default [] step_id));;
      _enter_step message s
  end.

End FlowCore.

(* ===================================================================== *)
(** * [bot_app]: building the flow and handling a message *)
(* ===================================================================== *)

(** One entry of a step's ["answers"] list. *)
Record Answer := {
  label : pystr;
  answer_action : option Action
}.

(** The ["text"] of a script step: a string, or lines to be joined. *)
Inductive ScriptText :=
| ScriptStr (s : pystr)
| ScriptLines (lines : list pystr).

(** One value of [SCRIPT_STEPS]. *)
Record StepInfo := {
  info_text : option ScriptText;
  info_answers : option (list Answer);
  info_document : option pystr;
  info_md_v2 : bool
}.

(** The empty dictionary [{}] as an action. *)
Definition no_action : Action :=
  {| action_type := None; action_target := None; action_payload := None |}.

(** [sep.join(parts)] *)
Fixpoint str_join (sep : pystr) (parts : list pystr) : pystr :=
  match parts with
  | [] => []
  | [p] => p
  | p :: ps => p ++ sep ++ str_join sep ps
  end.

(** [admins.ADMIN_ID] used as a condition: [None] and [0] are false. *)
Definition truthy_id (a : option Z) : option Z :=
  match a with
  | Some z => if (z =? 0)%Z then None else Some z
  | None => None
  end.

Definition nonempty (s : option pystr) : bool :=
  match s with Some (_ :: _) => true | _ => false end.

(** The value stored for an answer:
    [{"orig": ans["label"], "action": ans.get("action", {})}]. *)
Definition entry_of (ans : Answer) : ActionEntry :=
  {| orig := label ans; action := default no_action (answer_action ans) |}.

Section BotApp.
Context `{CaseProps} (E : Env).

(** The dictionary comprehension that maps each normalised label to its
    original label and action; a later answer with the same normalised
    label overwrites the earlier value. *)
Definition build_action_map (answers : list Answer) : list (pystr * ActionEntry) :=
  fold_left
    (fun d ans => dict_set (normalize_label (Some (label ans))) (entry_of ans) d)
    answers [].

(** The body of the loop of [build_flow_from_struct] for one step. *)
Definition build_step (step_id : pystr) (info : StepInfo) : Step :=
  let text :=
    match info_text info with
    | None => []
    | Some (ScriptStr s) => s
    | Some (ScriptLines lines) => str_join [0x0A%N] lines
    end in
  let answers := default [] (info_answers info) in
  let on_enter := if nonempty (info_document info) then info_document info else None in
  match answers with
  | [] =>
      {| id := step_id; text := TextStr text; reply_keyboard_descriptor := None;
         on_enter := on_enter; on_message := None;
         preformatted_md := info_md_v2 info |}
  | _ =>
      {| id := step_id; text := TextStr text;
         reply_keyboard_descriptor := Some (map (fun ans => [label ans]) answers);
         on_enter := on_enter;
         on_message := Some (build_action_map answers);
         preformatted_md := info_md_v2 info |}
  end.

Definition build_flow_from_struct (steps_struct : list (pystr * StepInfo)) : FlowManager :=
  fold_left (fun fm kv => add_step fm (build_step (fst kv) (snd kv)))
    steps_struct {| name := py "script_flow"; steps := ∅ |}.

Definition set_meta (m : gmap string Pending) (d : FsmData) : FsmData :=
  {| flow := flow d; step := step d; meta := Some m;
     awaiting_broadcast := awaiting_broadcast d |}.

(** The admin's controls under a forwarded receipt. *)
Definition decision_keyboard (user : Z) (order_tag : pystr) : ReplyMarkup :=
  InlineKeyboardMarkup
    [[ {| button_text := py "Подтвердить";
          callback_data := py "pay_confirm:" ++ str_of_int user ++ py ":" ++ order_tag |};
       {| button_text := py "Отклонить";
          callback_data := py "pay_decline:" ++ str_of_int user ++ py ":" ++ order_tag |} ]].

Definition notice (message : Message) (key : string) : M unit :=
  answer E message (escape_md_v2 (system_text E key) false) None (Some MARKDOWN_V2).

(** [on_msg] of [make_on_message(map_local)]; [fm] is the flow the
    closure captured. *)
Definition on_msg (fm : FlowManager) (map_local : list (pystr * ActionEntry))
    (message : Message) : M unit :=
  ctx ← get_data;
  let user_meta := default ∅ (meta ctx) in
  match (if msg_photo message || msg_document message
         then user_meta !! "pending_payment"%string else None) with
  | Some pending =>
      let order_tag := order_tag pending in
      let method := method pending in
      match truthy_id (ADMIN_ID E) with
      | Some admin_id =>
          try_except
            (transport E (BotForwardMessage admin_id (msg_chat_id message) (message_id message));;
             transport E
               (BotSendMessage admin_id
                  (escape_md_v2
                     (PStr (py "Платёж от user_id=" ++ str_of_int (from_user_id message)
                            ++ py ", order=" ++ order_tag ++ py ", method=" ++ method))
                     false)
                  (Some (decision_keyboard (from_user_id message) order_tag))
                  (Some MARKDOWN_V2));;
             notice message "receipt_sent")
            (notice message "receipt_send_failed")
      | None => notice message "no_admin"
      end;;
      update_data (set_meta (delete "pending_payment"%string user_meta))
  | None =>
      let txt_raw := default [] (msg_text message) in
      let txt := normalize_label (Some txt_raw) in
      match dict_get txt map_local with
      | None =>
          ctx_now ← get_data;
          let current_step := step ctx_now in
          let available := map orig (dict_values map_local) in
          logger (LogUnmatched (from_user_id message) current_step
                    (take 200 txt_raw) (take 200 txt) available);;
          notice message "use_buttons"
      | Some act_entry =>
          let act := action act_entry in
          let kind := action_type act in
          if startswith (str_lower txt) (py "оплатил") then
            let order_tag := str_of_int (int_of_float (time_time E)) in
            let user_meta :=
              <["pending_payment"%string := {| order_tag := order_tag; method := txt |}]>
                user_meta in
            update_data (set_meta user_meta);;
            answer E message (escape_md_v2 (system_text E "send_receipt_instr") false)
              (Some ReplyKeyboardRemove) (Some MARKDOWN_V2)
          else if bool_decide (kind = Some (py "goto")) then
            start E fm message (action_target act)
          else if bool_decide (kind = Some (py "screenshot")) then
            (if path_exists E (py "screenshot1.png")
             then transport E (MessageAnswerPhoto (msg_chat_id message) (py "screenshot1.png"))
             else mret tt);;
            (if path_exists E (py "screenshot2.png")
             then transport E (MessageAnswerPhoto (msg_chat_id message) (py "screenshot2.png"))
             else mret tt);;
            (if nonempty (action_target act)
             then start E fm message (action_target act)
             else mret tt)
          else if bool_decide (kind = Some (py "raw")) then
            answer E message
              (escape_md_v2 (default (PStr []) (action_payload act)) false)
              None (Some MARKDOWN_V2)
          else notice message "unknown_action"
      end
  end.

(** [FlowManager.handle_message] *)
Definition handle_message (fm : FlowManager) (message : Message) : M unit :=
  ctx ← get_data;
  match step ctx with
  | None | Some [] => mret tt
  | Some current_step_id =>
      s ← get_step fm (Some current_step_id);
      match s ≫= on_message with
      | Some map_local =>
          logger (LogHandleMessage (from_user_id message) current_step_id (msg_text message));;
          on_msg fm map_local message
      | None =>
          logger (LogNoHandler current_step_id (from_user_id message));;
          answer E message
            (escape_md_v2 (PStr (py "Пожалуйста, используйте кнопки на клавиатуре.")) false)
            None (Some MARKDOWN_V2)
      end
  end.

(* ===================================================================== *)
(** * [bot_app]: known users and the broadcast *)
(* ===================================================================== *)

(** [sorted(users)] *)
Definition sorted (users : gset Z) : list Z := merge_sort Z.le (elements users).

(** [load_users]: the set read from the file, empty when it cannot be
    read. *)
Definition load_users : M (gset Z) := fun w =>
  (Returned (match users_file w with Some l => list_to_set l | None => ∅ end), w).

(** [save_users]: a failed write is caught and logged. *)
Definition save_users (users : gset Z) : M unit :=
  match write_users E (sorted users) with
  | Written => fun w => (Returned tt, set_users_file (Some (sorted users)) w)
  | OpenFailed => logger (LogException "save_users")
  | DumpFailed =>
      (fun w => (Returned tt, set_users_file None w));;
      logger (LogException "save_users")
  end.

Definition add_user (uid : Z) : M unit :=
  users ← load_users;
  if bool_decide (uid ∈ users) then mret tt else save_users ({[uid]} ∪ users).

(** The [for uid in sorted(users)] loop; [sent_count] is the counter
    [sent] on entry. *)
Fixpoint broadcast_loop (payload : pystr) (uids : list Z) (sent_count : Z) : M Z :=
  match uids with
  | [] => mret sent_count
  | uid :: uids' =>
      sent_count' ←
        try_except
          (transport E (BotSendMessage uid (escape_md_v2 (PStr payload) false)
                          None (Some MARKDOWN_V2));;
           mret (sent_count + 1)%Z)
          (logger (LogBroadcastFailed uid);; mret sent_count);
      broadcast_loop payload uids' sent_count'
  end.

Definition broadcast_report (sent_count : Z) : pystr :=
  py "Рассылка выполнена. Отправлено: " ++ str_of_int sent_count ++ py " пользователям.".

(** Load the users, send to each, report the count: the block that
    [cmd_broadcast] and both broadcast branches of [all_messages]
    contain. *)
Definition broadcast (message : Message) (payload : pystr) : M unit :=
  users ← load_users;
  sent_count ← broadcast_loop payload (sorted users) 0%Z;
  answer E message (PStr (broadcast_report sent_count)) None None.

(** [text.split(" ", 1)[1]] *)
Definition after_first_space (s : pystr) : option pystr :=
  match drop_while (fun c => negb (c =? 0x20)%N) s with
  | _ :: rest => Some rest
  | [] => None
  end.

Definition broadcast_instr : pystr :=
  py "Отправьте сообщение рассылки в следующем формате:

<текст рассылки>

Примечание: сейчас рассылка отправляет только текстовые сообщения без inline‑кнопок.
Кнопки можно вернуть позже — тогда потребуется реализовать обработчики callback'ов.

Пример:
Привет! У нас обновление.
(отправьте простой текст, он будет разослан всем пользователям)".

Definition is_admin (message : Message) : bool :=
  bool_decide (Some (from_user_id message) = ADMIN_ID E).

Definition set_awaiting_broadcast (b : bool) (d : FsmData) : FsmData :=
  {| flow := flow d; step := step d; meta := meta d; awaiting_broadcast := Some b |}.

(** The [/broadcast] command handler. *)
Definition cmd_broadcast (message : Message) : M unit :=
  if negb (is_admin message) then
    answer E message (PStr (py "Только администратор может использовать эту команду.")) None None
  else
    let text := str_strip (default [] (msg_text message)) in
    if startswith text (py "/broadcast ") then
      match after_first_space text with
      | None => raise IndexError
      | Some rest =>
          let payload := str_strip rest in
          match payload with
          | [] => answer E message (PStr (py "Пустое сообщение рассылки, отмена.")) None None
          | _ => broadcast message payload
          end
      end
    else
      update_data (set_awaiting_broadcast true);;
      answer E message (PStr broadcast_instr) None None.

(** The [/start] command handler. *)
Definition cmd_start (fm : FlowManager) (message : Message) : M unit :=
  add_user (from_user_id message);;
  start E fm message (Some (py "1")).

(** The handler of every message that is not a command.  Each guarded
    block yields [true] when it ends the handler with [return]. *)
Definition all_messages (script_flow : FlowManager) (message : Message) : M unit :=
  ctx ← get_data;
  logger (LogIncoming (from_user_id message) (msg_chat_id message) (msg_text message) ctx);;
  if startswith (default [] (msg_text message)) (py "/")
  then logger (LogIgnoringCommand (default [] (msg_text message)))
  else
    add_user (from_user_id message);;
    let text := str_strip (default [] (msg_text message)) in
    done ←
      try_except
        (if startswith text (py "/broadcast ") then
           (if is_admin message then
              match after_first_space text with
              | None => raise IndexError
              | Some rest =>
                  let payload := str_strip rest in
                  match payload with
                  | [] => answer E message (PStr (py "Пустое сообщение рассылки, отмена.")) None None
                  | _ =>
                      logger (LogBroadcastRequest (length payload));;
                      broadcast message payload
                  end
              end
            else
              answer E message (PStr (py "Только администратор может запускать рассылку.")) None None);;
           mret true
         else mret false)
        (logger (LogException "immediate broadcast");; mret false);
    if (done : bool) then mret tt
    else
      done ←
        try_except
          (ctx ← get_data;
           if default false (awaiting_broadcast ctx) && is_admin message then
             let payload := text in
             match payload with
             | [] =>
                 answer E message
                   (PStr (py "Пустое сообщение рассылки. Отправьте текст или отмените.")) None None
             | _ =>
                 logger (LogBroadcastRequest (length payload));;
                 broadcast message payload;;
                 update_data (set_awaiting_broadcast false)
             end;;
             mret true
           else mret false)
          (logger (LogException "awaiting broadcast");; mret false);
      if (done : bool) then mret tt
      else
        try_except
          (ctx ← get_data;
           if bool_decide (flow ctx = Some (name script_flow))
           then handle_message script_flow message
           else mret tt)
          (logger (LogException "handle_message")).

End BotApp.

(* ===================================================================== *)
(** * Specification-side definitions for [normalize_label] *)
(* ===================================================================== *)

Section NormalizeSpec.
Local Open Scope N_scope.

(** A curly quote that [normalize_label] rewrites. *)
Definition is_curly (c : N) : bool :=
  (c =? 0x2018) || (c =? 0x2019) || (c =? 0x201C) || (c =? 0x201D).

(** A character that [normalize_label] leaves alone inside a word. *)
Definition wordchar (c : N) : bool :=
  negb (Py_UNICODE_ISSPACE c) && negb (is_curly c).

(** A character that [str.lower] maps to itself in every context. *)
Definition lower_stable (c : N) : bool :=
  negb (c =? 0x3A3) &&
  match assoc c lower_table with None => true | Some _ => false end.

Definition image_ok (v : pystr) : bool :=
  match v with [] => false | _ => forallb (fun d => wordchar d && lower_stable d) v end.

(** Words of [wordchar]s separated by single spaces; [prev_sp] forbids a
    space at the front. *)
Fixpoint loose_from (prev_sp : bool) (s : pystr) : bool :=
  match s with
  | [] => true
  | c :: s' =>
      if c =? 0x20 then negb prev_sp && loose_from true s'
      else wordchar c && loose_from false s'
  end.

(** The shape of a normalised label: no space at either end. *)
Definition tidy (s : pystr) : Prop :=
  loose_from true s = true /\ List.last s 0 <> 0x20.

(** The five replacements at the head of [normalize_label]. *)
Definition replace_quotes (s : pystr) : pystr :=
  str_replace1 0x201D 0x22 (str_replace1 0x201C 0x22
    (str_replace1 0x2018 0x27 (str_replace1 0x2019 0x27
      (str_replace1 0xA0 0x20 s)))).

End NormalizeSpec.

(* ===================================================================== *)
(** * Specification-side definitions for the escaper *)
(* ===================================================================== *)

Section EscapeSpec.
Local Open Scope N_scope.

(** Written from the specification's words: the occurrences of [marker]
    are numbered left to right and grouped (1st,2nd), (3rd,4th), ...; the
    occurrence number [k] (from 0) of [n] lies in a complete pair when the
    second member of its pair exists. *)
Definition in_complete_pair (k n : nat) : bool :=
  (2 * Nat.div2 k + 1 <? n)%nat.

Fixpoint pair_markers_from (k n : nat) (marker : N) (s : pystr) : pystr :=
  match s with
  | [] => []
  | c :: s' =>
      if c =? marker
      then (if in_complete_pair k n then [c] else [BACKSLASH; c])
             ++ pair_markers_from (S k) n marker s'
      else c :: pair_markers_from k n marker s'
  end.

Definition pair_markers (marker : N) (s : pystr) : pystr :=
  pair_markers_from 0 (length (List.filter (N.eqb marker) s)) marker s.

(** The five characters named by the specification's escaping property:
    [_ * . ! -]. *)
Definition must_escape (c : N) : bool :=
  existsb (N.eqb c) [0x5F; 0x2A; 0x2E; 0x21; 0x2D].

(** Reading a MarkdownV2 text left to right, a backslash escapes the
    character after it; [no_unescaped bad s] holds when no [bad] character
    is met outside such an escape. *)
Fixpoint no_unescaped (bad : N -> bool) (s : pystr) : bool :=
  match s with
  | [] => true
  | c :: s' =>
      if c =? BACKSLASH
      then match s' with
           | [] => true
           | _ :: s'' => no_unescaped bad s''
           end
      else negb (bad c) && no_unescaped bad s'
  end.

(** Every [bad] character has a backslash right in front of it. *)
Definition backslash_before (bad : N -> bool) (s : pystr) : Prop :=
  forall (i : nat) (c : N),
    s !! i = Some c -> bad c = true ->
    exists j, i = S j /\ s !! j = Some BACKSLASH.

(** The two substitutions of the [allow_markdown=False] path amount to
    one pass that puts a backslash before every character of either
    class. *)
Definition plain_escape_char (c : N) : pystr :=
  if base_pattern c || emphasis_pattern c then [BACKSLASH; c] else [c].

(** Positions of [marker] in [s] when [s] starts at index [off]. *)
Definition positions_from (marker : N) (off : nat) (s : pystr) : list nat :=
  map fst (List.filter (fun ic => N.eqb (snd ic) marker)
             (combine (seq off (length s)) s)).

End EscapeSpec.

(* ===================================================================== *)
(** * Specification-side definitions for the handlers *)
(* ===================================================================== *)

(** The payment-intent trigger word. *)
Definition PAYMENT_TRIGGER : pystr := py "оплатил".

(** [meta.pendingPayment] of the session. *)
Definition pending_of (w : World) : option Pending :=
  default ∅ (meta (fsm w)) !! "pending_payment"%string.

(** The pending payment a receipt upload refers to: the message carries a
    photo or a document while a payment is pending. *)
Definition receipt_upload (message : Message) (w : World) : option Pending :=
  if msg_photo message || msg_document message then pending_of w else None.

(** The reply that carries the system text [key]. *)
Definition notice_call (E : Env) (message : Message) (key : string) : Call :=
  MessageAnswer (msg_chat_id message) (escape_md_v2 (system_text E key) false)
    None (Some MARKDOWN_V2).

(** How a handler ends when its last action is the call [c]. *)
Definition ends_with (ok : bool) (c : Call) : Outcome unit :=
  if ok then Returned tt else Raised (TransportError c).

(** The transport accepts every reply into the chat of [message]. *)
Definition replies_delivered (E : Env) (message : Message) : Prop :=
  forall n text markup mode,
    transport_ok E n (MessageAnswer (msg_chat_id message) text markup mode) = true.

(** The normalised text of a message, as [on_msg] computes it. *)
Definition normalized_text `{CaseProps} (message : Message) : pystr :=
  normalize_label (Some (default [] (msg_text message))).

(** The forward of a receipt and the note that follows it. *)
Definition forward_call (admin_id : Z) (message : Message) : Call :=
  BotForwardMessage admin_id (msg_chat_id message) (message_id message).

Definition admin_note_call (admin_id : Z) (message : Message) (p : Pending) : Call :=
  BotSendMessage admin_id
    (escape_md_v2
       (PStr (py "Платёж от user_id=" ++ str_of_int (from_user_id message)
              ++ py ", order=" ++ order_tag p ++ py ", method=" ++ method p))
       false)
    (Some (decision_keyboard (from_user_id message) (order_tag p)))
    (Some MARKDOWN_V2).

(** One broadcast send. *)
Definition broadcast_call (payload : pystr) (uid : Z) : Call :=
  BotSendMessage uid (escape_md_v2 (PStr payload) false) None (Some MARKDOWN_V2).

(** What the transport answers to the sends of a broadcast to [uids] that
    starts when [n] calls were made before. *)
Fixpoint send_outcomes (E : Env) (payload : pystr) (n : nat) (uids : list Z) : list bool :=
  match uids with
  | [] => []
  | uid :: uids' =>
      transport_ok E n (broadcast_call payload uid)
        :: send_outcomes E payload (S n) uids'
  end.

(** The number of failed sends among the recorded outcomes. *)
Definition failures (outcomes : list bool) : nat :=
  length (List.filter negb outcomes).

(** The users whose send was refused, in sending order. *)
Definition refused_users (uids : list Z) (outcomes : list bool) : list Z :=
  map fst (List.filter (fun uo => negb (snd uo)) (combine uids outcomes)).

(** ** Sample data for the examples *)

(** Case properties for texts without a capital sigma, where they are
    never consulted. *)
Definition no_sigma_context : CaseProps :=
  {| _PyUnicode_IsCased := fun _ => false;
     _PyUnicode_IsCaseIgnorable := fun _ => false |}.

Definition sample_texts : gmap string PyVal :=
  {[ "use_buttons"%string := PStr (py "Use the buttons.");
     "send_receipt_instr"%string := PStr (py "Send your receipt.");
     "receipt_sent"%string := PStr (py "Receipt sent.");
     "receipt_send_failed"%string := PStr (py "Could not send the receipt.") ]}.

(** An environment with admin 7 in which the transport refuses exactly
    the calls for which [refuse] holds. *)
Definition sample_env (refuse : Call -> bool) (now : Q) : Env :=
  {| transport_ok := fun _ c => negb (refuse c);
     path_exists := fun _ => true;
     time_time := now;
     write_users := fun _ => Written;
     ADMIN_ID := Some 7%Z;
     SYSTEM_TEXTS := sample_texts |}.

Definition is_forward (c : Call) : bool :=
  match c with BotForwardMessage _ _ _ => true | _ => false end.

Definition is_reply (c : Call) : bool :=
  match c with MessageAnswer _ _ _ _ => true | _ => false end.

Definition sample_answers : list Answer :=
  [ {| label := py "Да";
       answer_action := Some {| action_type := Some (py "goto");
                                action_target := Some (py "2");
                                action_payload := None |} |};
    {| label := py "Оплатил картой";
       answer_action := Some {| action_type := Some (py "goto");
                                action_target := Some (py "2");
                                action_payload := None |} |} ].

Definition sample_script : list (pystr * StepInfo) :=
  [ (py "1", {| info_text := Some (ScriptStr (py "Готовы?"));
                info_answers := Some sample_answers;
                info_document := None; info_md_v2 := false |});
    (py "2", {| info_text := Some (ScriptStr (py "Спасибо."));
                info_answers := None;
                info_document := None; info_md_v2 := false |}) ].

Definition sample_message (user : Z) (t : option pystr) (photo : bool) : Message :=
  {| msg_text := t; msg_photo := photo; msg_document := false;
     from_user_id := user; msg_chat_id := user; message_id := 100 |}.

(** A session standing at step 1 of the sample script. *)
Definition sample_world (m : gmap string Pending) : World :=
  {| fsm := {| flow := Some (py "script_flow"); step := Some (py "1");
               meta := Some m; awaiting_broadcast := None |};
     users_file := Some [5; 3; 9]%Z;
     sent := [];
     log := [] |}.

Definition sample_flow : FlowManager :=
  build_flow_from_struct (H := no_sigma_context) sample_script.

Definition sample_map : list (pystr * ActionEntry) :=
  build_action_map (H := no_sigma_context) sample_answers.

(** Nothing is refused; the clock reads 1700000000.25 s. *)
Definition quiet_env : Env := sample_env (fun _ => false) (6800000001 # 4)%Q.

(** The same, half a second later. *)
Definition later_env : Env := sample_env (fun _ => false) (6800000003 # 4)%Q.

(** Only the forward to the admin is refused. *)
Definition no_forward_env : Env := sample_env is_forward (6800000001 # 4)%Q.

Definition sample_pending : Pending :=
  {| order_tag := py "1700000000"; method := py "оплатил картой" |}.

(* ===================================================================== *)
(** * Reading a computation: what it leaves alone, whether it raises *)
(* ===================================================================== *)

(** Flow, step, meta, the broadcast flag and the known-user file are as
    before. *)
Definition same_session (w w' : World) : Prop :=
  fsm w' = fsm w /\ users_file w' = users_file w.

(** The known-user file is as before. *)
Definition same_users (w w' : World) : Prop :=
  users_file w' = users_file w.

(** The FSM data are as before. *)
Definition same_fsm (w w' : World) : Prop :=
  fsm w' = fsm w.

(** [m] relates every world it starts in to the world it ends in, whether
    it returns or raises. *)
Definition stable {A} (R : World -> World -> Prop) (m : M A) : Prop :=
  forall w, R w (snd (m w)).

(** [m] returns normally from every world. *)
Definition never_raises {A} (m : M A) : Prop :=
  forall w, exists a, fst (m w) = Returned a.

(** The users a world knows: what [load_users] reads. *)
Definition known_users (w : World) : gset Z :=
  match users_file w with Some l => list_to_set l | None => ∅ end.

(** The text [_enter_step] resolves for a step, given the meta data. *)
Definition resolved_text (s : Step) (m : gmap string Pending) : pystr :=
  match text s with
  | TextFn f => f m
  | TextStr t => t
  | TextNone => []
  end.

(** The keyboard [_enter_step] attaches to the step text. *)
Definition keyboard_of (s : Step) : ReplyMarkup :=
  match reply_keyboard_descriptor s with
  | Some (row :: rows) => ReplyKeyboardMarkup (row :: rows) true
  | _ => ReplyKeyboardRemove
  end.

(** The session data right after [start] has stored its target. *)
Definition started_at (fm : FlowManager) (target : pystr) (d : FsmData) : FsmData :=
  {| flow := Some (name fm); step := Some target; meta := Some ∅;
     awaiting_broadcast := awaiting_broadcast d |}.

(** The reply that carries the text of a step. *)
Definition step_text_call (message : Message) (s : Step) (m : gmap string Pending) : Call :=
  MessageAnswer (msg_chat_id message)
    (PStr (escape_str (resolved_text s m) (preformatted_md s)))
    (Some (keyboard_of s)) (Some MARKDOWN_V2).

(** The "step not found" reply of [start]. *)
Definition step_not_found_call (message : Message) (target : pystr) : Call :=
  MessageAnswer (msg_chat_id message)
    (PStr (escape_str (py "Шаг не найден: " ++ target) false))
    None (Some MARKDOWN_V2).

(** The generic reply of [handle_message] for a step without handler. *)
Definition use_keyboard_call (message : Message) : Call :=
  MessageAnswer (msg_chat_id message)
    (PStr (escape_str (py "Пожалуйста, используйте кнопки на клавиатуре.") false))
    None (Some MARKDOWN_V2).

(** The document a step sends on entry. *)
Definition step_document_call (message : Message) (doc : pystr) : Call :=
  MessageAnswerDocument (msg_chat_id message) doc.

(** The world in which [handle_message] hands the message to the step's
    handler: only the log has grown. *)
Definition delegated (message : Message) (sid : pystr) (w : World) : World :=
  {| fsm := fsm w; users_file := users_file w; sent := sent w;
     log := log w ++ [LogGetStep (Some sid);
                      LogHandleMessage (from_user_id message) sid (msg_text message)] |}.

(** The reply of a [raw] action. *)
Definition raw_call (message : Message) (a : Action) : Call :=
  MessageAnswer (msg_chat_id message)
    (escape_md_v2 (default (PStr []) (action_payload a)) false)
    None (Some MARKDOWN_V2).

(** The photos a [screenshot] action sends: of the two fixed files, those
    that exist. *)
Definition screenshot_calls (E : Env) (message : Message) : list Call :=
  map (MessageAnswerPhoto (msg_chat_id message))
    (List.filter (path_exists E) [py "screenshot1.png"; py "screenshot2.png"]).

(** The transport accepts every photo sent into the chat of [message]. *)
Definition photos_delivered (E : Env) (message : Message) : Prop :=
  forall n path, transport_ok E n (MessageAnswerPhoto (msg_chat_id message) path) = true.

(** The last answer of [answers] whose normalised label is [k]. *)
Fixpoint last_answer `{CaseProps} (k : pystr) (answers : list Answer) : option Answer :=
  match answers with
  | [] => None
  | ans :: answers' =>
      match last_answer k answers' with
      | Some later => Some later
      | None =>
          if bool_decide (normalize_label (Some (label ans)) = k) then Some ans else None
      end
  end.

(** The last entry of the script that is registered under the id [k]. *)
Fixpoint last_info (k : pystr) (script : list (pystr * StepInfo)) : option StepInfo :=
  match script with
  | [] => None
  | (k', info) :: script' =>
      match last_info k script' with
      | Some later => Some later
      | None => if bool_decide (k' = k) then Some info else None
      end
  end.

(** The world after [add_user]: unchanged for a known user; for a new
    one the file holds the sorted list when the write succeeds, and the
    failure is logged when it does not. *)
Definition with_user (E : Env) (uid : Z) (w : World) : World :=
  if bool_decide (uid ∈ known_users w) then w
  else
    match write_users E (sorted ({[uid]} ∪ known_users w)) with
    | Written => set_users_file (Some (sorted ({[uid]} ∪ known_users w))) w
    | OpenFailed =>
        {| fsm := fsm w; users_file := users_file w; sent := sent w;
           log := log w ++ [LogException "save_users"] |}
    | DumpFailed =>
        {| fsm := fsm w; users_file := None; sent := sent w;
           log := log w ++ [LogException "save_users"] |}
    end.

(** The known-user file takes the list that records [uid], when [uid]
    is not known yet. *)
Definition can_record (E : Env) (uid : Z) (w : World) : Prop :=
  uid ∈ known_users w \/
  write_users E (sorted ({[uid]} ∪ known_users w)) = Written.

(** The world in which [all_messages] starts to look at a message that is
    not a command: the message is logged and its sender recorded. *)
Definition received (E : Env) (message : Message) (w : World) : World :=
  with_user E (from_user_id message)
    {| fsm := fsm w; users_file := users_file w; sent := sent w;
       log := log w ++ [LogIncoming (from_user_id message) (msg_chat_id message)
                          (msg_text message) (fsm w)] |}.

(** The report that ends a broadcast. *)
Definition report_call (message : Message) (sent_count : Z) : Call :=
  MessageAnswer (msg_chat_id message) (PStr (broadcast_report sent_count)) None None.

(** The calls of a whole broadcast of [payload] to [users] that starts
    when [n] calls were made before: one send per user in increasing
    order, then the report. *)
Definition broadcast_trace (E : Env) (message : Message) (payload : pystr)
    (users : gset Z) (n : nat) : list (Call * bool) :=
  let outcomes := send_outcomes E payload n (sorted users) in
  let report :=
    report_call message (Z.of_nat (size users) - Z.of_nat (failures outcomes)) in
  combine (map (broadcast_call payload) (sorted users)) outcomes
  ++ [(report, transport_ok E (n + size users) report)].

(** The plain replies of the broadcast command. *)
Definition plain_call (message : Message) (t : pystr) : Call :=
  MessageAnswer (msg_chat_id message) (PStr t) None None.

(* ===================================================================== *)
(** * Reading an escaped text *)
(* ===================================================================== *)

Section EscapeReading.
Local Open Scope N_scope.

(** What a MarkdownV2 reader takes the characters of an escaped text to
    be: a backslash is dropped and the character after it is taken as it
    is. *)
Fixpoint unescape (s : pystr) : pystr :=
  match s with
  | [] => []
  | c :: s' =>
      if c =? BACKSLASH
      then match s' with
           | [] => []
           | d :: s'' => d :: unescape s''
           end
      else c :: unescape s'
  end.

(** The number of occurrences of [marker] that are not escaped. *)
Fixpoint live (marker : N) (s : pystr) : nat :=
  match s with
  | [] => 0%nat
  | c :: s' =>
      if c =? BACKSLASH
      then match s' with
           | [] => 0%nat
           | _ :: s'' => live marker s''
           end
      else ((if (c =? marker)%N then 1 else 0) + live marker s')%nat
  end.

(** An escaped text as the sequence of its characters, each with the
    information whether a backslash stands in front of it. *)
Definition render (toks : list (bool * N)%type) : pystr :=
  flat_map (fun t : (bool * N)%type => if fst t then [BACKSLASH; snd t] else [snd t]) toks.

(** No backslash stands unescaped. *)
Definition plain_ok (toks : list (bool * N)%type) : bool :=
  forallb (fun t : (bool * N)%type => fst t || negb (snd t =? BACKSLASH)) toks.

(** No backslash stands unescaped, and no [marker] stands escaped. *)
Definition well_formed (marker : N) (toks : list (bool * N)%type) : bool :=
  forallb (fun t : (bool * N)%type =>
             if fst t then negb (snd t =? marker)
             else negb (snd t =? BACKSLASH)) toks.

(** The unescaped occurrences of [marker]. *)
Definition plain_count (marker : N) (toks : list (bool * N)%type) : nat :=
  length (List.filter (fun t : (bool * N)%type => negb (fst t) && (snd t =? marker)) toks).

(** The pairing pass on the characters of an escaped text. *)
Fixpoint pair_tokens_from (k n : nat) (marker : N) (toks : list (bool * N)%type)
    : list (bool * N)%type :=
  match toks with
  | [] => []
  | (e, c) :: toks' =>
      if negb e && (c =? marker)
      then (negb (in_complete_pair k n), c) :: pair_tokens_from (S k) n marker toks'
      else (e, c) :: pair_tokens_from k n marker toks'
  end.

(** The characters of the text after the base escaping. *)
Definition base_tokens (t : pystr) : list (bool * N)%type :=
  map (fun c => (base_pattern c, c)) t.

(** The characters of [escape(t, allow_markdown=True)]. *)
Definition markup_tokens (t : pystr) : list (bool * N)%type :=
  let stars := pair_tokens_from 0 (plain_count 0x2A (base_tokens t)) 0x2A (base_tokens t) in
  pair_tokens_from 0 (plain_count 0x5F stars) 0x5F stars.

(** The characters of [escape(t, allow_markdown=False)]. *)
Definition plain_tokens (t : pystr) : list (bool * N)%type :=
  map (fun c => (base_pattern c || emphasis_pattern c, c)) t.

(** The number of occurrences of a character in a text. *)
Definition occurrences (c : N) (t : pystr) : nat :=
  length (List.filter (N.eqb c) t).

End EscapeReading.

(** The transport accepts every call. *)
Definition all_delivered (E : Env) : Prop :=
  forall n c, transport_ok E n c = true.

(* ===================================================================== *)
(** * [bot_app]: the admin's payment decision callbacks *)
(* ===================================================================== *)

(** [s.split(sep)] for a separator of one character. *)
Fixpoint str_split (sep : N) (s : pystr) : list pystr :=
  match s with
  | [] => [[]]
  | c :: s' =>
      if (c =? sep)%N then [] :: str_split sep s'
      else match str_split sep s' with
           | h :: t => (c :: h) :: t
           | [] => [[c]]
           end
  end.

Definition COLON : N := 0x3A%N.

(** The pressed inline button as the handlers see it: [callback.data],
    [callback.from_user.id] and the chat of [callback.message]. *)
Record CallbackQuery := {
  cq_data : pystr;
  cq_from_user_id : Z;
  cq_chat_id : Z
}.

(** The calls of the callback handlers: [callback.answer(text)],
    [callback.bot.send_document] and the message calls of [Call]. *)
Inductive CbCall :=
| CallbackAnswer (text : PyVal)
| BotSendDocument (chat_id : Z) (path : pystr)
| Plain (c : Call).

Inductive CbExn :=
| CbTransportError (c : CbCall)
| ValueError
| AttributeError
| FormatError.

Inductive CbOutcome (A : Type) :=
| CbReturned (a : A)
| CbRaised (e : CbExn).
Arguments CbReturned {A} a.
Arguments CbRaised {A} e.

(** What the callback handlers read besides [Env]: the transport's
    answer to each call, [int(s)] ([None] when it raises [ValueError]) and
    [template.format(user_id=..., order_tag=...)] ([None] when it
    raises). *)
Record CallbackEnv := {
  callback_ok : nat -> CbCall -> bool;
  int_of_str : pystr -> option Z;
  str_format : pystr -> Z -> pystr -> option pystr
}.

(** A callback handler threads the calls made so far. *)
Definition CM (A : Type) : Type :=
  list (CbCall * bool) -> CbOutcome A * list (CbCall * bool).

Definition cb_ret {A} (a : A) : CM A := fun t => (CbReturned a, t).

Definition cb_bind {A B} (m : CM A) (k : A -> CM B) : CM B := fun t =>
  match m t with
  | (CbReturned a, t') => k a t'
  | (CbRaised e, t') => (CbRaised e, t')
  end.

Definition cb_raise {A} (e : CbExn) : CM A := fun t => (CbRaised e, t).

(** [try: body  except Exception: handler] *)
Definition cb_try {A} (body handler : CM A) : CM A := fun t =>
  match body t with
  | (CbReturned a, t') => (CbReturned a, t')
  | (CbRaised _, t') => handler t'
  end.

(** [try: body  finally: final]: [final] runs however [body] ends, and
    an exception of [final] replaces the outcome of [body]. *)
Definition cb_finally {A} (body : CM A) (final : CM unit) : CM A := fun t =>
  match body t with
  | (o, t') =>
      match final t' with
      | (CbReturned _, t'') => (o, t'')
      | (CbRaised e, t'') => (CbRaised e, t'')
      end
  end.

Section Callbacks.
Context (E : Env) (CE : CallbackEnv).

Definition cb_call (c : CbCall) : CM unit := fun t =>
  let ok := callback_ok CE (length t) c in
  if ok then (CbReturned tt, t ++ [(c, ok)])
  else (CbRaised (CbTransportError c), t ++ [(c, ok)]).

(** [SCRIPT_STEPS.get("9", {}).get("text", "")] *)
Definition text9 (script : list (pystr * StepInfo)) : PyVal :=
  match dict_get (py "9") script with
  | Some info =>
      match info_text info with
      | Some (ScriptStr s) => PStr s
      | Some (ScriptLines lines) => PList (map PStr lines)
      | None => PStr []
      end
  | None => PStr []
  end.

(** [bool(SCRIPT_STEPS.get("9", {}).get("md_v2", False))] *)
Definition allow_md9 (script : list (pystr * StepInfo)) : bool :=
  match dict_get (py "9") script with
  | Some info => info_md_v2 info
  | None => false
  end.

(** [SYSTEM_TEXTS.get("payment_confirmed_admin_notify").format(...)] *)
Definition admin_notify (user_id : Z) (order_tag : pystr) : CM pystr :=
  match system_text E "payment_confirmed_admin_notify" with
  | PStr template =>
      match str_format CE template user_id order_tag with
      | Some s => cb_ret s
      | None => cb_raise FormatError
      end
  | _ => cb_raise AttributeError
  end.

Definition cb_pay_confirm (script : list (pystr * StepInfo))
    (callback : CallbackQuery) : CM unit :=
  match str_split COLON (cq_data callback) with
  | _ :: user_id_str :: order_tag :: _ =>
      cb_finally
        (if negb (bool_decide (Some (cq_from_user_id callback) = ADMIN_ID E))
         then cb_call (CallbackAnswer (PStr (py "Only admin can confirm payments.")))
         else
           match int_of_str CE user_id_str with
           | None => cb_raise ValueError
           | Some user_id =>
               if path_exists E (py "practice.pdf") then
                 cb_bind (cb_call (BotSendDocument user_id (py "practice.pdf"))) (fun _ =>
                 cb_bind (admin_notify user_id order_tag) (fun note =>
                 cb_bind (cb_call (Plain (MessageAnswer (cq_chat_id callback)
                                     (escape_md_v2 (PStr note) false)
                                     None (Some MARKDOWN_V2)))) (fun _ =>
                 cb_try
                   (cb_call (Plain (BotSendMessage user_id
                                      (escape_md_v2 (text9 script) (allow_md9 script))
                                      None (Some MARKDOWN_V2))))
                   (cb_ret tt))))
               else
                 cb_call (CallbackAnswer (system_text E "payment_pdf_missing"))
           end)
        (cb_call (CallbackAnswer PNone))
  | _ => cb_call (CallbackAnswer PNone)
  end.

Definition cb_pay_decline (callback : CallbackQuery) : CM unit :=
  match str_split COLON (cq_data callback) with
  | _ :: user_id_str :: order_tag :: _ =>
      if negb (bool_decide (Some (cq_from_user_id callback) = ADMIN_ID E))
      then cb_call (CallbackAnswer (PStr (py "Only admin can decline payments.")))
      else
        match int_of_str CE user_id_str with
        | None => cb_raise ValueError
        | Some user_id =>
            cb_finally
              (cb_bind (cb_call (Plain (BotSendMessage user_id
                                   (escape_md_v2 (system_text E "payment_declined_user") false)
                                   None (Some MARKDOWN_V2)))) (fun _ =>
               cb_call (Plain (MessageAnswer (cq_chat_id callback)
                                 (escape_md_v2
                                    (PStr (py "Отклонено администратором для user="
                                           ++ str_of_int user_id ++ py " order=" ++ order_tag))
                                    false)
                                 None (Some MARKDOWN_V2)))))
              (cb_call (CallbackAnswer PNone))
        end
  | _ => cb_call (CallbackAnswer PNone)
  end.

End Callbacks.

(** The buttons of an inline keyboard, row after row. *)
Definition buttons (m : ReplyMarkup) : list InlineKeyboardButton :=
  match m with
  | InlineKeyboardMarkup rows => concat rows
  | _ => []
  end.

(** The calls are acknowledgements of the pressed button only. *)
Definition acks_only (l : list (CbCall * bool)) : Prop :=
  Forall (fun x => exists text, fst x = CallbackAnswer text) l.


Definition decline_filter (data : pystr) : bool :=
  startswith data (py "pay_decline:").

Section CallbackCalls.
Context (E : Env).

(** The message that tells the user of a declined payment, and the note
    the admin gets. *)
Definition declined_call (user : Z) : CbCall :=
  Plain (BotSendMessage user
           (escape_md_v2 (system_text E "payment_declined_user") false)
           None (Some MARKDOWN_V2)).

Definition declined_note_call (chat user : Z) (order_tag : pystr) : CbCall :=
  Plain (MessageAnswer chat
           (escape_md_v2
              (PStr (py "Отклонено администратором для user="
                     ++ str_of_int user ++ py " order=" ++ order_tag))
              false)
           None (Some MARKDOWN_V2)).




End CallbackCalls.

(** ** More sample data *)

(** Answers of every kind: a jump, a jump to a step that is not
    registered, a jump without target, a raw reply, a screenshot request
    and an answer without action. *)
Definition tour_answers : list Answer :=
  [ {| label := py "Дальше";
       answer_action := Some {| action_type := Some (py "goto");
                                action_target := Some (py "2");
                                action_payload := None |} |};
    {| label := py "В никуда";
       answer_action := Some {| action_type := Some (py "goto");
                                action_target := Some (py "zz");
                                action_payload := None |} |};
    {| label := py "Без цели";
       answer_action := Some {| action_type := Some (py "goto");
                                action_target := None;
                                action_payload := None |} |};
    {| label := py "Помощь";
       answer_action := Some {| action_type := Some (py "raw");
                                action_target := None;
                                action_payload := Some (PStr (py "Пишите нам.")) |} |};
    {| label := py "Скриншот";
       answer_action := Some {| action_type := Some (py "screenshot");
                                action_target := None;
                                action_payload := None |} |};
    {| label := py "Пусто"; answer_action := None |} ].

(** A script whose first step sends a document on entry and whose
    second step has no answers. *)
Definition tour_script : list (pystr * StepInfo) :=
  [ (py "1", {| info_text := Some (ScriptStr (py "Начнём."));
                info_answers := Some tour_answers;
                info_document := Some (py "guide.pdf"); info_md_v2 := false |});
    (py "2", {| info_text := Some (ScriptStr (py "Спасибо."));
                info_answers := None;
                info_document := None; info_md_v2 := false |}) ].

Definition tour_flow : FlowManager :=
  build_flow_from_struct (H := no_sigma_context) tour_script.

Definition tour_map : list (pystr * ActionEntry) :=
  build_action_map (H := no_sigma_context) tour_answers.

Definition tour_step (k : pystr) : Step :=
  default {| id := k; text := TextNone; reply_keyboard_descriptor := None;
             on_enter := None; on_message := None; preformatted_md := false |}
    (steps tour_flow !! k).

Definition tour_entry (k : pystr) : ActionEntry :=
  default {| orig := k; action := no_action |} (dict_get k tour_map).

(** The value of a string of ASCII digits with an optional minus sign. *)
Fixpoint digits_value (acc : Z) (s : pystr) : option Z :=
  match s with
  | [] => Some acc
  | c :: s' =>
      if ((0x30 <=? c) && (c <=? 0x39))%N
      then digits_value (10 * acc + Z.of_N (c - 0x30)) s'
      else None
  end.

Definition sample_int (s : pystr) : option Z :=
  match s with
  | [] => None
  | c :: d =>
      if (c =? 0x2D)%N
      then match d with [] => None | _ => Z.opp <$> digits_value 0 d end
      else digits_value 0 s
  end.

(** An environment for the decision callbacks: admin 7, every call
    accepted, the practice file in place and one template for the admin's
    note. *)
Definition decision_env : Env :=
  {| transport_ok := fun _ _ => true;
     path_exists := fun _ => true;
     time_time := 0%Q;
     write_users := fun _ => Written;
     ADMIN_ID := Some 7%Z;
     SYSTEM_TEXTS :=
       <[ "payment_confirmed_admin_notify"%string :=
            PStr (py "Confirmed {user_id} {order_tag}") ]> sample_texts |}.

Definition decision_callback_env : CallbackEnv :=
  {| callback_ok := fun _ _ => true;
     int_of_str := sample_int;
     str_format := fun template user_id order_tag =>
       if bool_decide (template = py "Confirmed {user_id} {order_tag}")
       then Some (py "Confirmed " ++ str_of_int user_id ++ py " " ++ order_tag)
       else None |}.

Definition confirm_button (user : Z) (order_tag : pystr) : InlineKeyboardButton :=
  {| button_text := py "Подтвердить";
     callback_data := py "pay_confirm:" ++ str_of_int user ++ py ":" ++ order_tag |}.

Definition decline_button (user : Z) (order_tag : pystr) : InlineKeyboardButton :=
  {| button_text := py "Отклонить";
     callback_data := py "pay_decline:" ++ str_of_int user ++ py ":" ++ order_tag |}.

(* ===================================================================== *)
(** * Specification-side readings of the escaper, of step entry, of the
      logged labels and of the broadcast report *)
(* ===================================================================== *)

(** Step 1 of the escaper as the specification words it: the fixed set
    of characters that are always escaped, backslash [ ] ( ) ~ ` > # + - =
    | { } . ! *)
Definition always_escaped : pystr := py "\[]()~`>#+-=|{}.!".

(** A backslash is put before each character of the fixed set. *)
Fixpoint base_escaping (t : pystr) : pystr :=
  match t with
  | [] => []
  | c :: t' =>
      if bool_decide (c ∈ always_escaped)
      then BACKSLASH :: c :: base_escaping t'
      else c :: base_escaping t'
  end.

(** Calls made one after the other until the transport refuses one; [n]
    calls were made before. *)
Fixpoint attempt (E : Env) (n : nat) (calls : list Call) : list (Call * bool) :=
  match calls with
  | [] => []
  | c :: calls' =>
      if transport_ok E n c
      then (c, true) :: attempt E (S n) calls'
      else [(c, false)]
  end.

(** How a handler ends after such a run of calls: with the error of the
    refused call, if there is one. *)
Definition trace_outcome (trace : list (Call * bool)) : Outcome unit :=
  match List.find (fun x => negb (snd x)) trace with
  | Some (c, _) => Raised (TransportError c)
  | None => Returned tt
  end.

(** Step entry as the specification words it: the step's document, when
    it has one and the file exists, then the resolved text with the step's
    keyboard, unless the text is empty. *)
Definition entry_calls (E : Env) (message : Message) (s : Step)
    (m : gmap string Pending) : list Call :=
  match on_enter s with
  | Some doc => if path_exists E doc then [step_document_call message doc] else []
  | None => []
  end ++
  match resolved_text s m with
  | [] => []
  | _ => [step_text_call message s m]
  end.

(** The normalised labels of the answers in the order in which they
    first occur; [seen] are those met before. *)
Fixpoint first_keys `{CaseProps} (seen : list pystr) (answers : list Answer) : list pystr :=
  match answers with
  | [] => []
  | ans :: answers' =>
      let k := normalize_label (Some (label ans)) in
      if bool_decide (k ∈ seen) then first_keys seen answers'
      else k :: first_keys (k :: seen) answers'
  end.

(** The original labels a step has on offer: one for each normalised
    label, in the order of first occurrence; of answers that normalise
    alike, the label of the last. *)
Definition offered_labels `{CaseProps} (answers : list Answer) : list pystr :=
  omap (fun k => label <$> last_answer k answers) (first_keys [] answers).

(** An ASCII decimal digit. *)
Definition is_digit (c : N) : bool := ((0x30 <=? c) && (c <=? 0x39))%N.

(** The numeral that a string of decimal digits spells. *)
Fixpoint uint_of_digits (s : pystr) : Decimal.uint :=
  match s with
  | [] => Nil
  | c :: s' =>
      let d := uint_of_digits s' in
      match (c - 0x30)%N with
      | 0 => D0 d | 1 => D1 d | 2 => D2 d | 3 => D3 d | 4 => D4 d
      | 5 => D5 d | 6 => D6 d | 7 => D7 d | 8 => D8 d | _ => D9 d
      end%N
  end.

(** The decimal digits a text begins with. *)
Fixpoint leading_digits (s : pystr) : pystr :=
  match s with
  | c :: s' => if is_digit c then c :: leading_digits s' else []
  | [] => []
  end.

(** The count a report names: the value of the first run of decimal
    digits in its text. *)
Definition reported_count (t : pystr) : option Z :=
  match leading_digits (drop_while (fun c => negb (is_digit c)) t) with
  | [] => None
  | digits => Some (Z.of_uint (uint_of_digits digits))
  end.

(** Replies into chats are refused, or the forward as well. *)
Definition no_reply_env : Env := sample_env is_reply 0%Q.


(** The known-user file cannot be opened for writing. *)
Definition read_only_env : Env :=
  {| transport_ok := fun _ _ => true;
     path_exists := fun _ => true;
     time_time := 0%Q;
     write_users := fun _ => OpenFailed;
     ADMIN_ID := Some 7%Z;
     SYSTEM_TEXTS := sample_texts |}.
(* ===================================================================== *)
(** * Properties of the Unicode tables *)
(* ===================================================================== *)

Section TableFacts.
Local Open Scope N_scope.

Lemma assoc_In {A} (c : N) (t : list (N * A)) (v : A) :
  assoc c t = Some v -> In (c, v) t.
Proof.
  induction t as [|[k w] t IH]; simpl; [discriminate|].
  destruct (N.eqb_spec c k) as [->|_].
  - intros [= ->]. now left.
  - intros Hv. right. now apply IH.
Qed.

Example lower_table_size : length lower_table = 1433%nat.
Proof. vm_compute. reflexivity. Qed.

Example to_lower_full_samples :
  to_lower_full 0x41 = [0x61] /\ to_lower_full 0x410 = [0x430] /\
  to_lower_full 0x130 = [0x69; 0x307] /\ to_lower_full 0x2C6F = [0x250] /\
  to_lower_full 0x61 = [0x61] /\ to_lower_full 0x20 = [0x20].
Proof. vm_compute. repeat split. Qed.

Example str_of_int_samples :
  str_of_int 0 = py "0" /\ str_of_int 1700000000 = py "1700000000" /\
  str_of_int (-42) = py "-42".
Proof. vm_compute. repeat split. Qed.

Example int_of_float_samples :
  int_of_float (7 # 2) = 3%Z /\ int_of_float (-7 # 2) = (-3)%Z.
Proof. vm_compute. split; reflexivity. Qed.

Lemma lower_table_images :
  forallb (fun kv => image_ok (snd kv) || (fst kv =? 0x3A3)) lower_table = true.
Proof. vm_compute. reflexivity. Qed.

Lemma lower_table_keys :
  forallb (fun kv => wordchar (fst kv)) lower_table = true.
Proof. vm_compute. reflexivity. Qed.

Lemma lower_stable_fix c : lower_stable c = true -> to_lower_full c = [c].
Proof.
  unfold lower_stable, to_lower_full. rewrite andb_true_iff.
  intros [_ Hc]. now destruct (assoc c lower_table).
Qed.

Lemma to_lower_full_image c :
  c <> 0x3A3 -> wordchar c = true -> image_ok (to_lower_full c) = true.
Proof.
  intros Hs Hw. unfold to_lower_full.
  destruct (assoc c lower_table) as [v|] eqn:E.
  - apply assoc_In in E.
    pose proof lower_table_images as Ht. rewrite forallb_forall in Ht.
    specialize (Ht _ E). simpl in Ht.
    apply orb_true_iff in Ht as [Ht|Ht]; [exact Ht|].
    apply N.eqb_eq in Ht. contradiction.
  - simpl. rewrite Hw. unfold lower_stable. rewrite E.
    apply N.eqb_neq in Hs. now rewrite Hs.
Qed.

Lemma to_lower_full_space c :
  Py_UNICODE_ISSPACE c = true -> to_lower_full c = [c].
Proof.
  intros Hc. unfold to_lower_full.
  destruct (assoc c lower_table) as [v|] eqn:E; [|reflexivity].
  apply assoc_In in E.
  pose proof lower_table_keys as Ht. rewrite forallb_forall in Ht.
  specialize (Ht _ E). simpl in Ht. unfold wordchar in Ht.
  rewrite Hc in Ht. discriminate.
Qed.

End TableFacts.

(* ===================================================================== *)
(** * [normalize_label] is idempotent *)
(* ===================================================================== *)

Section NormalizeFacts.
Context `{CaseProps}.
Local Open Scope N_scope.

Lemma wordchar_not_space c : wordchar c = true -> Py_UNICODE_ISSPACE c = false.
Proof. unfold wordchar. rewrite andb_true_iff, negb_true_iff. tauto. Qed.

Lemma wordchar_not_0x20 c : wordchar c = true -> c <> 0x20.
Proof. intros Hc ->. discriminate. Qed.

Lemma loose_from_weaken b s : loose_from b s = true -> loose_from false s = true.
Proof.
  destruct s as [|c s]; simpl; [easy|].
  destruct (c =? 0x20); [|easy].
  rewrite andb_true_iff. now intros [_ ->].
Qed.

Lemma loose_from_app_l b s t :
  loose_from b (s ++ t) = true -> loose_from b s = true.
Proof.
  revert b. induction s as [|c s IH]; intros b; simpl; [easy|].
  destruct (c =? 0x20); rewrite !andb_true_iff; intros [-> Hr]; eauto.
Qed.

(** *** The replacements and the whitespace pass *)

Lemma replace_quotes_cons c s :
  replace_quotes (c :: s) = hd 0 (replace_quotes [c]) :: replace_quotes s.
Proof. reflexivity. Qed.

Lemma replace_quotes_char c :
  let d := hd 0 (replace_quotes [c]) in
  (Py_UNICODE_ISSPACE c = true -> Py_UNICODE_ISSPACE d = true) /\
  (Py_UNICODE_ISSPACE c = false -> wordchar d = true).
Proof.
  cbn -[N.eqb Py_UNICODE_ISSPACE wordchar].
  destruct (N.eqb_spec c 0xA0) as [->|H1]; [split; [reflexivity|discriminate]|].
  destruct (N.eqb_spec c 0x2019) as [->|H2]; [split; [discriminate|reflexivity]|].
  destruct (N.eqb_spec c 0x2018) as [->|H3]; [split; [discriminate|reflexivity]|].
  destruct (N.eqb_spec c 0x201C) as [->|H4]; [split; [discriminate|reflexivity]|].
  destruct (N.eqb_spec c 0x201D) as [->|H5]; [split; [discriminate|reflexivity]|].
  split; [easy|]. intros Hc. unfold wordchar, is_curly. rewrite Hc.
  apply N.eqb_neq in H2, H3, H4, H5. now rewrite H2, H3, H4, H5.
Qed.

Lemma replace_quotes_fix_char c :
  (c = 0x20 \/ wordchar c = true) -> hd 0 (replace_quotes [c]) = c.
Proof.
  intros [->|Hc]; [reflexivity|].
  unfold wordchar, is_curly in Hc.
  rewrite !andb_true_iff, !negb_true_iff, !orb_false_iff in Hc.
  destruct Hc as [Hs [[[H1 H2] H3] H4]].
  cbn -[N.eqb].
  destruct (N.eqb_spec c 0xA0) as [->|_]; [discriminate|].
  now rewrite H2, H1, H3, H4.
Qed.

Lemma replace_quotes_loose b s : loose_from b s = true -> replace_quotes s = s.
Proof.
  revert b. induction s as [|c s IH]; intros b; [reflexivity|].
  rewrite replace_quotes_cons. cbn [loose_from].
  destruct (N.eqb_spec c 0x20) as [->|Hc]; rewrite andb_true_iff; intros [Hh Hr].
  - f_equal. eauto.
  - rewrite replace_quotes_fix_char by (now right). f_equal. eauto.
Qed.

Lemma sub_ws_from_loose b s :
  loose_from b (sub_ws_from b (replace_quotes s)) = true.
Proof.
  revert b. induction s as [|c s IH]; intros b; [reflexivity|].
  rewrite replace_quotes_cons.
  destruct (replace_quotes_char c) as [Hsp Hw].
  generalize dependent (hd 0 (replace_quotes [c])). intros d Hsp Hw.
  cbn [sub_ws_from].
  destruct (Py_UNICODE_ISSPACE c) eqn:Ec.
  - rewrite (Hsp eq_refl). destruct b; [apply IH|].
    cbn [loose_from]. change (0x20 =? 0x20) with true. cbn [negb andb]. apply IH.
  - specialize (Hw eq_refl). rewrite (wordchar_not_space _ Hw).
    cbn [loose_from].
    pose proof (wordchar_not_0x20 _ Hw) as Hn. apply N.eqb_neq in Hn.
    rewrite Hn, Hw. apply IH.
Qed.

Lemma sub_ws_from_fix b s : loose_from b s = true -> sub_ws_from b s = s.
Proof.
  revert b. induction s as [|c s IH]; intros b; [reflexivity|].
  cbn -[Py_UNICODE_ISSPACE wordchar N.eqb].
  destruct (N.eqb_spec c 0x20) as [->|Hc]; rewrite andb_true_iff; intros [Hh Hr].
  - apply negb_true_iff in Hh as ->. cbn. f_equal. now apply IH.
  - rewrite (wordchar_not_space _ Hh). f_equal. now apply IH.
Qed.

(** *** [strip] *)

Lemma drop_while_split {A} (p : A -> bool) (l : list A) :
  exists a, l = a ++ drop_while p l /\ forallb p a = true /\
            match drop_while p l with [] => True | x :: _ => p x = false end.
Proof.
  induction l as [|x l (a & E & Ha & Hd)]; [now exists []|].
  simpl. destruct (p x) eqn:Ex.
  - exists (x :: a). simpl. rewrite Ex, Ha. repeat split; [now f_equal|exact Hd].
  - exists []. simpl. rewrite Ex. easy.
Qed.

Lemma drop_while_head {A} (p : A -> bool) (l : list A) :
  match l with [] => True | x :: _ => p x = false end -> drop_while p l = l.
Proof. destruct l as [|x l]; simpl; [easy|]. now intros ->. Qed.

Lemma last_rev_hd (l : pystr) : List.last (rev l) 0 = hd 0 l.
Proof.
  destruct l as [|x l]; [reflexivity|]. simpl. now rewrite last_last.
Qed.

Lemma str_rstrip_split s :
  exists a, s = str_rstrip s ++ a /\
            Py_UNICODE_ISSPACE (List.last (str_rstrip s) 0) = false.
Proof.
  unfold str_rstrip.
  destruct (drop_while_split Py_UNICODE_ISSPACE (rev s)) as (a & E & _ & Hd).
  exists (rev a). split.
  - rewrite <- rev_app_distr, <- E. now rewrite rev_involutive.
  - rewrite last_rev_hd.
    destruct (drop_while Py_UNICODE_ISSPACE (rev s)); [reflexivity|exact Hd].
Qed.

Lemma str_lstrip_loose b s :
  loose_from b s = true -> loose_from true (str_lstrip s) = true.
Proof.
  unfold str_lstrip. revert b. induction s as [|c s IH]; intros b; [reflexivity|].
  cbn -[Py_UNICODE_ISSPACE wordchar N.eqb].
  destruct (N.eqb_spec c 0x20) as [->|Hc]; rewrite andb_true_iff; intros [Hh Hr].
  - cbn -[drop_while loose_from]. eauto.
  - rewrite (wordchar_not_space _ Hh).
    cbn -[Py_UNICODE_ISSPACE wordchar N.eqb].
    apply N.eqb_neq in Hc. now rewrite Hc, Hh.
Qed.

Lemma str_strip_tidy b s : loose_from b s = true -> tidy (str_strip s).
Proof.
  intros Hs. apply str_lstrip_loose in Hs. unfold str_strip.
  destruct (str_rstrip_split (str_lstrip s)) as (a & E & Hl).
  split.
  - rewrite E in Hs. now apply loose_from_app_l in Hs.
  - intros E'. now rewrite E' in Hl.
Qed.

Lemma loose_from_last b s :
  loose_from b s = true -> List.last s 0 <> 0x20 ->
  Py_UNICODE_ISSPACE (List.last s 0) = false.
Proof.
  revert b. induction s as [|c s IH]; intros b; [reflexivity|].
  destruct s as [|c' s].
  - cbn -[Py_UNICODE_ISSPACE wordchar N.eqb].
    destruct (N.eqb_spec c 0x20) as [->|Hc]; [easy|].
    rewrite andb_true_iff. intros [Hh _] _. now apply wordchar_not_space.
  - change (List.last (c :: c' :: s) 0) with (List.last (c' :: s) 0).
    change (loose_from b (c :: c' :: s))
      with (if c =? 0x20 then negb b && loose_from true (c' :: s)
            else wordchar c && loose_from false (c' :: s)).
    destruct (c =? 0x20); rewrite andb_true_iff; intros [_ Hr]; eauto.
Qed.

Lemma str_strip_fix s : tidy s -> str_strip s = s.
Proof.
  intros [Hl Hlast]. unfold str_strip, str_lstrip, str_rstrip.
  assert (Hd : drop_while Py_UNICODE_ISSPACE s = s).
  { apply drop_while_head. destruct s as [|c s]; [easy|].
    simpl in Hl. destruct (N.eqb_spec c 0x20); [discriminate|].
    apply andb_true_iff in Hl as [Hc _]. now apply wordchar_not_space. }
  rewrite Hd, drop_while_head; [apply rev_involutive|].
  pose proof (loose_from_last _ _ Hl Hlast) as Hsp.
  rewrite <- (rev_involutive s), last_rev_hd in Hsp.
  destruct (rev s) as [|x r] eqn:Er; [easy|exact Hsp].
Qed.

(** *** [lower] *)

Lemma lower_ucs4_image before after c :
  wordchar c = true -> image_ok (lower_ucs4 before after c) = true.
Proof.
  intros Hc. unfold lower_ucs4.
  destruct (N.eqb_spec c 0x3A3) as [->|Hs].
  - unfold handle_capital_sigma.
    now destruct (match drop_while _ before with [] => _ | _ => _ end).
  - now apply to_lower_full_image.
Qed.

Lemma lower_ucs4_space before after :
  lower_ucs4 before after 0x20 = [0x20].
Proof. reflexivity. Qed.

Lemma image_ok_words v :
  image_ok v = true -> v <> [] /\ forallb wordchar v = true.
Proof.
  destruct v as [|d v]; [discriminate|]. unfold image_ok.
  intros Hv. split; [easy|].
  rewrite forallb_forall in Hv |- *. intros e He.
  specialize (Hv e He). now apply andb_true_iff in Hv.
Qed.

Lemma loose_from_words b v s :
  forallb wordchar v = true ->
  loose_from b (v ++ s) =
  match v with [] => loose_from b s | _ => loose_from false s end.
Proof.
  revert b. induction v as [|d v IH]; intros b; [reflexivity|].
  cbn [forallb app loose_from]. rewrite andb_true_iff. intros [Hd Hv].
  pose proof (wordchar_not_0x20 _ Hd) as Hn. apply N.eqb_neq in Hn.
  rewrite Hn, Hd, (IH false Hv). cbn [andb]. now destruct v.
Qed.

Lemma loose_from_image b v s :
  image_ok v = true ->
  loose_from b (v ++ s) = loose_from false s.
Proof.
  intros Hv. apply image_ok_words in Hv as [Hne Hv].
  rewrite (loose_from_words b v s Hv). now destruct v.
Qed.

Lemma lower_from_loose b before s :
  loose_from b s = true -> loose_from b (lower_from before s) = true.
Proof.
  revert b before. induction s as [|c s IH]; intros b before; [reflexivity|].
  cbn -[wordchar N.eqb lower_ucs4].
  destruct (N.eqb_spec c 0x20) as [->|Hc]; rewrite andb_true_iff; intros [Hh Hr].
  - rewrite lower_ucs4_space. cbn -[lower_from]. rewrite Hh. now apply IH.
  - rewrite loose_from_image by now apply lower_ucs4_image.
    now apply IH.
Qed.

Lemma lower_from_snoc before s c :
  exists a, lower_from before (s ++ [c]) =
            a ++ lower_ucs4 (rev s ++ before) [] c.
Proof.
  revert before. induction s as [|d s IH]; intros before.
  - exists []. simpl. now rewrite app_nil_r.
  - destruct (IH (d :: before)) as [a Ea].
    exists (lower_ucs4 before (s ++ [c]) d ++ a).
    simpl. rewrite Ea, <- !app_assoc. reflexivity.
Qed.

Lemma image_ok_last v a : image_ok v = true -> List.last (a ++ v) 0 <> 0x20.
Proof.
  intros Hv. assert (Hne : v <> []) by (intros ->; discriminate).
  destruct (exists_last Hne) as (v' & d & ->). clear Hne.
  rewrite app_assoc, last_last.
  apply image_ok_words in Hv as [_ Hv]. rewrite forallb_app in Hv.
  apply andb_true_iff in Hv as [_ Hd]. cbn [forallb] in Hd.
  rewrite andb_true_r in Hd. now apply wordchar_not_0x20.
Qed.

Lemma loose_from_snoc b s c :
  loose_from b (s ++ [c]) = true -> c <> 0x20 -> wordchar c = true.
Proof.
  intros Hl Hc. revert b Hl. induction s as [|d s IH]; intros b.
  - cbn [app loose_from]. apply N.eqb_neq in Hc. rewrite Hc.
    now rewrite andb_true_r.
  - cbn [app loose_from]. destruct (d =? 0x20); rewrite andb_true_iff;
      intros [_ Hr]; eauto.
Qed.

Lemma lower_from_tidy s : tidy s -> tidy (str_lower s).
Proof.
  intros [Hl Hlast]. split; [now apply lower_from_loose|].
  unfold str_lower. induction s as [|c s _] using rev_ind; [easy|].
  destruct (lower_from_snoc [] s c) as [a ->].
  rewrite last_last in Hlast.
  eapply image_ok_last, lower_ucs4_image, loose_from_snoc; eassumption.
Qed.

Lemma lower_from_stable before s :
  forallb lower_stable (lower_from before s) = true.
Proof.
  revert before. induction s as [|c s IH]; intros before; [reflexivity|].
  simpl. rewrite forallb_app, IH, andb_true_r.
  unfold lower_ucs4. destruct (N.eqb_spec c 0x3A3) as [->|Hs].
  - unfold handle_capital_sigma.
    now destruct (match drop_while _ before with [] => _ | _ => _ end).
  - unfold to_lower_full. destruct (assoc c lower_table) as [v|] eqn:E.
    + apply assoc_In in E.
      pose proof lower_table_images as Ht. rewrite forallb_forall in Ht.
      specialize (Ht _ E). simpl in Ht.
      apply orb_true_iff in Ht as [Ht|Ht].
      * unfold image_ok in Ht. destruct v; [discriminate|].
        rewrite forallb_forall in Ht |- *. intros d Hd.
        specialize (Ht d Hd). now apply andb_true_iff in Ht.
      * apply N.eqb_eq in Ht. contradiction.
    + simpl. unfold lower_stable. rewrite E.
      apply N.eqb_neq in Hs. now rewrite Hs.
Qed.

Lemma lower_from_fix before s :
  forallb lower_stable s = true -> lower_from before s = s.
Proof.
  revert before. induction s as [|c s IH]; intros before; [reflexivity|].
  simpl. rewrite andb_true_iff. intros [Hc Hs].
  rewrite IH by assumption. unfold lower_ucs4.
  pose proof (lower_stable_fix _ Hc) as ->.
  unfold lower_stable in Hc. apply andb_true_iff in Hc as [Hc _].
  apply negb_true_iff in Hc. now rewrite Hc.
Qed.

(** [str.lower] is idempotent. *)
Lemma str_lower_idem s : str_lower (str_lower s) = str_lower s.
Proof. apply lower_from_fix, lower_from_stable. Qed.

Lemma normalize_label_tidy s : tidy (normalize_label s).
Proof.
  destruct s as [text|]; [|now split].
  apply lower_from_tidy. eapply str_strip_tidy.
  apply (sub_ws_from_loose false).
Qed.

Lemma normalize_label_fix s :
  tidy s -> forallb lower_stable s = true -> normalize_label (Some s) = s.
Proof.
  intros Ht Hs. pose proof Ht as [Hl _].
  unfold normalize_label. fold (replace_quotes s).
  rewrite (replace_quotes_loose _ _ Hl).
  unfold sub_ws. rewrite (sub_ws_from_fix _ _ (loose_from_weaken _ _ Hl)).
  rewrite (str_strip_fix _ Ht). now apply lower_from_fix.
Qed.

(** C7. [normalize_label] is idempotent: normalising an already
    normalised label (replace the non-breaking space, straighten curly
    quotes, collapse whitespace runs, trim, lower-case, in that order)
    gives it back unchanged. *)
Theorem normalize_label_idempotent (x : option pystr) :
  normalize_label (Some (normalize_label x)) = normalize_label x.
Proof.
  apply normalize_label_fix; [apply normalize_label_tidy|].
  destruct x as [text|]; [apply lower_from_stable|reflexivity].
Qed.

End NormalizeFacts.

(* ===================================================================== *)
(** * Properties of [escape_md_v2] *)
(* ===================================================================== *)

Section EscapeFacts.
Local Open Scope N_scope.

(** *** Without markup *)

Lemma escape_str_plain s : escape_str s false = flat_map plain_escape_char s.
Proof.
  unfold escape_str, re_sub_escape. cbn [negb].
  induction s as [|c s IH]; [reflexivity|].
  cbn [flat_map]. rewrite flat_map_app, IH. f_equal.
  unfold plain_escape_char.
  destruct (base_pattern c) eqn:Eb; cbn [orb flat_map app].
  - assert (emphasis_pattern c = false) as ->; [|reflexivity].
    unfold base_pattern in Eb. cbn [existsb] in Eb.
    repeat (apply orb_true_iff in Eb as [Eb|Eb];
            [apply N.eqb_eq in Eb; subst c; reflexivity|]).
    discriminate.
  - now destruct (emphasis_pattern c).
Qed.

Lemma must_escape_classes c :
  must_escape c = true -> base_pattern c || emphasis_pattern c = true.
Proof.
  unfold must_escape. cbn [existsb]. intros Hc.
  repeat (apply orb_true_iff in Hc as [Hc|Hc];
          [apply N.eqb_eq in Hc; subst c; reflexivity|]).
  discriminate.
Qed.

Lemma plain_escape_char_cases c :
  plain_escape_char c = [BACKSLASH; c] \/
  (plain_escape_char c = [c] /\ c <> BACKSLASH /\ must_escape c = false).
Proof.
  unfold plain_escape_char.
  destruct (base_pattern c || emphasis_pattern c) eqn:E; [now left|].
  right. repeat split.
  - intros ->. discriminate.
  - destruct (must_escape c) eqn:Em; [|reflexivity].
    apply must_escape_classes in Em. congruence.
Qed.

Lemma no_unescaped_plain s :
  no_unescaped must_escape (flat_map plain_escape_char s) = true.
Proof.
  induction s as [|c s IH]; [reflexivity|].
  cbn [flat_map].
  destruct (plain_escape_char_cases c) as [->|(-> & Hb & Hm)].
  - exact IH.
  - cbn [app no_unescaped]. apply N.eqb_neq in Hb. now rewrite Hb, Hm.
Qed.

Lemma backslash_before_app bad (s t : pystr) :
  backslash_before bad s -> backslash_before bad t ->
  backslash_before bad (s ++ t).
Proof.
  intros Hs Ht i c Hi Hc.
  destruct (decide (i < length s)%nat) as [Hlt|Hge].
  - rewrite lookup_app_l in Hi by assumption.
    destruct (Hs i c Hi Hc) as (j & -> & Hj). exists j. split; [reflexivity|].
    rewrite lookup_app_l by lia. exact Hj.
  - rewrite lookup_app_r in Hi by lia.
    destruct (Ht _ c Hi Hc) as (j & Ej & Hj).
    exists (length s + j)%nat. split; [lia|].
    rewrite lookup_app_r by lia.
    now replace (length s + j - length s)%nat with j by lia.
Qed.

Lemma backslash_before_plain s :
  backslash_before must_escape (flat_map plain_escape_char s).
Proof.
  induction s as [|c s IH].
  - intros [|i] c Hi; discriminate Hi.
  - cbn [flat_map]. apply backslash_before_app; [|exact IH].
    intros i d Hi Hd.
    destruct (plain_escape_char_cases c) as [E|(E & _ & Hm)]; rewrite E in Hi.
    + destruct i as [|[|i]]; cbn in Hi; [|exists 0%nat; rewrite E; split; reflexivity|discriminate].
      injection Hi as <-. discriminate.
    + destruct i as [|i]; cbn in Hi; [|discriminate].
      injection Hi as <-. congruence.
Qed.

(** C4. The output of [escape(t, false)] has no unescaped [_], [*], [.],
    [!] or [-]: read left to right with backslash escapes, none of them is
    met outside an escape, and each occurrence has a backslash right in
    front of it. *)
Theorem escape_plain_no_unescaped (t : pystr) :
  exists out,
    escape_md_v2 (PStr t) false = PStr out /\
    no_unescaped must_escape out = true /\
    backslash_before must_escape out.
Proof.
  exists (escape_str t false). split; [reflexivity|].
  rewrite escape_str_plain.
  split; [apply no_unescaped_plain|apply backslash_before_plain].
Qed.

(** C10. A value that is not a string comes back from [escape_md_v2]
    unchanged, whatever [allow_markdown] is; the function returns for
    every input. *)
Theorem escape_md_v2_non_string (x : PyVal) (allow_markdown : bool) :
  isinstance_str x = false -> escape_md_v2 x allow_markdown = x.
Proof. destruct x; [reflexivity..|discriminate|reflexivity]. Qed.

Lemma escape_md_v2_non_string_witness :
  isinstance_str (PList [PInt 3; PNone]) = false /\
  escape_md_v2 (PList [PInt 3; PNone]) true = PList [PInt 3; PNone].
Proof.
  split; [reflexivity|].
  apply (escape_md_v2_non_string (PList [PInt 3; PNone]) true). reflexivity.
Defined.

End EscapeFacts.

Section PairFacts.
Local Open Scope nat_scope.

(** *** With markup: the pairing pass *)

Lemma positions_from_cons marker off c s :
  positions_from marker off (c :: s) =
  (if N.eqb c marker then [off] else []) ++ positions_from marker (S off) s.
Proof.
  unfold positions_from. cbn [length seq combine List.filter snd].
  now destruct (N.eqb c marker).
Qed.

Lemma positions_from_ge marker off s x :
  x ∈ positions_from marker off s -> off <= x.
Proof.
  revert off. induction s as [|c s IH]; intros off.
  - intros Hx. inversion Hx.
  - rewrite positions_from_cons, elem_of_app. intros [Hx|Hx].
    + destruct (N.eqb c marker); [|inversion Hx].
      apply list_elem_of_singleton in Hx. lia.
    + apply IH in Hx. lia.
Qed.

Lemma positions_from_NoDup marker off s : NoDup (positions_from marker off s).
Proof.
  revert off. induction s as [|c s IH]; intros off; [constructor|].
  rewrite positions_from_cons.
  destruct (N.eqb c marker); cbn [app]; [|apply IH].
  constructor; [|apply IH].
  intros Hx. apply positions_from_ge in Hx. lia.
Qed.

Lemma positions_from_length marker off s :
  length (positions_from marker off s) = length (List.filter (N.eqb marker) s).
Proof.
  revert off. induction s as [|c s IH]; intros off; [reflexivity|].
  rewrite positions_from_cons, length_app, IH. cbn [List.filter].
  rewrite (N.eqb_sym marker c).
  now destruct (N.eqb c marker).
Qed.

Example range_step2_samples :
  range_step2 0 = [] /\ range_step2 1 = [0] /\ range_step2 2 = [0] /\
  range_step2 5 = [0; 2; 4].
Proof. repeat split. Qed.

(** The set built by the pairing loop holds the first [2 * (n / 2)]
    positions. *)
Lemma allow_pos_take (positions : list nat) j :
  2 * j <= length positions ->
  fold_left
    (fun (acc : gset nat) i =>
       {[ nth (i + 1) positions 0 ]} ∪ ({[ nth i positions 0 ]} ∪ acc))
    (map (fun k => 2 * k) (seq 0 j)) ∅
  = list_to_set (take (2 * j) positions).
Proof.
  induction j as [|j IH]; intros Hj; [reflexivity|].
  rewrite seq_S, map_app, fold_left_app, IH by lia. cbn [map fold_left Nat.add].
  destruct (lookup_lt_is_Some_2 positions (2 * j)) as [a Ha]; [lia|].
  destruct (lookup_lt_is_Some_2 positions (2 * j + 1)) as [b Hb]; [lia|].
  rewrite (nth_lookup_Some _ _ _ _ Ha), (nth_lookup_Some _ _ _ _ Hb).
  replace (2 * S j) with (S (S (2 * j))) by lia.
  rewrite (take_S_r _ _ b) by (now replace (S (2 * j)) with (2 * j + 1) by lia).
  rewrite (take_S_r _ _ a) by assumption.
  rewrite !list_to_set_app_L. cbn [list_to_set].
  apply set_eq. intros x. set_unfold. tauto.
Qed.

Lemma in_complete_pair_lt k n :
  in_complete_pair k n = true <-> k < 2 * Nat.div2 n.
Proof.
  unfold in_complete_pair. rewrite Nat.ltb_lt.
  pose proof (Nat.div2_odd k) as Hk. pose proof (Nat.div2_odd n) as Hn.
  destruct (Nat.odd k), (Nat.odd n); cbn [Nat.b2n] in Hk, Hn; lia.
Qed.

Lemma pairing_pass_from marker (allow_pos : gset nat) n s off k :
  (forall j idx, positions_from marker off s !! j = Some idx ->
                 idx ∈ allow_pos <-> in_complete_pair (k + j) n = true) ->
  flat_map
    (fun ic : nat * N => let '(idx, ch) := ic in
       if N.eqb ch marker
       then (if bool_decide (idx ∈ allow_pos) then [ch] else [BACKSLASH; ch])
       else [ch])
    (combine (seq off (length s)) s)
  = pair_markers_from k n marker s.
Proof.
  revert off k. induction s as [|c s IH]; intros off k Hpos; [reflexivity|].
  cbn [length seq combine flat_map pair_markers_from].
  assert (Hrest : forall j idx,
             positions_from marker (S off) s !! j = Some idx ->
             idx ∈ allow_pos <->
             in_complete_pair ((if N.eqb c marker then S k else k) + j) n = true).
  { intros j idx Hj. rewrite positions_from_cons in Hpos.
    destruct (N.eqb c marker).
    - rewrite (Hpos (S j) idx Hj). now replace (k + S j) with (S k + j) by lia.
    - apply (Hpos j idx Hj). }
  destruct (N.eqb c marker) eqn:Ec.
  - rewrite (IH _ _ Hrest). f_equal.
    specialize (Hpos 0 off). rewrite positions_from_cons, Ec in Hpos.
    specialize (Hpos eq_refl). rewrite Nat.add_0_r in Hpos.
    destruct (in_complete_pair k n).
    + rewrite bool_decide_eq_true_2; [reflexivity|now apply Hpos].
    + rewrite bool_decide_eq_false_2; [reflexivity|].
      intros Hin. apply Hpos in Hin. discriminate.
  - now rewrite (IH _ _ Hrest).
Qed.

(** The pairing loop of the code computes what the specification
    describes. *)
Lemma pair_markers_from_none marker s k n :
  List.filter (N.eqb marker) s = [] -> pair_markers_from k n marker s = s.
Proof.
  induction s as [|c s IH]; [reflexivity|].
  cbn [List.filter pair_markers_from]. rewrite (N.eqb_sym c marker).
  destruct (N.eqb marker c); [discriminate|].
  intros Hn. f_equal. now apply IH.
Qed.

(** The pairing loop of the code computes what the specification
    describes. *)
Lemma preserve_pairs_spec s marker :
  preserve_pairs s marker = pair_markers marker s.
Proof.
  unfold preserve_pairs, pair_markers, enumerate, range_step2.
  fold (positions_from marker 0 s).
  rewrite <- (positions_from_length marker 0 s).
  remember (positions_from marker 0 s) as positions eqn:Ep.
  destruct positions as [|p0 ps].
  - symmetry. apply pair_markers_from_none, length_zero_iff_nil.
    now rewrite <- (positions_from_length marker 0), <- Ep.
  - remember (p0 :: ps) as positions eqn:Eq.
    replace (Nat.div2 (length positions - 1 + 1)) with (Nat.div2 (length positions))
      by (f_equal; subst positions; cbn [length]; lia).
    rewrite allow_pos_take.
    2:{ pose proof (Nat.div2_odd (length positions)).
        destruct (Nat.odd (length positions)); cbn [Nat.b2n] in *; lia. }
    apply pairing_pass_from. intros j idx Hj. cbn [Nat.add].
    rewrite in_complete_pair_lt, elem_of_list_to_set, list_elem_of_lookup.
    rewrite <- Ep in Hj.
    split.
    + intros (i & Hi). pose proof (lookup_lt_Some _ _ _ Hi) as Hlt.
      rewrite length_take in Hlt. rewrite lookup_take_lt in Hi by lia.
      assert (Hnd : NoDup positions) by (rewrite Ep; apply positions_from_NoDup).
      pose proof (NoDup_lookup _ _ _ _ Hnd Hi Hj). lia.
    + intros Hlt. exists j. now rewrite lookup_take_lt.
Qed.

(** The class of [base_pattern] is the fixed set of the specification. *)
Lemma base_pattern_always_escaped (c : N) :
  base_pattern c = bool_decide (c ∈ always_escaped).
Proof.
  unfold base_pattern.
  replace always_escaped with
    [0x5C; 0x5B; 0x5D; 0x28; 0x29; 0x7E; 0x60; 0x3E; 0x23; 0x2B; 0x2D;
     0x3D; 0x7C; 0x7B; 0x7D; 0x2E; 0x21]%N by (vm_compute; reflexivity).
  generalize [0x5C; 0x5B; 0x5D; 0x28; 0x29; 0x7E; 0x60; 0x3E; 0x23; 0x2B; 0x2D;
              0x3D; 0x7C; 0x7B; 0x7D; 0x2E; 0x21]%N.
  intros l. induction l as [|d l IH]; cbn [existsb].
  - symmetry. apply bool_decide_eq_false_2, not_elem_of_nil.
  - destruct (N.eqb_spec c d) as [->|Hne]; cbn [orb].
    + symmetry. apply bool_decide_eq_true_2. now left.
    + rewrite IH. apply bool_decide_ext. rewrite elem_of_cons. tauto.
Qed.

(** The base substitution of the code is step 1 of the specification. *)
Lemma base_escaping_spec (t : pystr) :
  re_sub_escape base_pattern t = base_escaping t.
Proof.
  unfold re_sub_escape. induction t as [|c t IH]; [reflexivity|].
  cbn [flat_map base_escaping]. rewrite IH, base_pattern_always_escaped.
  now destruct (bool_decide (c ∈ always_escaped)).
Qed.

(** C3. With [allow_markdown] set, [escape_md_v2] first puts a backslash
    before every character of the fixed set of step 1 and then, first for
    [*] and then for [_] on the result, leaves the markers of complete
    left-to-right pairs (1st,2nd), (3rd,4th), ... as they are and puts a
    backslash before an unpaired last one.  In particular both [*] of
    "I *really* like it" stay, and of the three [*] of "a*b*c*d" the first
    two stay and the third is escaped; in "1. *a* (b_c)!" the full stop,
    the parentheses and the exclamation mark are escaped as in step 1, the
    pair of [*] stays and the single [_] is escaped. *)
Theorem escape_markup_pairs (t : pystr) :
  escape_md_v2 (PStr t) true =
    PStr (pair_markers 0x5F (pair_markers 0x2A (base_escaping t)))
  /\ escape_md_v2 (PStr (py "I *really* like it")) true = PStr (py "I *really* like it")
  /\ escape_md_v2 (PStr (py "a*b*c*d")) true = PStr (py "a*b*c\*d")
  /\ escape_md_v2 (PStr (py "1. *a* (b_c)!")) true = PStr (py "1\. *a* \(b\_c\)\!").
Proof.
  split; [|repeat split; vm_compute; reflexivity].
  cbn [escape_md_v2]. unfold escape_str. cbn [negb].
  now rewrite !preserve_pairs_spec, base_escaping_spec.
Qed.

End PairFacts.

(* ===================================================================== *)
(** * Properties of the handlers *)
(* ===================================================================== *)

Section HandlerFacts.
Context `{CaseProps} (E : Env).

#[local] Arguments py : simpl never.
#[local] Arguments escape_str : simpl never.
#[local] Arguments escape_md_v2 : simpl never.
#[local] Arguments normalize_label : simpl never.
#[local] Arguments str_lower : simpl never.
#[local] Arguments str_of_int : simpl never.
#[local] Arguments startswith : simpl never.

Lemma bind_run {A B} (m : M A) (f : A -> M B) (w : World) :
  (m ≫= f) w =
  match m w with
  | (Returned a, w') => f a w'
  | (Raised e, w') => (Raised e, w')
  end.
Proof. reflexivity. Qed.

(** Run the state-passing primitives of a handler on a given world. *)
Ltac run :=
  repeat first
    [ rewrite bind_run
    | progress unfold update_data, logger, get_data, get_step, set_fsm
    | progress unfold mret, M_ret
    | progress cbn ].

(** *** The answer map of a step *)

Lemma dict_get_set {V} (k k' : pystr) (v : V) d :
  dict_get k (dict_set k' v d) = if bool_decide (k = k') then Some v else dict_get k d.
Proof.
  induction d as [|[k0 v0] d IH]; [reflexivity|].
  cbn [dict_set dict_get].
  destruct (bool_decide_reflect (k' = k0)) as [->|Hne]; cbn [dict_get].
  - now destruct (bool_decide (k = k0)).
  - rewrite IH. destruct (bool_decide_reflect (k = k0)) as [->|Hk]; [|reflexivity].
    now rewrite bool_decide_eq_false_2 by congruence.
Qed.

Lemma dict_set_origs (k : pystr) (v : ActionEntry) d (P : pystr -> Prop) :
  P (orig v) -> Forall P (map orig (dict_values d)) ->
  Forall P (map orig (dict_values (dict_set k v d))).
Proof.
  intros Hv. induction d as [|[k0 v0] d IH]; cbn [dict_set].
  - intros _. now constructor.
  - intros Hd. apply Forall_cons in Hd as [H0 Hd].
    destruct (bool_decide (k = k0)); constructor; auto.
Qed.

Lemma action_map_fold_miss (answers : list Answer) (k : pystr) d :
  dict_get k d = None ->
  Forall (fun ans => normalize_label (Some (label ans)) <> k) answers ->
  dict_get k
    (fold_left (fun d ans => dict_set (normalize_label (Some (label ans))) (entry_of ans) d)
       answers d) = None.
Proof.
  revert d. induction answers as [|ans answers IH]; intros d Hd Hall; [exact Hd|].
  apply Forall_cons in Hall as [Hans Hall]. cbn [fold_left].
  apply IH; [|exact Hall].
  rewrite dict_get_set, bool_decide_eq_false_2 by congruence. exact Hd.
Qed.

Lemma build_action_map_miss (answers : list Answer) (k : pystr) :
  Forall (fun ans => normalize_label (Some (label ans)) <> k) answers ->
  dict_get k (build_action_map answers) = None.
Proof. now apply action_map_fold_miss. Qed.

Lemma action_map_fold_origs (answers : list Answer) d (P : pystr -> Prop) :
  Forall P (map label answers) ->
  Forall P (map orig (dict_values d)) ->
  Forall P (map orig (dict_values
    (fold_left (fun d ans => dict_set (normalize_label (Some (label ans))) (entry_of ans) d)
       answers d))).
Proof.
  revert d. induction answers as [|ans answers IH]; intros d Hall Hd; [exact Hd|].
  cbn [map] in Hall. apply Forall_cons in Hall as [Hans Hall]. cbn [fold_left].
  apply IH; [exact Hall|]. now apply dict_set_origs.
Qed.

(** The labels written to the log are declared labels of the step. *)
Lemma build_action_map_origs (answers : list Answer) :
  Forall (fun o => o ∈ map label answers)
    (map orig (dict_values (build_action_map answers))).
Proof.
  apply action_map_fold_origs; [|constructor].
  apply Forall_forall. auto.
Qed.


(** *** [on_msg] *)

Lemma transport_run (c : Call) (w : World) :
  transport E c w =
  (ends_with (transport_ok E (length (sent w)) c) c,
   {| fsm := fsm w; users_file := users_file w;
      sent := sent w ++ [(c, transport_ok E (length (sent w)) c)];
      log := log w |}).
Proof. unfold transport, ends_with. now destruct (transport_ok E _ c). Qed.

Lemma notice_run (message : Message) (key : string) (w : World) :
  notice E message key w = transport E (notice_call E message key) w.
Proof. reflexivity. Qed.

(** On a normalised text [str.lower] changes nothing, so the trigger test
    of [on_msg] is a test on the normalised text itself. *)
Lemma lower_normalized_text (message : Message) :
  str_lower (normalized_text message) = normalized_text message.
Proof. apply str_lower_idem. Qed.

(** The miss branch of [on_msg], run on a world. *)
Lemma on_msg_unmatched_run (fm : FlowManager) (map_local : list (pystr * ActionEntry))
    (message : Message) (w : World) :
  receipt_upload message w = None ->
  dict_get (normalized_text message) map_local = None ->
  let c := notice_call E message "use_buttons" in
  let ok := transport_ok E (length (sent w)) c in
  on_msg E fm map_local message w =
  (ends_with ok c,
   {| fsm := fsm w; users_file := users_file w;
      sent := sent w ++ [(c, ok)];
      log := log w ++
        [LogUnmatched (from_user_id message) (step (fsm w))
           (take 200 (default [] (msg_text message)))
           (take 200 (normalized_text message))
           (map orig (dict_values map_local))] |}).
Proof.
  intros Hup Hmiss c ok.
  unfold on_msg. rewrite bind_run. unfold get_data.
  unfold receipt_upload, pending_of in Hup. rewrite Hup.
  fold (normalized_text message). rewrite Hmiss.
  run. rewrite notice_run, transport_run. reflexivity.
Qed.

(** The trigger branch of [on_msg], run on a world. *)
Lemma on_msg_trigger_run (fm : FlowManager) (map_local : list (pystr * ActionEntry))
    (message : Message) (w : World) (entry : ActionEntry) :
  receipt_upload message w = None ->
  dict_get (normalized_text message) map_local = Some entry ->
  startswith (normalized_text message) PAYMENT_TRIGGER = true ->
  let pending :=
    {| order_tag := str_of_int (int_of_float (time_time E));
       method := normalized_text message |} in
  let c := MessageAnswer (msg_chat_id message)
             (escape_md_v2 (system_text E "send_receipt_instr") false)
             (Some ReplyKeyboardRemove) (Some MARKDOWN_V2) in
  let ok := transport_ok E (length (sent w)) c in
  on_msg E fm map_local message w =
  (ends_with ok c,
   {| fsm := {| flow := flow (fsm w); step := step (fsm w);
                meta := Some (<["pending_payment"%string := pending]>
                                (default ∅ (meta (fsm w))));
                awaiting_broadcast := awaiting_broadcast (fsm w) |};
      users_file := users_file w;
      sent := sent w ++ [(c, ok)];
      log := log w |}).
Proof.
  intros Hup Hentry Htrig pending c ok.
  unfold on_msg. rewrite bind_run. unfold get_data.
  unfold receipt_upload, pending_of in Hup. rewrite Hup.
  fold (normalized_text message).
  rewrite Hentry, lower_normalized_text.
  unfold PAYMENT_TRIGGER in Htrig. rewrite Htrig.
  run. unfold answer. rewrite transport_run. reflexivity.
Qed.

(** C1, as the code has it.  The trigger is tested after the label
    lookup and before the action is looked at: when the normalised text is
    a declared label of the step and begins with the trigger word (and the
    message is not a receipt upload), [on_msg] stores
    [pending_payment = {order_tag, method}] with the time-derived tag and
    the normalised text, sends the receipt instructions with the keyboard
    removed, and does nothing else that turn, whatever action the label
    carries. *)
Theorem payment_intent_on_declared_label (fm : FlowManager)
    (map_local : list (pystr * ActionEntry)) (message : Message) (w : World)
    (entry : ActionEntry) :
  receipt_upload message w = None ->
  dict_get (normalized_text message) map_local = Some entry ->
  startswith (normalized_text message) PAYMENT_TRIGGER = true ->
  let c := MessageAnswer (msg_chat_id message)
             (escape_md_v2 (system_text E "send_receipt_instr") false)
             (Some ReplyKeyboardRemove) (Some MARKDOWN_V2) in
  let ok := transport_ok E (length (sent w)) c in
  let w' := snd (on_msg E fm map_local message w) in
  fst (on_msg E fm map_local message w) = ends_with ok c /\
  pending_of w' =
    Some {| order_tag := str_of_int (int_of_float (time_time E));
            method := normalized_text message |} /\
  sent w' = sent w ++ [(c, ok)] /\
  flow (fsm w') = flow (fsm w) /\ step (fsm w') = step (fsm w) /\
  log w' = log w.
Proof.
  intros Hup Hentry Htrig. cbv zeta.
  rewrite (on_msg_trigger_run fm _ message w entry Hup Hentry Htrig).
  repeat split. apply lookup_insert_eq.
Qed.



(** *** The broadcast *)

Lemma failures_le (outcomes : list bool) : (failures outcomes <= length outcomes)%nat.
Proof.
  unfold failures. induction outcomes as [|[] o IH]; cbn [List.filter negb length]; lia.
Qed.

Lemma send_outcomes_length (payload : pystr) (n : nat) (uids : list Z) :
  length (send_outcomes E payload n uids) = length uids.
Proof.
  revert n. induction uids as [|uid uids IH]; intros n; cbn; [reflexivity|].
  now rewrite IH.
Qed.

(** The loop visits every user: a refused send is logged and the loop
    goes on; the counter grows by the number of accepted sends. *)
Lemma broadcast_loop_run (payload : pystr) (uids : list Z) (sent_count : Z) (w : World) :
  let outcomes := send_outcomes E payload (length (sent w)) uids in
  broadcast_loop E payload uids sent_count w =
  (Returned (sent_count + Z.of_nat (length uids) - Z.of_nat (failures outcomes))%Z,
   {| fsm := fsm w; users_file := users_file w;
      sent := sent w ++ combine (map (broadcast_call payload) uids) outcomes;
      log := log w ++ map LogBroadcastFailed (refused_users uids outcomes) |}).
Proof.
  cbv zeta. revert sent_count w.
  induction uids as [|uid uids IH]; intros sent_count w.
  - cbn. rewrite !app_nil_r.
    unfold mret, M_ret. destruct w. cbn. do 2 f_equal. lia.
  - cbn [broadcast_loop send_outcomes]. rewrite bind_run. unfold try_except.
    rewrite bind_run, transport_run. fold (broadcast_call payload uid).
    destruct (transport_ok E (length (sent w)) (broadcast_call payload uid)) eqn:Eok;
      cbn [ends_with]; run; rewrite IH; cbn [sent fsm users_file log];
      rewrite length_app, Nat.add_1_r;
      unfold failures, refused_users; cbn; rewrite <- !app_assoc; cbn [app];
      f_equal; f_equal; lia.
Qed.

Lemma sorted_length (users : gset Z) : length (sorted users) = size users.
Proof.
  unfold sorted. now rewrite merge_sort_Permutation.
Qed.

(** *** Reading the count off a report *)

Lemma drop_while_app_all {A} (p : A -> bool) (a b : list A) :
  forallb p a = true -> drop_while p (a ++ b) = drop_while p b.
Proof.
  induction a as [|x a IH]; [reflexivity|].
  cbn [forallb app drop_while]. intros [Hx Ha]%andb_true_iff.
  rewrite Hx. now apply IH.
Qed.

Lemma digits_are_digits (d : Decimal.uint) : forallb is_digit (digits_of_uint d) = true.
Proof. induction d; cbn [digits_of_uint forallb]; [reflexivity|rewrite IHd; reflexivity..]. Qed.

Lemma leading_digits_app (a b : pystr) :
  forallb is_digit a = true -> leading_digits (a ++ b) = a ++ leading_digits b.
Proof.
  induction a as [|c a IH]; [reflexivity|].
  cbn [forallb app leading_digits]. intros [Hc Ha]%andb_true_iff.
  rewrite Hc. now rewrite IH.
Qed.

Lemma uint_of_digits_of_uint (d : Decimal.uint) : uint_of_digits (digits_of_uint d) = d.
Proof.
  induction d; cbn [digits_of_uint uint_of_digits]; [reflexivity|rewrite IHd; reflexivity..].
Qed.

Lemma digits_of_uint_head (d : Decimal.uint) :
  d <> Nil -> exists c s, digits_of_uint d = c :: s /\ is_digit c = true.
Proof. destruct d; [congruence|cbn [digits_of_uint]; eauto..]. Qed.

(** The numeral of a count that is not negative: digits only, and not
    empty; its value is the count. *)
Lemma str_of_int_numeral (n : Z) :
  (0 <= n)%Z ->
  exists d, str_of_int n = digits_of_uint d /\ d <> Nil /\ Z.of_uint d = n.
Proof.
  intros Hn. pose proof (DecimalZ.of_to n) as Hval. unfold str_of_int.
  destruct n as [|p|p]; [| |lia].
  - exists (D0 Nil). now repeat split.
  - cbn [Z.to_int] in *. exists (Pos.to_uint p). split; [reflexivity|].
    split; [apply DecimalPos.Unsigned.to_uint_nonnil|exact Hval].
Qed.

(** The report of a broadcast names the count it was made from. *)
Lemma reported_count_report (n : Z) :
  (0 <= n)%Z -> reported_count (broadcast_report n) = Some n.
Proof.
  intros Hn. destruct (str_of_int_numeral n Hn) as (d & Hd & Hnil & Hval).
  unfold reported_count, broadcast_report. rewrite Hd.
  rewrite drop_while_app_all by (vm_compute; reflexivity).
  destruct (digits_of_uint_head d Hnil) as (c & s & Hcs & Hc).
  assert (Hrun : leading_digits
                   (drop_while (fun c => negb (is_digit c))
                      (digits_of_uint d ++ py " пользователям."))
                 = digits_of_uint d).
  { rewrite Hcs. cbn [app drop_while]. rewrite Hc. cbn [negb].
    change (c :: s ++ py " пользователям.") with ((c :: s) ++ py " пользователям.").
    rewrite <- Hcs, leading_digits_app by apply digits_are_digits.
    replace (leading_digits (py " пользователям.")) with (@nil N)
      by (vm_compute; reflexivity).
    apply app_nil_r. }
  rewrite Hrun, Hcs. rewrite <- Hcs, uint_of_digits_of_uint. now rewrite Hval.
Qed.

(** C8, as the code has it.  A broadcast to the [N] known users sends to
    every one of them in increasing order, whatever the transport answered
    to the earlier sends; when [K] of the sends are refused, each refusal
    is logged, none of them is raised, and the count that the report names
    is [N - K].  The broadcast ends as its report reply ends: it raises
    only when that one reply is refused. *)
Theorem broadcast_reports_delivered_count (message : Message) (payload : pystr)
    (w : World) :
  let users : gset Z :=
    match users_file w with Some l => list_to_set l | None => ∅ end in
  let N := size users in
  let outcomes := send_outcomes E payload (length (sent w)) (sorted users) in
  let K := failures outcomes in
  exists text,
    let report := MessageAnswer (msg_chat_id message) (PStr text) None None in
    let ok := transport_ok E (length (sent w) + N) report in
    text = py "Рассылка выполнена. Отправлено: "
           ++ str_of_int (Z.of_nat N - Z.of_nat K) ++ py " пользователям." /\
    reported_count text = Some (Z.of_nat N - Z.of_nat K)%Z /\
    length outcomes = N /\
    (K <= N)%nat /\
    broadcast E message payload w =
    (ends_with ok report,
     {| fsm := fsm w; users_file := users_file w;
        sent := sent w
                ++ combine (map (broadcast_call payload) (sorted users)) outcomes
                ++ [(report, ok)];
        log := log w ++ map LogBroadcastFailed
                          (refused_users (sorted users) outcomes) |}).
Proof.
  intros users N outcomes K.
  assert (Hlen : length outcomes = N).
  { subst outcomes N. now rewrite send_outcomes_length, sorted_length. }
  assert (HK : (K <= N)%nat) by (subst K; rewrite <- Hlen; apply failures_le).
  exists (broadcast_report (Z.of_nat N - Z.of_nat K)). cbv zeta.
  split; [reflexivity|].
  split; [apply reported_count_report; lia|].
  split; [exact Hlen|]. split; [exact HK|].
  unfold broadcast. rewrite bind_run. unfold load_users. fold users.
  rewrite bind_run, broadcast_loop_run. fold outcomes. fold K.
  rewrite sorted_length. fold N. rewrite Z.add_0_l.
  unfold answer. rewrite transport_run. cbn [sent fsm users_file log].
  rewrite length_app, length_combine, length_map, sorted_length, Hlen.
  fold N. rewrite Nat.min_id.
  now rewrite <- app_assoc.
Qed.

(** [cmd_broadcast] with a payload on the command line is that broadcast. *)
Lemma cmd_broadcast_immediate (message : Message) (rest : pystr) (w : World) :
  is_admin E message = true ->
  let text := str_strip (default [] (msg_text message)) in
  startswith text (py "/broadcast ") = true ->
  after_first_space text = Some rest ->
  str_strip rest <> [] ->
  cmd_broadcast E message w = broadcast E message (str_strip rest) w.
Proof.
  intros Hadmin text Hcmd Hrest Hpayload. unfold cmd_broadcast.
  rewrite Hadmin. cbn [negb]. fold text. rewrite Hcmd, Hrest.
  now destruct (str_strip rest).
Qed.

End HandlerFacts.

(* ===================================================================== *)
(** * The order tag *)
(* ===================================================================== *)

Section OrderTag.
Context `{CaseProps}.

Lemma digits_of_uint_inj (d d' : Decimal.uint) :
  digits_of_uint d = digits_of_uint d' -> d = d'.
Proof.
  revert d'. induction d; destruct d'; cbn [digits_of_uint];
    intros Heq; try discriminate Heq; try reflexivity;
    injection Heq as Heq; f_equal; auto.
Qed.

Lemma digits_of_uint_no_sign (d : Decimal.uint) (s : pystr) :
  digits_of_uint d <> 0x2D%N :: s.
Proof. destruct d; cbn [digits_of_uint]; discriminate. Qed.

Lemma digits_of_uint_nil (d : Decimal.uint) : digits_of_uint d = [] -> d = Nil.
Proof. destruct d; cbn [digits_of_uint]; [reflexivity|discriminate..]. Qed.

(** [str] is injective on integers. *)
Lemma str_of_int_inj (a b : Z) : str_of_int a = str_of_int b -> a = b.
Proof.
  unfold str_of_int. intros Heq. apply DecimalZ.to_int_inj.
  destruct (Z.to_int a) as [da|da], (Z.to_int b) as [db|db].
  - f_equal. now apply digits_of_uint_inj.
  - now apply digits_of_uint_no_sign in Heq.
  - symmetry in Heq. now apply digits_of_uint_no_sign in Heq.
  - injection Heq as Heq. f_equal. now apply digits_of_uint_inj.
Qed.

Lemma str_of_int_nonempty (a : Z) : str_of_int a <> [].
Proof.
  unfold str_of_int. destruct a as [|p|p]; cbn; [discriminate| |discriminate].
  intros Hnil. apply digits_of_uint_nil in Hnil.
  now apply DecimalPos.Unsigned.to_uint_nonnil in Hnil.
Qed.

(** C9, as the code has it.  Every payment-intent activation stores a
    non-empty order tag, the decimal form of the clock reading cut to whole
    seconds; two activations get different tags exactly when their whole
    seconds differ. *)
Theorem order_tag_whole_seconds
    (E1 E2 : Env) (fm1 fm2 : FlowManager)
    (map1 map2 : list (pystr * ActionEntry)) (m1 m2 : Message) (w1 w2 : World)
    (e1 e2 : ActionEntry) :
  receipt_upload m1 w1 = None ->
  dict_get (normalized_text m1) map1 = Some e1 ->
  startswith (normalized_text m1) PAYMENT_TRIGGER = true ->
  receipt_upload m2 w2 = None ->
  dict_get (normalized_text m2) map2 = Some e2 ->
  startswith (normalized_text m2) PAYMENT_TRIGGER = true ->
  exists p1 p2,
    pending_of (snd (on_msg E1 fm1 map1 m1 w1)) = Some p1 /\
    pending_of (snd (on_msg E2 fm2 map2 m2 w2)) = Some p2 /\
    order_tag p1 = str_of_int (int_of_float (time_time E1)) /\
    order_tag p2 = str_of_int (int_of_float (time_time E2)) /\
    order_tag p1 <> [] /\ order_tag p2 <> [] /\
    (order_tag p1 = order_tag p2 <->
     int_of_float (time_time E1) = int_of_float (time_time E2)).
Proof.
  intros Hup1 Hd1 Ht1 Hup2 Hd2 Ht2.
  rewrite (on_msg_trigger_run E1 fm1 map1 m1 w1 e1 Hup1 Hd1 Ht1).
  rewrite (on_msg_trigger_run E2 fm2 map2 m2 w2 e2 Hup2 Hd2 Ht2).
  unfold pending_of. cbn [snd fsm meta default from_option].
  unfold Datatypes.id.
  rewrite !lookup_insert_eq.
  eexists _, _. repeat split; cbn [order_tag];
    try apply str_of_int_nonempty.
  - apply str_of_int_inj.
  - now intros ->.
Qed.

End OrderTag.

(* ===================================================================== *)
(** * The properties on sample sessions *)
(* ===================================================================== *)

Section Examples.
Local Existing Instance no_sigma_context.

(** Case and whitespace variants of a label normalise to the same key. *)
Example normalize_label_variants :
  normalize_label (Some (py "YES")) = py "yes" /\
  normalize_label (Some (py " yes ")) = py "yes" /\
  normalize_label (Some (py "  Оплатил   КАРТОЙ ")) = py "оплатил картой" /\
  normalize_label None = [].
Proof. vm_compute. repeat split. Qed.

(** C1 fails as stated: a text that begins with the trigger word but is
    no declared label of the step gets the "use the buttons" notice, and no
    pending payment is stored. *)
Lemma payment_intent_undeclared_label_ignored :
  startswith
    (normalized_text (sample_message 11 (Some (py "Оплатил наличными")) false))
    PAYMENT_TRIGGER = true /\
  dict_get
    (normalized_text (sample_message 11 (Some (py "Оплатил наличными")) false))
    sample_map = None /\
  pending_of
    (snd (on_msg quiet_env sample_flow sample_map
            (sample_message 11 (Some (py "Оплатил наличными")) false)
            (sample_world ∅))) = None /\
  sent
    (snd (on_msg quiet_env sample_flow sample_map
            (sample_message 11 (Some (py "Оплатил наличными")) false)
            (sample_world ∅)))
  = [(notice_call quiet_env
        (sample_message 11 (Some (py "Оплатил наличными")) false) "use_buttons",
      true)].
Proof. vm_compute. repeat split. Qed.

Lemma payment_intent_on_declared_label_witness :
  receipt_upload (sample_message 11 (Some (py "Оплатил картой")) false)
    (sample_world ∅) = None /\
  startswith
    (normalized_text (sample_message 11 (Some (py "Оплатил картой")) false))
    PAYMENT_TRIGGER = true /\
  pending_of
    (snd (on_msg quiet_env sample_flow sample_map
            (sample_message 11 (Some (py "Оплатил картой")) false)
            (sample_world ∅))) = Some sample_pending.
Proof.
  split; [vm_compute; reflexivity|]. split; [vm_compute; reflexivity|].
  refine (proj1 (proj2
    (payment_intent_on_declared_label quiet_env sample_flow sample_map
       (sample_message 11 (Some (py "Оплатил картой")) false) (sample_world ∅)
       (entry_of {| label := py "Оплатил картой";
                    answer_action := Some {| action_type := Some (py "goto");
                                             action_target := Some (py "2");
                                             action_payload := None |} |})
       _ _ _))); vm_compute; reflexivity.
Defined.



(** C5 fails as stated: on an identifier that is not registered [start]
    raises when the transport refuses the notice, and on a missing
    identifier (an action without target) it raises before any notice is
    sent. *)
Lemma start_missing_step_raises :
  steps sample_flow !! py "zz" = None /\
  fst (start no_reply_env sample_flow (sample_message 11 None false)
         (Some (py "zz")) (sample_world ∅))
  = Raised (TransportError (step_not_found_call (sample_message 11 None false) (py "zz"))) /\
  fst (start quiet_env sample_flow (sample_message 11 None false) None (sample_world ∅))
  = Raised TypeError /\
  sent (snd (start quiet_env sample_flow (sample_message 11 None false) None
               (sample_world ∅))) = [].
Proof. vm_compute. repeat split. Qed.

(** C8 fails as stated: the report reply of [cmd_broadcast] is not
    guarded; with all three sends accepted and the report refused, the
    command raises. *)
Lemma broadcast_refused_report_raises :
  is_admin no_reply_env (sample_message 7 (Some (py "/broadcast hi")) false) = true /\
  map snd (sent (snd (cmd_broadcast no_reply_env
                        (sample_message 7 (Some (py "/broadcast hi")) false)
                        (sample_world ∅))))
  = [true; true; true; false] /\
  fst (cmd_broadcast no_reply_env
         (sample_message 7 (Some (py "/broadcast hi")) false) (sample_world ∅))
  = Raised (TransportError
              (MessageAnswer 7
                 (PStr (py "Рассылка выполнена. Отправлено: 3 пользователям."))
                 None None)).
Proof. vm_compute. repeat split. Qed.

(** On the sample session the refused forward leaves exactly the failure
    notice for the user. *)
Example receipt_upload_forward_refused :
  sent
    (snd (on_msg no_forward_env sample_flow sample_map
            (sample_message 11 None true)
            (sample_world {[ "pending_payment"%string := sample_pending ]})))
  = [(forward_call 7 (sample_message 11 None true), false);
     (notice_call no_forward_env (sample_message 11 None true) "receipt_send_failed",
      true)].
Proof. vm_compute. reflexivity. Qed.

(** C9 fails as stated: two users activating within the same second get
    the same order tag. *)
Lemma same_second_same_order_tag :
  from_user_id (sample_message 11 (Some (py "Оплатил картой")) false)
    <> from_user_id (sample_message 12 (Some (py "Оплатил картой")) false) /\
  time_time quiet_env <> time_time later_env /\
  order_tag <$>
    pending_of (snd (on_msg quiet_env sample_flow sample_map
                       (sample_message 11 (Some (py "Оплатил картой")) false)
                       (sample_world ∅)))
  = Some (py "1700000000") /\
  order_tag <$>
    pending_of (snd (on_msg later_env sample_flow sample_map
                       (sample_message 12 (Some (py "Оплатил картой")) false)
                       (sample_world ∅)))
  = Some (py "1700000000").
Proof. vm_compute. repeat split; discriminate. Qed.

Lemma order_tag_whole_seconds_witness :
  receipt_upload (sample_message 11 (Some (py "Оплатил картой")) false)
    (sample_world ∅) = None /\
  exists p1 p2,
    pending_of (snd (on_msg quiet_env sample_flow sample_map
                       (sample_message 11 (Some (py "Оплатил картой")) false)
                       (sample_world ∅))) = Some p1 /\
    pending_of (snd (on_msg later_env sample_flow sample_map
                       (sample_message 12 (Some (py "Оплатил картой")) false)
                       (sample_world ∅))) = Some p2 /\
    order_tag p1 <> [] /\ order_tag p2 <> [].
Proof.
  split; [vm_compute; reflexivity|].
  destruct (order_tag_whole_seconds quiet_env later_env sample_flow sample_flow
              sample_map sample_map
              (sample_message 11 (Some (py "Оплатил картой")) false)
              (sample_message 12 (Some (py "Оплатил картой")) false)
              (sample_world ∅) (sample_world ∅)
              (entry_of {| label := py "Оплатил картой";
                    answer_action := Some {| action_type := Some (py "goto");
                                             action_target := Some (py "2");
                                             action_payload := None |} |})
              (entry_of {| label := py "Оплатил картой";
                    answer_action := Some {| action_type := Some (py "goto");
                                             action_target := Some (py "2");
                                             action_payload := None |} |}))
    as (p1 & p2 & H1 & H2 & _ & _ & N1 & N2 & _); try (vm_compute; reflexivity).
  exists p1, p2. auto.
Defined.

(** A label with a [goto] action moves the session to its target, in any
    case and spacing of the text. *)
Example goto_answer_variants :
  Forall
    (fun t =>
       step (fsm (snd (handle_message quiet_env sample_flow
                         (sample_message 11 (Some t) false) (sample_world ∅))))
       = Some (py "2"))
    [py "да"; py " ДА "; py "Да"].
Proof. repeat constructor; vm_compute; reflexivity. Qed.

(** Three known users, the send to user 5 refused: two are reported. *)
Example broadcast_one_refused :
  map snd
    (sent (snd (broadcast
                  (sample_env (fun c => match c with
                                        | BotSendMessage 5 _ _ _ => true
                                        | _ => false
                                        end) 0%Q)
                  (sample_message 7 (Some (py "/broadcast hi")) false)
                  (py "hi") (sample_world ∅))))
  = [true; false; true; true]
  /\
  last (sent (snd (broadcast
                  (sample_env (fun c => match c with
                                        | BotSendMessage 5 _ _ _ => true
                                        | _ => false
                                        end) 0%Q)
                  (sample_message 7 (Some (py "/broadcast hi")) false)
                  (py "hi") (sample_world ∅))))
  = Some (MessageAnswer 7
            (PStr (py "Рассылка выполнена. Отправлено: 2 пользователям.")) None None,
          true).
Proof. vm_compute. split; reflexivity. Qed.

End Examples.

(* ===================================================================== *)
(** * What the handlers leave alone *)
(* ===================================================================== *)

Section Frames.
Context `{CaseProps} (E : Env).

#[local] Arguments py : simpl never.
#[local] Arguments escape_str : simpl never.
#[local] Arguments escape_md_v2 : simpl never.
#[local] Arguments normalize_label : simpl never.
#[local] Arguments str_lower : simpl never.
#[local] Arguments str_of_int : simpl never.
#[local] Arguments startswith : simpl never.
#[local] Arguments str_strip : simpl never.
#[local] Arguments transport : simpl never.
#[local] Arguments answer : simpl never.
#[local] Arguments notice : simpl never.
#[local] Arguments start : simpl never.
#[local] Arguments _enter_step : simpl never.
#[local] Arguments on_msg : simpl never.
#[local] Arguments broadcast : simpl never.
#[local] Arguments add_user : simpl never.
#[local] Arguments handle_message : simpl never.

#[local] Instance same_session_refl : Reflexive same_session.
Proof. now intros w. Qed.

#[local] Instance same_session_trans : Transitive same_session.
Proof. intros w1 w2 w3 [? ?] [? ?]. split; congruence. Qed.

#[local] Instance same_users_refl : Reflexive same_users.
Proof. now intros w. Qed.

#[local] Instance same_users_trans : Transitive same_users.
Proof. unfold same_users. intros w1 w2 w3 ? ?. congruence. Qed.

#[local] Instance same_fsm_refl : Reflexive same_fsm.
Proof. now intros w. Qed.

#[local] Instance same_fsm_trans : Transitive same_fsm.
Proof. unfold same_fsm. intros w1 w2 w3 ? ?. congruence. Qed.

Lemma same_session_users w w' : same_session w w' -> same_users w w'.
Proof. now intros [_ ?]. Qed.

Lemma same_session_fsm w w' : same_session w w' -> same_fsm w w'.
Proof. now intros [? _]. Qed.

Lemma stable_weaken {A} (R R' : World -> World -> Prop) (m : M A) :
  (forall w w', R w w' -> R' w w') -> stable R m -> stable R' m.
Proof. intros HR Hm w. apply HR, Hm. Qed.

Lemma stable_ret {A} R `{!Reflexive R} (a : A) : stable R (mret a).
Proof. intros w. reflexivity. Qed.

Lemma stable_raise {A} R `{!Reflexive R} (e : Exn) : stable R (@raise A e).
Proof. intros w. reflexivity. Qed.

Lemma stable_bind {A B} R `{!Transitive R} (m : M A) (f : A -> M B) :
  stable R m -> (forall a, stable R (f a)) -> stable R (m ≫= f).
Proof.
  intros Hm Hf w. rewrite bind_run. specialize (Hm w).
  destruct (m w) as [[a|e] w1]; [|exact Hm].
  etransitivity; [exact Hm|apply Hf].
Qed.

Lemma stable_try {A} R `{!Transitive R} (body handler : M A) :
  stable R body -> stable R handler -> stable R (try_except body handler).
Proof.
  intros Hb Hh w. unfold try_except. specialize (Hb w).
  destruct (body w) as [[a|e] w1]; [exact Hb|].
  etransitivity; [exact Hb|apply Hh].
Qed.

Lemma stable_get_data R `{!Reflexive R} : stable R get_data.
Proof. intros w. reflexivity. Qed.

Lemma stable_logger (e : LogEvent) : stable same_session (logger e).
Proof. now intros w. Qed.

Lemma stable_transport (c : Call) : stable same_session (transport E c).
Proof. intros w. rewrite transport_run. now split. Qed.

Lemma stable_update_data (f : FsmData -> FsmData) : stable same_users (update_data f).
Proof. now intros w. Qed.

Lemma stable_load_users R `{!Reflexive R} : stable R load_users.
Proof. intros w. reflexivity. Qed.

(** Take a computation apart down to the primitives above. *)
Ltac frame_step :=
  first
    [ apply stable_ret; solve [typeclasses eauto]
    | apply stable_raise; solve [typeclasses eauto]
    | apply stable_get_data; solve [typeclasses eauto]
    | apply stable_load_users; solve [typeclasses eauto]
    | apply stable_logger
    | apply stable_transport
    | apply stable_update_data
    | apply (stable_weaken same_session same_users _ same_session_users);
        first [apply stable_logger | apply stable_transport]
    | apply (stable_weaken same_session same_fsm _ same_session_fsm);
        first [apply stable_logger | apply stable_transport]
    | apply stable_bind; [typeclasses eauto | | intros ?]
    | apply stable_try; [typeclasses eauto | | ]
    | match goal with
      | |- stable _ (match ?x with _ => _ end) => destruct x
      | |- stable _ (if ?b then _ else _) => destruct b
      end ].

Ltac frame := repeat frame_step.

Lemma stable_answer message text markup mode :
  stable same_session (answer E message text markup mode).
Proof. apply stable_transport. Qed.

Lemma stable_notice message key : stable same_session (notice E message key).
Proof. apply stable_transport. Qed.

Lemma stable_on_enter_fn doc message : stable same_session (on_enter_fn E doc message).
Proof. unfold on_enter_fn. frame. Qed.

Lemma stable_enter_step message s : stable same_session (_enter_step E message s).
Proof. unfold _enter_step. frame; try apply stable_on_enter_fn; apply stable_answer. Qed.


Ltac run :=
  repeat first
    [ rewrite bind_run
    | progress unfold update_data, logger, get_data, get_step, set_fsm
    | progress unfold mret, M_ret
    | progress cbn ].

(** X1. Entering a step only sends and logs: flow, current step, meta,
    the broadcast flag and the known-user file are what they were, for
    every step and whatever the transport answers. *)
Theorem enter_step_keeps_session (message : Message) (s : Step) (w : World) :
  fsm (snd (_enter_step E message s w)) = fsm w /\
  users_file (snd (_enter_step E message s w)) = users_file w.
Proof. apply stable_enter_step. Qed.

Lemma start_registered_run (fm : FlowManager) (message : Message)
    (target : pystr) (s : Step) (w : World) :
  steps fm !! target = Some s ->
  start E fm message (Some target) w =
  _enter_step E message s
    {| fsm := started_at fm target (fsm w);
       users_file := users_file w;
       sent := sent w;
       log := log w ++ [LogGetStep (Some target);
                        LogStart (from_user_id message) target] |}.
Proof.
  intros Hs. unfold start. run. rewrite Hs. run.
  rewrite <- app_assoc. reflexivity.
Qed.

Lemma start_missing_run (fm : FlowManager) (message : Message)
    (target : pystr) (w : World) :
  steps fm !! target = None ->
  let c := step_not_found_call message target in
  let ok := transport_ok E (length (sent w)) c in
  start E fm message (Some target) w =
  (ends_with ok c,
   {| fsm := fsm w; users_file := users_file w;
      sent := sent w ++ [(c, ok)];
      log := log w ++ [LogGetStep (Some target)] |}).
Proof.
  intros Hs. unfold start. run. rewrite Hs.
  unfold answer. rewrite transport_run. reflexivity.
Qed.

(** X2. [start] stores its target before it sends anything: once the
    target is registered the session stands at it, with the flow name set
    and an empty meta, even when the step's document or text is refused by
    the transport. *)
Theorem start_commits_before_sending (fm : FlowManager) (message : Message)
    (target : pystr) (s : Step) (w : World) :
  steps fm !! target = Some s ->
  fsm (snd (start E fm message (Some target) w)) = started_at fm target (fsm w) /\
  users_file (snd (start E fm message (Some target) w)) = users_file w.
Proof.
  intros Hs. rewrite (start_registered_run fm message target s w Hs).
  exact (stable_enter_step message s _).
Qed.

Lemma enter_step_run_text (message : Message) (s : Step) (w : World) :
  on_enter s = None \/ (exists doc, on_enter s = Some doc /\ path_exists E doc = false) ->
  resolved_text s (default ∅ (meta (fsm w))) <> [] ->
  exists lg,
    let c := step_text_call message s (default ∅ (meta (fsm w))) in
    let ok := transport_ok E (length (sent w)) c in
    _enter_step E message s w =
    (ends_with ok c,
     {| fsm := fsm w; users_file := users_file w;
        sent := sent w ++ [(c, ok)]; log := log w ++ lg |}).
Proof.
  intros Hdoc Htext. unfold _enter_step, step_text_call, keyboard_of.
  unfold resolved_text in *. unfold on_enter_fn.
  destruct (reply_keyboard_descriptor s) as [[|row rows]|];
    (destruct Hdoc as [Hd|(doc & Hd & Hex)]; rewrite Hd; [|rewrite Hex]); run;
    (destruct (match text s with TextNone => _ | _ => _ end) as [|c0 t0];
       [contradiction|]);
    run; unfold answer; rewrite transport_run; cbn [sent fsm users_file log];
    rewrite <- ?app_assoc; eexists; reflexivity.
Qed.


(** X3. A step's document goes out before its text, and a refused
    document ends the entry: the text is then not sent at all. *)
Theorem enter_step_document_first (message : Message) (s : Step) (doc : pystr)
    (w : World) :
  on_enter s = Some doc ->
  path_exists E doc = true ->
  resolved_text s (default ∅ (meta (fsm w))) <> [] ->
  let dc := step_document_call message doc in
  let tc := step_text_call message s (default ∅ (meta (fsm w))) in
  let ok_d := transport_ok E (length (sent w)) dc in
  let ok_t := transport_ok E (length (sent w) + 1) tc in
  fst (_enter_step E message s w) =
    (if ok_d then ends_with ok_t tc else Raised (TransportError dc)) /\
  sent (snd (_enter_step E message s w)) =
    sent w ++ (if ok_d then [(dc, true); (tc, ok_t)] else [(dc, false)]).
Proof.
  intros Hd Hex Htext. cbv zeta.
  unfold _enter_step, step_text_call, step_document_call, keyboard_of.
  unfold resolved_text in *. unfold on_enter_fn. rewrite Hd, Hex.
  destruct (reply_keyboard_descriptor s) as [[|row rows]|]; run;
    rewrite transport_run; cbn [sent];
    (destruct (transport_ok E (length (sent w)) _); cbn [ends_with];
       [|split; reflexivity]);
    (destruct (match text s with TextNone => _ | _ => _ end) as [|c0 t0];
       [contradiction|]);
    run; unfold answer; rewrite transport_run; cbn [sent fst snd];
    rewrite length_app, <- app_assoc; split; reflexivity.
Qed.

(** The sends of a step entry, for every step: the calls of
    [entry_calls] in order, up to the first that is refused. *)
Lemma enter_step_trace (message : Message) (s : Step) (w : World) :
  let trace := attempt E (length (sent w))
                 (entry_calls E message s (default ∅ (meta (fsm w)))) in
  fst (_enter_step E message s w) = trace_outcome trace /\
  sent (snd (_enter_step E message s w)) = sent w ++ trace.
Proof.
  cbv zeta.
  unfold _enter_step, entry_calls, step_text_call, step_document_call, keyboard_of.
  unfold resolved_text. unfold on_enter_fn.
  set (t := match text s with
            | TextNone => [] | TextStr t => t | TextFn f => f (default ∅ (meta (fsm w)))
            end).
  destruct (reply_keyboard_descriptor s) as [[|row rows]|];
    destruct (on_enter s) as [doc|]; [destruct (path_exists E doc)| |
                                      destruct (path_exists E doc)| |
                                      destruct (path_exists E doc)| ];
    run; fold t;
    try (rewrite transport_run; cbn [sent attempt app];
         destruct (transport_ok E (length (sent w)) _); cbn [ends_with];
         [|split; reflexivity]);
    destruct t as [|c0 t0]; run;
    rewrite ?app_nil_r; try (split; reflexivity);
    unfold answer; rewrite transport_run; cbn [sent fst snd attempt app];
    rewrite ?length_app, ?Nat.add_1_r; cbn [length];
    rewrite ?Nat.add_1_r;
    destruct (transport_ok E _ _); cbn [ends_with];
    rewrite <- ?app_assoc; split; reflexivity.
Qed.

(** C5, as the code has it.  For an identifier that is not registered,
    [start] sends the "step not found" notice and touches nothing but the
    log: flow, step and meta are as before, and [start] raises nothing of
    its own, its outcome being that of the one send.  For a registered
    identifier it stores the flow name, the target as current step and an
    empty meta, and then enters the step: the step's document, when it has
    one that exists, and its text with its keyboard, when it is not empty,
    are sent in this order until the transport refuses one. *)
Theorem start_reports_or_enters (fm : FlowManager) (message : Message)
    (target : pystr) (w : World) :
  (steps fm !! target = None ->
   let c := MessageAnswer (msg_chat_id message)
              (PStr (escape_str (py "Шаг не найден: " ++ target) false))
              None (Some MARKDOWN_V2) in
   let ok := transport_ok E (length (sent w)) c in
   start E fm message (Some target) w =
   (if ok then Returned tt else Raised (TransportError c),
    {| fsm := fsm w; users_file := users_file w;
       sent := sent w ++ [(c, ok)];
       log := log w ++ [LogGetStep (Some target)] |}))
  /\
  (forall s, steps fm !! target = Some s ->
   let trace := attempt E (length (sent w)) (entry_calls E message s ∅) in
   let w' := snd (start E fm message (Some target) w) in
   fst (start E fm message (Some target) w) = trace_outcome trace /\
   fsm w' = {| flow := Some (name fm); step := Some target; meta := Some ∅;
               awaiting_broadcast := awaiting_broadcast (fsm w) |} /\
   users_file w' = users_file w /\
   sent w' = sent w ++ trace).
Proof.
  split.
  - intros Hnone. apply (start_missing_run fm message target w Hnone).
  - intros s Hs. cbv zeta.
    rewrite (start_registered_run fm message target s w Hs).
    match goal with |- context [_enter_step E message s ?w0] =>
      destruct (enter_step_trace message s w0) as [Hout Hsent];
      destruct (stable_enter_step message s w0) as [Hfsm Husers]
    end.
    cbn [sent fsm users_file meta started_at default from_option] in *.
    repeat split; assumption.
Qed.

(** *** [handle_message] *)

Lemma handle_message_delegates (fm : FlowManager) (message : Message) (w : World)
    (sid : pystr) (s : Step) (map_local : list (pystr * ActionEntry)) :
  step (fsm w) = Some sid -> sid <> [] ->
  steps fm !! sid = Some s -> on_message s = Some map_local ->
  handle_message E fm message w = on_msg E fm map_local message (delegated message sid w).
Proof.
  intros Hstep Hne Hs Hmap. unfold handle_message. run. rewrite Hstep.
  destruct sid as [|c sid]; [contradiction|]. run. rewrite Hs. cbn.
  rewrite Hmap. run. unfold delegated. rewrite <- app_assoc. reflexivity.
Qed.

(** X4. With nothing to delegate to, [handle_message] leaves the session
    alone: without a current step it does nothing at all, and at a step
    that is unknown or has no handler it only answers with the "use the
    keyboard" notice. *)
Theorem handle_message_without_handler (fm : FlowManager) (message : Message)
    (w : World) :
  ((step (fsm w) = None \/ step (fsm w) = Some []) ->
   handle_message E fm message w = (Returned tt, w))
  /\
  (forall sid, step (fsm w) = Some sid -> sid <> [] ->
     steps fm !! sid ≫= on_message = None ->
     let c := use_keyboard_call message in
     let ok := transport_ok E (length (sent w)) c in
     fst (handle_message E fm message w) = ends_with ok c /\
     fsm (snd (handle_message E fm message w)) = fsm w /\
     users_file (snd (handle_message E fm message w)) = users_file w /\
     sent (snd (handle_message E fm message w)) = sent w ++ [(c, ok)]).
Proof.
  split.
  - intros [Hs|Hs]; unfold handle_message; run; rewrite Hs; now destruct w.
  - intros sid Hs Hne Hnone. cbv zeta. unfold handle_message. run. rewrite Hs.
    destruct sid as [|c0 sid]; [contradiction|]. run. rewrite Hnone. run.
    unfold answer. rewrite transport_run. repeat split.
Qed.

(** *** The branches of [on_msg] behind a matched label *)

Lemma on_msg_dispatch (fm : FlowManager) (map_local : list (pystr * ActionEntry))
    (message : Message) (w : World) (entry : ActionEntry) :
  receipt_upload message w = None ->
  dict_get (normalized_text message) map_local = Some entry ->
  startswith (normalized_text message) PAYMENT_TRIGGER = false ->
  on_msg E fm map_local message w =
  (let act := action entry in
   let kind := action_type act in
   if bool_decide (kind = Some (py "goto")) then
     start E fm message (action_target act)
   else if bool_decide (kind = Some (py "screenshot")) then
     (if path_exists E (py "screenshot1.png")
      then transport E (MessageAnswerPhoto (msg_chat_id message) (py "screenshot1.png"))
      else mret tt);;
     (if path_exists E (py "screenshot2.png")
      then transport E (MessageAnswerPhoto (msg_chat_id message) (py "screenshot2.png"))
      else mret tt);;
     (if nonempty (action_target act)
      then start E fm message (action_target act)
      else mret tt)
   else if bool_decide (kind = Some (py "raw")) then
     transport E (raw_call message act)
   else notice E message "unknown_action") w.
Proof.
  intros Hup Hentry Htrig.
  unfold on_msg. rewrite bind_run. unfold get_data.
  unfold receipt_upload, pending_of in Hup. rewrite Hup.
  fold (normalized_text message).
  rewrite Hentry, lower_normalized_text.
  unfold PAYMENT_TRIGGER in Htrig. rewrite Htrig. reflexivity.
Qed.


Lemma delegated_receipt_upload (message : Message) (sid : pystr) (w : World) :
  receipt_upload message (delegated message sid w) = receipt_upload message w.
Proof. reflexivity. Qed.

Lemma handle_message_goto_session (fm : FlowManager) (message : Message) (w : World)
    (sid target : pystr) (s s' : Step) (map_local : list (pystr * ActionEntry))
    (entry : ActionEntry) :
  step (fsm w) = Some sid -> sid <> [] ->
  steps fm !! sid = Some s -> on_message s = Some map_local ->
  receipt_upload message w = None ->
  dict_get (normalized_text message) map_local = Some entry ->
  startswith (normalized_text message) PAYMENT_TRIGGER = false ->
  action_type (action entry) = Some (py "goto") ->
  action_target (action entry) = Some target ->
  steps fm !! target = Some s' ->
  fsm (snd (handle_message E fm message w)) = started_at fm target (fsm w) /\
  users_file (snd (handle_message E fm message w)) = users_file w.
Proof.
  intros Hstep Hne Hs Hmap Hup Hentry Htrig Hkind Htarget Hs'.
  rewrite (handle_message_delegates fm message w sid s map_local Hstep Hne Hs Hmap).
  rewrite (on_msg_dispatch fm map_local message (delegated message sid w) entry
             Hup Hentry Htrig).
  cbv zeta. rewrite Hkind, bool_decide_eq_true_2 by reflexivity.
  rewrite Htarget, (start_registered_run fm message target s' _ Hs').
  exact (stable_enter_step message s' _).
Qed.

(** X5. A text whose normalised form is a declared label with a [goto]
    action moves the session: after [handle_message] the current step is
    the (registered) target and the meta data are empty, whatever was in
    them before and whatever the transport does with the new step's
    messages. *)
Theorem goto_answer_moves_session (fm : FlowManager) (message : Message) (w : World)
    (sid target : pystr) (s s' : Step) (map_local : list (pystr * ActionEntry))
    (entry : ActionEntry) :
  step (fsm w) = Some sid -> sid <> [] ->
  steps fm !! sid = Some s -> on_message s = Some map_local ->
  receipt_upload message w = None ->
  dict_get (normalized_text message) map_local = Some entry ->
  startswith (normalized_text message) PAYMENT_TRIGGER = false ->
  action_type (action entry) = Some (py "goto") ->
  action_target (action entry) = Some target ->
  steps fm !! target = Some s' ->
  fsm (snd (handle_message E fm message w)) = started_at fm target (fsm w) /\
  users_file (snd (handle_message E fm message w)) = users_file w.
Proof. apply handle_message_goto_session. Qed.

(** X6. A [goto] to a step that is not registered changes nothing in the
    session: the user gets the "step not found" notice and stays where
    they were. *)
Theorem goto_unregistered_target_reports (fm : FlowManager) (message : Message)
    (w : World) (sid target : pystr) (s : Step)
    (map_local : list (pystr * ActionEntry)) (entry : ActionEntry) :
  step (fsm w) = Some sid -> sid <> [] ->
  steps fm !! sid = Some s -> on_message s = Some map_local ->
  receipt_upload message w = None ->
  dict_get (normalized_text message) map_local = Some entry ->
  startswith (normalized_text message) PAYMENT_TRIGGER = false ->
  action_type (action entry) = Some (py "goto") ->
  action_target (action entry) = Some target ->
  steps fm !! target = None ->
  let c := step_not_found_call message target in
  let ok := transport_ok E (length (sent w)) c in
  fst (handle_message E fm message w) = ends_with ok c /\
  fsm (snd (handle_message E fm message w)) = fsm w /\
  sent (snd (handle_message E fm message w)) = sent w ++ [(c, ok)].
Proof.
  intros Hstep Hne Hs Hmap Hup Hentry Htrig Hkind Htarget Hnone. cbv zeta.
  rewrite (handle_message_delegates fm message w sid s map_local Hstep Hne Hs Hmap).
  rewrite (on_msg_dispatch fm map_local message (delegated message sid w) entry
             Hup Hentry Htrig).
  cbv zeta. rewrite Hkind, bool_decide_eq_true_2 by reflexivity.
  rewrite Htarget, (start_missing_run fm message target _ Hnone).
  repeat split.
Qed.

(** X7. A [goto] action that carries no target makes the handler raise
    [TypeError] before anything is sent: the user gets no reply and the
    session is unchanged. *)
Theorem goto_without_target_raises (fm : FlowManager) (message : Message)
    (w : World) (sid : pystr) (s : Step)
    (map_local : list (pystr * ActionEntry)) (entry : ActionEntry) :
  step (fsm w) = Some sid -> sid <> [] ->
  steps fm !! sid = Some s -> on_message s = Some map_local ->
  receipt_upload message w = None ->
  dict_get (normalized_text message) map_local = Some entry ->
  startswith (normalized_text message) PAYMENT_TRIGGER = false ->
  action_type (action entry) = Some (py "goto") ->
  action_target (action entry) = None ->
  fst (handle_message E fm message w) = Raised TypeError /\
  fsm (snd (handle_message E fm message w)) = fsm w /\
  sent (snd (handle_message E fm message w)) = sent w.
Proof.
  intros Hstep Hne Hs Hmap Hup Hentry Htrig Hkind Htarget.
  rewrite (handle_message_delegates fm message w sid s map_local Hstep Hne Hs Hmap).
  rewrite (on_msg_dispatch fm map_local message (delegated message sid w) entry
             Hup Hentry Htrig).
  cbv zeta. rewrite Hkind, bool_decide_eq_true_2 by reflexivity.
  rewrite Htarget. unfold start. run. repeat split.
Qed.

(** X8. For a message that is not a receipt upload and a declared label
    that does not begin with the payment trigger: an action that is
    neither [goto] nor [screenshot] never moves the session.  A [raw]
    action answers with its escaped payload (the empty text when it has
    none), any other kind, or none, with the "unknown action" notice; each
    makes exactly one reply. *)
Theorem other_actions_keep_session (fm : FlowManager)
    (map_local : list (pystr * ActionEntry)) (message : Message) (w : World)
    (entry : ActionEntry) :
  receipt_upload message w = None ->
  dict_get (normalized_text message) map_local = Some entry ->
  startswith (normalized_text message) PAYMENT_TRIGGER = false ->
  action_type (action entry) <> Some (py "goto") ->
  action_type (action entry) <> Some (py "screenshot") ->
  let c := if bool_decide (action_type (action entry) = Some (py "raw"))
           then raw_call message (action entry)
           else notice_call E message "unknown_action" in
  let ok := transport_ok E (length (sent w)) c in
  fst (on_msg E fm map_local message w) = ends_with ok c /\
  fsm (snd (on_msg E fm map_local message w)) = fsm w /\
  users_file (snd (on_msg E fm map_local message w)) = users_file w /\
  sent (snd (on_msg E fm map_local message w)) = sent w ++ [(c, ok)].
Proof.
  intros Hup Hentry Htrig Hgoto Hshot. cbv zeta.
  rewrite (on_msg_dispatch fm map_local message w entry Hup Hentry Htrig).
  cbv zeta. rewrite !bool_decide_eq_false_2 by assumption.
  destruct (bool_decide (action_type (action entry) = Some (py "raw")));
    [|rewrite notice_run]; rewrite transport_run; repeat split.
Qed.

(** X9. A [screenshot] action sends, of its two fixed images, those that
    exist, in order, each as a message of its own; a missing file is
    skipped without a word.  With no target the session stays as it is.
    (Photos are taken to be delivered.) *)
Theorem screenshot_skips_missing_files (fm : FlowManager)
    (map_local : list (pystr * ActionEntry)) (message : Message) (w : World)
    (entry : ActionEntry) :
  receipt_upload message w = None ->
  dict_get (normalized_text message) map_local = Some entry ->
  startswith (normalized_text message) PAYMENT_TRIGGER = false ->
  action_type (action entry) = Some (py "screenshot") ->
  nonempty (action_target (action entry)) = false ->
  photos_delivered E message ->
  on_msg E fm map_local message w =
  (Returned tt,
   {| fsm := fsm w; users_file := users_file w;
      sent := sent w ++ map (fun c => (c, true)) (screenshot_calls E message);
      log := log w |}).
Proof.
  intros Hup Hentry Htrig Hkind Htarget Hphotos.
  rewrite (on_msg_dispatch fm map_local message w entry Hup Hentry Htrig).
  cbv zeta. rewrite Hkind.
  rewrite bool_decide_eq_false_2 by (vm_compute; discriminate).
  rewrite bool_decide_eq_true_2 by reflexivity.
  rewrite Htarget. unfold screenshot_calls. cbn [List.filter].
  destruct (path_exists E (py "screenshot1.png")),
           (path_exists E (py "screenshot2.png"));
    repeat first [rewrite bind_run | rewrite transport_run | rewrite Hphotos
                 | progress cbn [ends_with sent fsm users_file log map]
                 | progress unfold mret, M_ret
                 | progress cbv beta iota];
    rewrite <- ?app_assoc, ?app_nil_r; try reflexivity; now destruct w.
Qed.

End Frames.

(* ===================================================================== *)
(** * The known users, the answer map and the step registry *)
(* ===================================================================== *)

Section DataFacts.
Context `{CaseProps} (E : Env).

#[local] Arguments normalize_label : simpl never.
#[local] Arguments py : simpl never.

Lemma sorted_set (users : gset Z) : list_to_set (sorted users) = users.
Proof.
  unfold sorted. rewrite merge_sort_Permutation. apply list_to_set_elements_L.
Qed.

Lemma sorted_elem_of (users : gset Z) (x : Z) : x ∈ sorted users <-> x ∈ users.
Proof.
  unfold sorted. rewrite merge_sort_Permutation. apply elem_of_elements.
Qed.

Lemma add_user_run (uid : Z) (w : World) :
  add_user E uid w = (Returned tt, with_user E uid w).
Proof.
  unfold add_user, with_user. rewrite bind_run. unfold load_users.
  fold (known_users w).
  destruct (bool_decide (uid ∈ known_users w)); [reflexivity|].
  unfold save_users.
  now destruct (write_users E (sorted ({[uid]} ∪ known_users w))).
Qed.

Lemma with_user_recorded (uid : Z) (w : World) :
  can_record E uid w ->
  known_users (with_user E uid w) = {[uid]} ∪ known_users w /\
  fsm (with_user E uid w) = fsm w /\
  sent (with_user E uid w) = sent w /\
  log (with_user E uid w) = log w.
Proof.
  unfold with_user. intros Hrec.
  destruct (bool_decide_reflect (uid ∈ known_users w)) as [Hin|Hout].
  - split; [|now repeat split].
    apply set_eq. intros x. rewrite elem_of_union, elem_of_singleton.
    split; [auto|]. now intros [->|?].
  - destruct Hrec as [? | Hw]; [contradiction|]. rewrite Hw.
    split; [|now repeat split].
    unfold known_users at 1. cbn [set_users_file users_file]. apply sorted_set.
Qed.

(** X10. [add_user] never raises and touches neither the session nor
    the transport.  For a user who is already known nothing at all
    changes.  For a new user, when the write succeeds the known users are
    the earlier ones and this one and nothing is logged; when the file
    cannot be opened the known users stay as they were, and when the dump
    breaks off nobody is known any more; either failure is logged. *)
Theorem add_user_records_user (uid : Z) (w : World) :
  let w' := snd (add_user E uid w) in
  fst (add_user E uid w) = Returned tt /\
  fsm w' = fsm w /\
  sent w' = sent w /\
  (uid ∈ known_users w -> w' = w) /\
  (uid ∉ known_users w ->
   match write_users E (sorted ({[uid]} ∪ known_users w)) with
   | Written => known_users w' = {[uid]} ∪ known_users w /\ log w' = log w
   | OpenFailed =>
       known_users w' = known_users w /\
       log w' = log w ++ [LogException "save_users"]
   | DumpFailed =>
       known_users w' = ∅ /\
       log w' = log w ++ [LogException "save_users"]
   end).
Proof.
  cbv zeta. rewrite add_user_run. cbn [fst snd]. unfold with_user.
  destruct (bool_decide_reflect (uid ∈ known_users w)) as [Hin|Hout].
  - repeat split. intros Hout. contradiction.
  - split; [reflexivity|].
    destruct (write_users E (sorted ({[uid]} ∪ known_users w))) eqn:Ew;
      (split; [reflexivity|]); (split; [reflexivity|]);
      (split; [intros Hin; contradiction|]); intros _; split; try reflexivity.
    unfold known_users at 1. cbn [set_users_file users_file]. apply sorted_set.
Qed.

(** X11. When [add_user] records a new user, that is when the write
    succeeds, the list in the file is in increasing order without
    repetitions and holds exactly the earlier users and the new one. *)
Theorem add_user_writes_sorted_file (uid : Z) (w : World) :
  uid ∉ known_users w ->
  write_users E (sorted ({[uid]} ∪ known_users w)) = Written ->
  exists l,
    users_file (snd (add_user E uid w)) = Some l /\
    StronglySorted Z.le l /\ NoDup l /\
    (forall x, x ∈ l <-> x = uid \/ x ∈ known_users w).
Proof.
  intros Hout Hw. rewrite add_user_run. unfold with_user.
  rewrite bool_decide_eq_false_2 by assumption. rewrite Hw.
  exists (sorted ({[uid]} ∪ known_users w)). split; [reflexivity|].
  split; [apply StronglySorted_merge_sort; apply _|].
  split.
  - unfold sorted. rewrite merge_sort_Permutation. apply NoDup_elements.
  - intros x. now rewrite sorted_elem_of, elem_of_union, elem_of_singleton.
Qed.

(** *** The answer map *)

Lemma action_map_fold_lookup (answers : list Answer) (k : pystr) d :
  dict_get k
    (fold_left (fun d ans => dict_set (normalize_label (Some (label ans))) (entry_of ans) d)
       answers d)
  = match last_answer k answers with
    | Some ans => Some (entry_of ans)
    | None => dict_get k d
    end.
Proof.
  revert d. induction answers as [|ans answers IH]; intros d; [reflexivity|].
  cbn [fold_left last_answer]. rewrite IH.
  destruct (last_answer k answers) as [later|]; [reflexivity|].
  rewrite dict_get_set.
  destruct (bool_decide_reflect (k = normalize_label (Some (label ans)))) as [->|Hne].
  - now rewrite bool_decide_eq_true_2.
  - now rewrite bool_decide_eq_false_2 by congruence.
Qed.

Lemma last_answer_Some (answers : list Answer) (k : pystr) (a : Answer) :
  last_answer k answers = Some a ->
  a ∈ answers /\ normalize_label (Some (label a)) = k.
Proof.
  induction answers as [|b answers IH]; cbn [last_answer]; [discriminate|].
  destruct (last_answer k answers) as [later|].
  - intros [= ->]. destruct (IH eq_refl) as [Hin Hk]. split; [now right|exact Hk].
  - destruct (bool_decide_reflect (normalize_label (Some (label b)) = k));
      [|discriminate].
    intros [= ->]. split; [now left|assumption].
Qed.

Lemma last_answer_is_Some (answers : list Answer) (ans : Answer) :
  ans ∈ answers ->
  is_Some (last_answer (normalize_label (Some (label ans))) answers).
Proof.
  induction answers as [|b answers IH]; [intros Hin; inversion Hin|].
  intros Hin. cbn [last_answer].
  destruct (last_answer _ answers) as [later|] eqn:El; [now exists later|].
  apply elem_of_cons in Hin as [->|Hin].
  - rewrite bool_decide_eq_true_2 by reflexivity. now exists b.
  - destruct (IH Hin) as [x Hx]. discriminate.
Qed.

Lemma last_answer_declared (answers : list Answer) (ans : Answer) :
  ans ∈ answers ->
  exists later, last_answer (normalize_label (Some (label ans))) answers = Some later
    /\ later ∈ answers
    /\ normalize_label (Some (label later)) = normalize_label (Some (label ans)).
Proof.
  intros Hin. destruct (last_answer_is_Some answers ans Hin) as [later El].
  exists later. split; [exact El|]. now apply last_answer_Some.
Qed.

(** X12. Looking a normalised label up in a step's answer map gives the
    last declared answer with that normalised label (a later answer
    overwrites an earlier one), and nothing when no answer has it; so every
    declared label, once normalised, is found. *)
Theorem build_action_map_last_wins (answers : list Answer) :
  (forall k, dict_get k (build_action_map answers)
             = entry_of <$> last_answer k answers)
  /\
  (forall ans, ans ∈ answers ->
     exists later,
       dict_get (normalize_label (Some (label ans))) (build_action_map answers)
         = Some (entry_of later) /\
       later ∈ answers /\
       normalize_label (Some (label later)) = normalize_label (Some (label ans))).
Proof.
  assert (Hl : forall k, dict_get k (build_action_map answers)
                         = entry_of <$> last_answer k answers).
  { intros k. unfold build_action_map. rewrite action_map_fold_lookup.
    now destruct (last_answer k answers). }
  split; [exact Hl|].
  intros ans Hin. destruct (last_answer_declared answers ans Hin) as (later & El & Hin' & Hk).
  exists later. rewrite Hl, El. auto.
Qed.

Lemma dict_set_keys {V} (k : pystr) (v : V) d :
  map fst (dict_set k v d) =
  if bool_decide (k ∈ map fst d) then map fst d else map fst d ++ [k].
Proof.
  induction d as [|[k0 v0] d IH]; [reflexivity|].
  cbn [dict_set map fst].
  destruct (bool_decide_reflect (k = k0)) as [->|Hne].
  - cbn [map fst]. rewrite bool_decide_eq_true_2; [reflexivity|now left].
  - cbn [map fst]. rewrite IH.
    destruct (bool_decide_reflect (k ∈ map fst d)) as [Hin|Hout].
    + rewrite bool_decide_eq_true_2; [reflexivity|now right].
    + rewrite bool_decide_eq_false_2; [reflexivity|].
      intros Hin. apply elem_of_cons in Hin as [?|?]; contradiction.
Qed.

Lemma action_map_fold_keys (answers : list Answer) d :
  NoDup (map fst d) ->
  let d' := fold_left
    (fun d ans => dict_set (normalize_label (Some (label ans))) (entry_of ans) d)
    answers d in
  NoDup (map fst d') /\
  (forall k, k ∈ map fst d' <->
     k ∈ map fst d \/ exists ans, ans ∈ answers /\ normalize_label (Some (label ans)) = k) /\
  (length d' <= length d + length answers)%nat.
Proof.
  revert d. induction answers as [|ans answers IH]; intros d Hd; cbv zeta.
  - cbn. split; [exact Hd|]. split; [|lia].
    intros k. split; [now left|]. intros [?|(a & Ha & _)]; [assumption|inversion Ha].
  - cbn [fold_left].
    set (d1 := dict_set (normalize_label (Some (label ans))) (entry_of ans) d).
    assert (Hk1 : map fst d1 =
              if bool_decide (normalize_label (Some (label ans)) ∈ map fst d)
              then map fst d
              else map fst d ++ [normalize_label (Some (label ans))])
      by apply dict_set_keys.
    assert (Hd1 : NoDup (map fst d1)).
    { rewrite Hk1. destruct (bool_decide_reflect (normalize_label (Some (label ans)) ∈ map fst d));
        [exact Hd|].
      apply NoDup_app. split; [exact Hd|]. split; [|apply NoDup_singleton].
      intros x Hx Hx'. apply list_elem_of_singleton in Hx' as ->. contradiction. }
    assert (Hl1 : (length d1 <= length d + 1)%nat).
    { rewrite <- (length_map fst d1), Hk1.
      destruct (bool_decide _); rewrite ?length_app, !length_map; cbn; lia. }
    destruct (IH d1 Hd1) as (Hnd & Hkeys & Hlen).
    split; [exact Hnd|]. split; [|cbn [length]; lia].
    intros k. rewrite Hkeys, Hk1.
    destruct (bool_decide_reflect (normalize_label (Some (label ans)) ∈ map fst d))
      as [Hin|Hout].
    + split.
      * intros [?|(a & Ha & Hk)]; [now left|]. right. exists a. split; [now right|exact Hk].
      * intros [?|(a & Ha & Hk)]; [now left|].
        apply elem_of_cons in Ha as [->|Ha]; [left; now rewrite <- Hk|].
        right. now exists a.
    + rewrite elem_of_app, list_elem_of_singleton. split.
      * intros [[Hx| ->]|(a & Ha & Hk)]; [now left| |].
        -- right. exists ans. split; [now left|reflexivity].
        -- right. exists a. split; [now right|exact Hk].
      * intros [?|(a & Ha & Hk)]; [now left; left|].
        apply elem_of_cons in Ha as [->|Ha]; [left; right; now rewrite Hk|].
        right. now exists a.
Qed.

(** X13. A step's answer map holds every normalised label once: its keys
    are exactly the normalised labels of the declared answers, without
    repetition, so the labels it lists for the log are at most as many as
    the answers. *)
Theorem build_action_map_keys (answers : list Answer) :
  NoDup (map fst (build_action_map answers)) /\
  (forall k, k ∈ map fst (build_action_map answers) <->
     exists ans, ans ∈ answers /\ normalize_label (Some (label ans)) = k) /\
  (length (map orig (dict_values (build_action_map answers))) <= length answers)%nat.
Proof.
  destruct (action_map_fold_keys answers [] (NoDup_nil_2)) as (Hnd & Hkeys & Hlen).
  split; [exact Hnd|]. split.
  - intros k. unfold build_action_map. rewrite Hkeys. split.
    + intros [Hin|?]; [inversion Hin|assumption].
    + now right.
  - unfold dict_values. rewrite !length_map. exact Hlen.
Qed.

(** *** The labels logged for an unmatched text *)

Lemma action_map_fold_key_order (answers : list Answer) d (seen : list pystr) :
  (forall k, k ∈ seen <-> k ∈ map fst d) ->
  map fst
    (fold_left (fun d ans => dict_set (normalize_label (Some (label ans))) (entry_of ans) d)
       answers d)
  = map fst d ++ first_keys seen answers.
Proof.
  revert d seen. induction answers as [|ans answers IH]; intros d seen Hseen.
  - cbn. now rewrite app_nil_r.
  - cbn [fold_left first_keys].
    set (k := normalize_label (Some (label ans))).
    destruct (bool_decide_reflect (k ∈ seen)) as [Hin|Hout].
    + rewrite (IH _ seen).
      * rewrite dict_set_keys, bool_decide_eq_true_2; [reflexivity|now apply Hseen].
      * intros k'. rewrite dict_set_keys, bool_decide_eq_true_2; [apply Hseen|now apply Hseen].
    + assert (Hk : k ∉ map fst d) by (intros ?; apply Hout; now apply Hseen).
      rewrite (IH _ (k :: seen)).
      * rewrite dict_set_keys, bool_decide_eq_false_2 by exact Hk.
        now rewrite <- app_assoc.
      * intros k'. rewrite dict_set_keys, bool_decide_eq_false_2 by exact Hk.
        rewrite elem_of_cons, elem_of_app, list_elem_of_singleton, Hseen. tauto.
Qed.

Lemma dict_values_by_keys {V} (d : list (pystr * V)) :
  NoDup (map fst d) ->
  dict_values d = omap (fun k => dict_get k d) (map fst d).
Proof.
  unfold dict_values. induction d as [|[k v] d IH]; [reflexivity|].
  cbn [map fst snd]. intros Hnd. apply NoDup_cons in Hnd as [Hk Hnd].
  cbn [omap list_omap dict_get]. rewrite bool_decide_eq_true_2 by reflexivity. cbn [dict_get].
  f_equal. rewrite (IH Hnd). clear IH.
  assert (Hext : forall l : list pystr, k ∉ l ->
            omap (fun k' => dict_get k' d) l =
            omap (fun k' => if bool_decide (k' = k) then Some v else dict_get k' d) l).
  { induction l as [|k' l IHl]; [reflexivity|]. intros Hn.
    apply not_elem_of_cons in Hn as [Hne Hn]. cbn [omap list_omap].
    rewrite bool_decide_eq_false_2 by congruence. now rewrite (IHl Hn). }
  now apply Hext.
Qed.

(** The labels that [on_msg] lists for the log are the labels on offer. *)
Lemma logged_labels_offered (answers : list Answer) :
  map orig (dict_values (build_action_map answers)) = offered_labels answers.
Proof.
  destruct (action_map_fold_keys answers [] (NoDup_nil_2)) as (Hnd & _ & _).
  cbv zeta in Hnd. fold (build_action_map answers) in Hnd.
  rewrite (dict_values_by_keys _ Hnd). unfold offered_labels.
  unfold build_action_map at 2.
  rewrite (action_map_fold_key_order answers [] []) by (intros k; reflexivity).
  cbn [map app]. generalize (first_keys [] answers). intros keys.
  induction keys as [|k keys IH]; [reflexivity|].
  cbn [omap list_omap]. unfold build_action_map at 1. rewrite action_map_fold_lookup.
  destruct (last_answer k answers) as [later|]; cbn [dict_get fmap option_fmap option_map];
    [cbn [map]; f_equal|]; exact IH.
Qed.

Lemma first_keys_elem_of (answers : list Answer) (seen : list pystr) (ans : Answer) :
  ans ∈ answers ->
  normalize_label (Some (label ans)) ∈ seen \/
  normalize_label (Some (label ans)) ∈ first_keys seen answers.
Proof.
  revert seen. induction answers as [|b answers IH]; intros seen Hin; [inversion Hin|].
  cbn [first_keys]. apply elem_of_cons in Hin as [->|Hin].
  - destruct (bool_decide_reflect (normalize_label (Some (label b)) ∈ seen));
      [now left|right; now left].
  - destruct (bool_decide_reflect (normalize_label (Some (label b)) ∈ seen)).
    + now apply IH.
    + destruct (IH (normalize_label (Some (label b)) :: seen) Hin) as [Hs|Hf].
      * apply elem_of_cons in Hs as [->|Hs]; [right; now left|now left].
      * right. now right.
Qed.

(** Every declared answer is on offer, itself or a later answer that
    normalises alike. *)
Lemma offered_labels_cover (answers : list Answer) (ans : Answer) :
  ans ∈ answers ->
  exists later,
    later ∈ answers /\
    normalize_label (Some (label later)) = normalize_label (Some (label ans)) /\
    label later ∈ offered_labels answers.
Proof.
  intros Hin. destruct (last_answer_declared answers ans Hin) as (later & El & Hl & Hk).
  exists later. split; [exact Hl|]. split; [exact Hk|].
  unfold offered_labels. apply list_elem_of_omap.
  exists (normalize_label (Some (label ans))). split.
  - destruct (first_keys_elem_of answers [] ans Hin) as [Hnil|?];
      [inversion Hnil|assumption].
  - now rewrite El.
Qed.

Lemma first_keys_fresh (answers : list Answer) (seen : list pystr) :
  NoDup (map (fun ans => normalize_label (Some (label ans))) answers) ->
  (forall a, a ∈ answers -> normalize_label (Some (label a)) ∉ seen) ->
  first_keys seen answers = map (fun ans => normalize_label (Some (label ans))) answers.
Proof.
  revert seen. induction answers as [|b answers IH]; intros seen Hnd Hfresh;
    [reflexivity|].
  cbn [map] in Hnd. apply NoDup_cons in Hnd as [Hb Hnd].
  cbn [first_keys map].
  rewrite bool_decide_eq_false_2 by (apply Hfresh; now left).
  f_equal. apply IH; [exact Hnd|].
  intros a Ha Hin. apply elem_of_cons in Hin as [Heq|Hin].
  - apply Hb. rewrite <- Heq. apply list_elem_of_fmap. now exists a.
  - apply (Hfresh a); [now right|exact Hin].
Qed.

Lemma last_answer_unique (answers : list Answer) (a : Answer) :
  NoDup (map (fun ans => normalize_label (Some (label ans))) answers) ->
  a ∈ answers ->
  last_answer (normalize_label (Some (label a))) answers = Some a.
Proof.
  induction answers as [|b answers IH]; intros Hnd Hin; [inversion Hin|].
  cbn [map] in Hnd. apply NoDup_cons in Hnd as [Hb Hnd].
  cbn [last_answer]. apply elem_of_cons in Hin as [->|Hin].
  - destruct (last_answer _ answers) as [later|] eqn:El.
    + apply last_answer_Some in El as [Hl Hk]. exfalso. apply Hb.
      rewrite <- Hk. apply list_elem_of_fmap. now exists later.
    + now rewrite bool_decide_eq_true_2.
  - now rewrite (IH Hnd Hin).
Qed.

(** When no two answers normalise alike, the labels on offer are the
    declared labels, in their order. *)
Lemma offered_labels_distinct (answers : list Answer) :
  NoDup (map (fun ans => normalize_label (Some (label ans))) answers) ->
  offered_labels answers = map label answers.
Proof.
  intros Hnd. unfold offered_labels.
  rewrite (first_keys_fresh answers [] Hnd) by (intros a _ Hin; inversion Hin).
  assert (Hsub : forall l : list Answer, (forall a, a ∈ l -> a ∈ answers) ->
            omap (fun k => label <$> last_answer k answers)
              (map (fun ans => normalize_label (Some (label ans))) l)
            = map label l).
  { induction l as [|a l IHl]; [reflexivity|]. intros Hl.
    cbn [map omap list_omap]. rewrite (last_answer_unique answers a Hnd) by (apply Hl; now left).
    cbn. f_equal. apply IHl. intros x Hx. apply Hl. now right. }
  now apply Hsub.
Qed.

(** C6. When the normalised text of a message is no declared label of
    the step (and the message is not a receipt upload), [on_msg] writes the
    attempted text and the original labels on offer to the log, sends the
    "use the buttons" notice, and leaves the session data (flow, current
    step, meta) as they were.  The labels logged are one per normalised
    label, in the order of first occurrence, of answers that normalise
    alike the last one's: they are declared labels, every declared answer
    is among them, itself or a later answer that normalises alike, and
    when no two answers normalise alike they are the declared labels in
    their order. *)
Theorem unmatched_text_keeps_session (fm : FlowManager) (answers : list Answer)
    (message : Message) (w : World) :
  receipt_upload message w = None ->
  Forall (fun ans => normalize_label (Some (label ans)) <> normalized_text message)
    answers ->
  let map_local := build_action_map answers in
  let c := notice_call E message "use_buttons" in
  let ok := transport_ok E (length (sent w)) c in
  let available := offered_labels answers in
  let w' := snd (on_msg E fm map_local message w) in
  fst (on_msg E fm map_local message w) = ends_with ok c /\
  fsm w' = fsm w /\
  sent w' = sent w ++ [(c, ok)] /\
  log w' = log w ++
    [LogUnmatched (from_user_id message) (step (fsm w))
       (take 200 (default [] (msg_text message)))
       (take 200 (normalized_text message)) available] /\
  Forall (fun o => o ∈ map label answers) available /\
  (forall ans, ans ∈ answers ->
     exists later,
       later ∈ answers /\
       normalize_label (Some (label later)) = normalize_label (Some (label ans)) /\
       label later ∈ available) /\
  (NoDup (map (fun ans => normalize_label (Some (label ans))) answers) ->
   available = map label answers).
Proof.
  intros Hup Hmiss. cbv zeta.
  rewrite (on_msg_unmatched_run E fm _ message w Hup
             (build_action_map_miss _ _ Hmiss)).
  cbn [fst snd fsm sent log]. rewrite logged_labels_offered.
  split; [reflexivity|]. split; [reflexivity|]. split; [reflexivity|].
  split; [reflexivity|]. split.
  - rewrite <- logged_labels_offered. apply build_action_map_origs.
  - split; [apply offered_labels_cover|apply offered_labels_distinct].
Qed.

(** *** The step registry *)

Lemma build_flow_fold_lookup (script : list (pystr * StepInfo)) (fm : FlowManager)
    (k : pystr) :
  steps (fold_left (fun fm kv => add_step fm (build_step (fst kv) (snd kv))) script fm) !! k
  = match last_info k script with
    | Some info => Some (build_step k info)
    | None => steps fm !! k
    end.
Proof.
  revert fm. induction script as [|[k' info] script IH]; intros fm; [reflexivity|].
  cbn [fold_left last_info fst snd]. rewrite IH.
  destruct (last_info k script) as [later|]; [reflexivity|].
  unfold add_step. cbn [steps].
  assert (Hid : id (build_step k' info) = k').
  { unfold build_step. now destruct (default [] (info_answers info)). }
  rewrite Hid.
  destruct (bool_decide_reflect (k' = k)) as [->|Hne].
  - now rewrite lookup_insert_eq.
  - now rewrite lookup_insert_ne.
Qed.

(** X14. In the flow built from a script, an id resolves to the step
    built from the last script entry with that id (a repeated id
    overwrites), and to nothing when the script has no such entry; a
    registered step carries the id it is registered under. *)
Theorem build_flow_last_registered_wins (script : list (pystr * StepInfo)) (k : pystr) :
  steps (build_flow_from_struct script) !! k = build_step k <$> last_info k script /\
  (forall s, steps (build_flow_from_struct script) !! k = Some s -> id s = k).
Proof.
  assert (Hl : steps (build_flow_from_struct script) !! k
               = build_step k <$> last_info k script).
  { unfold build_flow_from_struct. rewrite build_flow_fold_lookup.
    destruct (last_info k script); [reflexivity|apply lookup_empty]. }
  split; [exact Hl|].
  intros s. rewrite Hl. destruct (last_info k script) as [info|]; [|discriminate].
  intros [= <-]. unfold build_step. now destruct (default [] (info_answers info)).
Qed.

End DataFacts.

(* ===================================================================== *)
(** * Prefixes and stripping *)
(* ===================================================================== *)

Section StringFacts.

Lemma startswith_app (s p : pystr) :
  startswith s p = true -> exists rest, s = p ++ rest.
Proof.
  revert s. induction p as [|a p IH]; intros s; [now exists s|].
  destruct s as [|b s]; cbn [startswith]; [discriminate|].
  rewrite andb_true_iff. intros [Hab Hp]. apply N.eqb_eq in Hab as ->.
  destruct (IH s Hp) as [rest ->]. now exists rest.
Qed.

Lemma drop_while_keeps {A} (p : A -> bool) (l : list A) (x : A) :
  x ∈ l -> p x = false -> x ∈ drop_while p l.
Proof.
  induction l as [|y l IH]; [intros Hx; inversion Hx|].
  intros Hx Hp. cbn [drop_while]. destruct (p y) eqn:Ey; [|exact Hx].
  apply elem_of_cons in Hx as [->|Hx]; [congruence|now apply IH].
Qed.

(** A text with a character that is not whitespace does not strip to the
    empty text. *)
Lemma str_strip_nonempty (s : pystr) (x : N) :
  x ∈ s -> Py_UNICODE_ISSPACE x = false -> str_strip s <> [].
Proof.
  intros Hx Hsp. unfold str_strip, str_lstrip, str_rstrip.
  apply (drop_while_keeps Py_UNICODE_ISSPACE) in Hx; [|exact Hsp].
  apply list_elem_of_In, in_rev, list_elem_of_In in Hx.
  apply (drop_while_keeps Py_UNICODE_ISSPACE) in Hx; [|exact Hsp].
  intros Hnil. apply (f_equal (@rev N)) in Hnil. rewrite rev_involutive in Hnil.
  cbn in Hnil. rewrite Hnil in Hx. inversion Hx.
Qed.

(** What follows the command word in a stripped text is a payload that
    is not empty. *)
Lemma inline_payload (raw : pystr) :
  startswith (str_strip raw) (py "/broadcast ") = true ->
  exists rest,
    str_strip raw = py "/broadcast " ++ rest /\
    after_first_space (str_strip raw) = Some rest /\
    str_strip rest <> [].
Proof.
  intros Hcmd. destruct (startswith_app _ _ Hcmd) as [rest Hrest].
  exists rest. split; [exact Hrest|]. split; [now rewrite Hrest|].
  destruct (str_rstrip_split (str_lstrip raw)) as (a & _ & Hlast).
  fold (str_strip raw) in Hlast. rewrite Hrest in Hlast.
  destruct rest as [|c rest] using rev_ind.
  - exfalso. revert Hlast. vm_compute. discriminate.
  - rewrite app_assoc, last_last in Hlast.
    apply (str_strip_nonempty _ c); [|exact Hlast].
    apply elem_of_app. right. now left.
Qed.

End StringFacts.

(* ===================================================================== *)
(** * The entry points: [all_messages], [cmd_broadcast], [cmd_start] *)
(* ===================================================================== *)

Section TopLevel.
Context `{CaseProps} (E : Env).

#[local] Arguments py : simpl never.
#[local] Arguments escape_str : simpl never.
#[local] Arguments escape_md_v2 : simpl never.
#[local] Arguments normalize_label : simpl never.
#[local] Arguments str_lower : simpl never.
#[local] Arguments str_of_int : simpl never.
#[local] Arguments startswith : simpl never.
#[local] Arguments str_strip : simpl never.
#[local] Arguments transport : simpl never.
#[local] Arguments answer : simpl never.
#[local] Arguments notice : simpl never.
#[local] Arguments start : simpl never.
#[local] Arguments _enter_step : simpl never.
#[local] Arguments on_msg : simpl never.
#[local] Arguments broadcast : simpl never.
#[local] Arguments add_user : simpl never.
#[local] Arguments handle_message : simpl never.

#[local] Existing Instance same_users_refl.
#[local] Existing Instance same_users_trans.
#[local] Existing Instance same_session_refl.
#[local] Existing Instance same_session_trans.

(** *** Nothing below touches the known-user file *)

Lemma stable_users {A} (m : M A) : stable same_session m -> stable same_users m.
Proof. apply stable_weaken, same_session_users. Qed.

Lemma stable_start_users fm message target :
  stable same_users (start E fm message target).
Proof.
  unfold start, get_step.
  apply stable_bind; [apply _| |intros s].
  - apply stable_bind; [apply _|apply stable_users, stable_logger|intros _].
    apply stable_ret, _.
  - destruct s as [s|].
    + apply stable_bind; [apply _|apply stable_update_data|intros _].
      apply stable_bind; [apply _|apply stable_users, stable_logger|intros _].
      apply stable_users, stable_enter_step.
    + destruct target; [apply stable_users, stable_answer|apply stable_raise, _].
Qed.

Lemma stable_on_msg_users fm map_local message :
  stable same_users (on_msg E fm map_local message).
Proof.
  unfold on_msg.
  apply stable_bind; [apply _|apply stable_get_data, _|intros ctx].
  destruct (if msg_photo message || msg_document message then _ else _) as [p|].
  - apply stable_bind; [apply _| |intros _; apply stable_update_data].
    destruct (truthy_id (ADMIN_ID E)).
    + apply stable_try; [apply _| |apply stable_users, stable_notice].
      repeat (apply stable_bind; [apply _|apply stable_users, stable_transport|intros _]).
      apply stable_users, stable_notice.
    + apply stable_users, stable_notice.
  - destruct (dict_get _ map_local) as [entry|].
    + destruct (startswith _ _).
      * apply stable_bind; [apply _|apply stable_update_data|intros _].
        apply stable_users, stable_answer.
      * repeat match goal with
               | |- stable _ (if ?b then _ else _) => destruct b
               | |- stable _ (_ ≫= _) => apply stable_bind; [apply _| |intros ?]
               | |- stable _ (start _ _ _ _) => apply stable_start_users
               | |- stable _ (mret _) => apply stable_ret, _
               | |- stable _ (transport _ _) => apply stable_users, stable_transport
               | |- stable _ (answer _ _ _ _ _) => apply stable_users, stable_answer
               | |- stable _ (notice _ _ _) => apply stable_users, stable_notice
               end.
    + apply stable_bind; [apply _|apply stable_get_data, _|intros ctx2].
      apply stable_bind; [apply _|apply stable_users, stable_logger|intros _].
      apply stable_users, stable_notice.
Qed.

Lemma stable_handle_message_users fm message :
  stable same_users (handle_message E fm message).
Proof.
  unfold handle_message, get_step.
  apply stable_bind; [apply _|apply stable_get_data, _|intros ctx].
  destruct (step ctx) as [[|c sid]|]; try (apply stable_ret, _).
  apply stable_bind; [apply _| |intros s].
  - apply stable_bind; [apply _|apply stable_users, stable_logger|intros _].
    apply stable_ret, _.
  - destruct (s ≫= on_message).
    + apply stable_bind; [apply _|apply stable_users, stable_logger|intros _].
      apply stable_on_msg_users.
    + apply stable_bind; [apply _|apply stable_users, stable_logger|intros _].
      apply stable_users, stable_answer.
Qed.

Lemma stable_broadcast_loop payload uids n :
  stable same_session (broadcast_loop E payload uids n).
Proof.
  revert n. induction uids as [|uid uids IH]; intros n; cbn [broadcast_loop].
  - apply stable_ret, _.
  - apply stable_bind; [apply _| |intros ?; apply IH].
    apply stable_try; [apply _| |].
    + apply stable_bind; [apply _|apply stable_transport|intros _]. apply stable_ret, _.
    + apply stable_bind; [apply _|apply stable_logger|intros _]. apply stable_ret, _.
Qed.

Lemma stable_broadcast message payload :
  stable same_session (broadcast E message payload).
Proof.
  unfold broadcast.
  apply stable_bind; [apply _|apply stable_load_users, _|intros users].
  apply stable_bind; [apply _|apply stable_broadcast_loop|intros n].
  apply stable_answer.
Qed.

(** *** Computations that cannot raise *)

Lemma never_raises_ret {A} (a : A) : never_raises (mret a).
Proof. intros w. now exists a. Qed.

Lemma never_raises_bind {A B} (m : M A) (f : A -> M B) :
  never_raises m -> (forall a, never_raises (f a)) -> never_raises (m ≫= f).
Proof.
  intros Hm Hf w. rewrite bind_run. destruct (Hm w) as [a Ha].
  destruct (m w) as [[a'|e] w1]; cbn in Ha; [|discriminate]. apply Hf.
Qed.

Lemma never_raises_try {A} (body handler : M A) :
  never_raises handler -> never_raises (try_except body handler).
Proof.
  intros Hh w. unfold try_except.
  destruct (body w) as [[a|e] w1]; [now exists a|apply Hh].
Qed.

Lemma never_raises_logger e : never_raises (logger e).
Proof. intros w. now exists tt. Qed.

Lemma never_raises_add_user uid : never_raises (add_user E uid).
Proof. intros w. exists tt. now rewrite add_user_run. Qed.

(** X15. [all_messages] never raises: whatever the message, the session
    and the flow, and whatever the transport refuses, every failure inside
    it is caught and the handler returns. *)
Theorem all_messages_never_raises (script_flow : FlowManager) (message : Message)
    (w : World) :
  fst (all_messages E script_flow message w) = Returned tt.
Proof.
  assert (Hn : never_raises (all_messages E script_flow message)).
  { unfold all_messages.
    apply never_raises_bind; [intros w0; now exists (fsm w0)|intros ctx].
    apply never_raises_bind; [apply never_raises_logger|intros _].
    destruct (startswith _ _); [apply never_raises_ret|].
    apply never_raises_bind; [apply never_raises_add_user|intros _].
    apply never_raises_bind.
    { apply never_raises_try, never_raises_bind;
        [apply never_raises_logger|intros _; apply never_raises_ret]. }
    intros [|]; [apply never_raises_ret|].
    apply never_raises_bind.
    { apply never_raises_try, never_raises_bind;
        [apply never_raises_logger|intros _; apply never_raises_ret]. }
    intros [|]; [apply never_raises_ret|].
    apply never_raises_try, never_raises_logger. }
  destruct (Hn w) as [[] Ha]. exact Ha.
Qed.

Lemma all_messages_users (script_flow : FlowManager) (message : Message) (w : World) :
  startswith (default [] (msg_text message)) (py "/") = false ->
  can_record E (from_user_id message) w ->
  known_users (snd (all_messages E script_flow message w))
  = {[from_user_id message]} ∪ known_users w.
Proof.
  intros Hcmd Hrec. unfold all_messages. rewrite bind_run. unfold get_data.
  rewrite bind_run. unfold logger at 1. rewrite Hcmd.
  rewrite bind_run, add_user_run.
  match goal with |- known_users (snd (?rest ?w2)) = _ =>
    assert (Hrest : stable same_users rest); [|
      assert (Hw2 : known_users w2 = {[from_user_id message]} ∪ known_users w)] end.
  - apply stable_bind; [apply _| |intros done1].
    { apply stable_try; [apply _| |].
      - destruct (startswith (str_strip _) _); [|apply stable_ret, _].
        apply stable_bind; [apply _| |intros _; apply stable_ret, _].
        destruct (is_admin E message); [|apply stable_users, stable_answer].
        destruct (after_first_space _); [|apply stable_raise, _].
        destruct (str_strip _); [apply stable_users, stable_answer|].
        apply stable_bind; [apply _|apply stable_users, stable_logger|intros _].
        apply stable_users, stable_broadcast.
      - apply stable_bind; [apply _|apply stable_users, stable_logger|intros _].
        apply stable_ret, _. }
    destruct done1; [apply stable_ret, _|].
    apply stable_bind; [apply _| |intros done2].
    { apply stable_try; [apply _| |].
      - apply stable_bind; [apply _|apply stable_get_data, _|intros ctx].
        destruct (_ && _); [|apply stable_ret, _].
        apply stable_bind; [apply _| |intros _; apply stable_ret, _].
        destruct (str_strip _); [apply stable_users, stable_answer|].
        apply stable_bind; [apply _|apply stable_users, stable_logger|intros _].
        apply stable_bind; [apply _|apply stable_users, stable_broadcast|intros _].
        apply stable_update_data.
      - apply stable_bind; [apply _|apply stable_users, stable_logger|intros _].
        apply stable_ret, _. }
    destruct done2; [apply stable_ret, _|].
    apply stable_try; [apply _| |apply stable_users, stable_logger].
    apply stable_bind; [apply _|apply stable_get_data, _|intros ctx].
    destruct (bool_decide _); [apply stable_handle_message_users|apply stable_ret, _].
  - match goal with |- known_users (with_user E ?u ?w1) = _ =>
      exact (proj1 (with_user_recorded E u w1 Hrec)) end.
  - cbn [fst snd]. unfold known_users at 1. rewrite (Hrest _). exact Hw2.
Qed.

(** X16. [all_messages] records the sender of every message that is not
    a command, provided the sender is known already or the known-user file
    can be written: afterwards the known users are the earlier ones and
    the sender, whichever branch handled the message.  A text that begins
    with a slash is only logged, as an incoming message and as an ignored
    command: nobody is recorded and nothing is sent. *)
Theorem all_messages_records_sender (script_flow : FlowManager) (message : Message)
    (w : World) :
  (startswith (default [] (msg_text message)) (py "/") = false ->
   can_record E (from_user_id message) w ->
   known_users (snd (all_messages E script_flow message w))
   = {[from_user_id message]} ∪ known_users w)
  /\
  (startswith (default [] (msg_text message)) (py "/") = true ->
   all_messages E script_flow message w =
   (Returned tt,
    {| fsm := fsm w; users_file := users_file w; sent := sent w;
       log := log w ++ [LogIncoming (from_user_id message) (msg_chat_id message)
                          (msg_text message) (fsm w);
                        LogIgnoringCommand (default [] (msg_text message))] |})).
Proof.
  split; [apply all_messages_users|].
  intros Hcmd. unfold all_messages. rewrite bind_run. unfold get_data.
  rewrite bind_run. unfold logger at 1. rewrite Hcmd.
  unfold logger. cbn [log fsm users_file sent]. now rewrite <- app_assoc.
Qed.


(** *** A message on its way through [all_messages] *)

Lemma received_run (message : Message) (w : World) :
  add_user E (from_user_id message)
    {| fsm := fsm w; users_file := users_file w; sent := sent w;
       log := log w ++ [LogIncoming (from_user_id message) (msg_chat_id message)
                          (msg_text message) (fsm w)] |}
  = (Returned tt, received E message w).
Proof. rewrite add_user_run. reflexivity. Qed.

Lemma received_fsm (message : Message) (w : World) :
  fsm (received E message w) = fsm w /\ sent (received E message w) = sent w.
Proof.
  unfold received, with_user. destruct (bool_decide _); [now split|].
  now destruct (write_users E _).
Qed.

Lemma received_known_users (message : Message) (w : World) :
  can_record E (from_user_id message) w ->
  known_users (received E message w) = {[from_user_id message]} ∪ known_users w.
Proof.
  intros Hrec. unfold received.
  match goal with |- known_users (with_user E ?u ?w1) = _ =>
    exact (proj1 (with_user_recorded E u w1 Hrec)) end.
Qed.

(** A message of a user in the script flow that is neither a broadcast
    command nor a broadcast payload goes to [handle_message]. *)
Lemma all_messages_delegates (script_flow : FlowManager) (message : Message) (w : World) :
  startswith (default [] (msg_text message)) (py "/") = false ->
  startswith (str_strip (default [] (msg_text message))) (py "/broadcast ") = false ->
  default false (awaiting_broadcast (fsm w)) && is_admin E message = false ->
  flow (fsm w) = Some (name script_flow) ->
  all_messages E script_flow message w =
  try_except (handle_message E script_flow message)
    (logger (LogException "handle_message")) (received E message w).
Proof.
  intros Hcmd Himm Haw Hflow. unfold all_messages. rewrite bind_run. unfold get_data.
  rewrite bind_run. unfold logger at 1. rewrite Hcmd.
  rewrite bind_run, received_run, Himm.
  destruct (received_fsm message w) as [Hf _].
  rewrite bind_run. unfold try_except at 1. unfold mret at 1, M_ret at 1.
  rewrite bind_run. unfold try_except at 1. rewrite bind_run.
  rewrite Hf, Haw. unfold mret at 1, M_ret at 1.
  unfold try_except. rewrite bind_run. rewrite Hf, Hflow.
  now rewrite bool_decide_eq_true_2.
Qed.

Lemma try_logger_fsm (m : M unit) (e : LogEvent) (w : World) :
  fsm (snd (try_except m (logger e) w)) = fsm (snd (m w)) /\
  sent (snd (try_except m (logger e) w)) = sent (snd (m w)) /\
  users_file (snd (try_except m (logger e) w)) = users_file (snd (m w)).
Proof. unfold try_except. now destruct (m w) as [[a|x] w1]. Qed.

(** X17. Through the router: a message of a user in the script flow
    that is not a receipt upload and whose normalised text is a declared
    label, not beginning with the payment trigger, with a [goto] to a
    registered step leaves the session at that step with empty meta,
    whatever the transport does; and the sender is among the known users
    when the sender was known or the known-user file can be written. *)
Theorem all_messages_follows_goto (fm : FlowManager) (message : Message) (w : World)
    (sid target : pystr) (s s' : Step) (map_local : list (pystr * ActionEntry))
    (entry : ActionEntry) :
  startswith (default [] (msg_text message)) (py "/") = false ->
  startswith (str_strip (default [] (msg_text message))) (py "/broadcast ") = false ->
  default false (awaiting_broadcast (fsm w)) && is_admin E message = false ->
  flow (fsm w) = Some (name fm) ->
  step (fsm w) = Some sid -> sid <> [] ->
  steps fm !! sid = Some s -> on_message s = Some map_local ->
  receipt_upload message w = None ->
  dict_get (normalized_text message) map_local = Some entry ->
  startswith (normalized_text message) PAYMENT_TRIGGER = false ->
  action_type (action entry) = Some (py "goto") ->
  action_target (action entry) = Some target ->
  steps fm !! target = Some s' ->
  fsm (snd (all_messages E fm message w)) = started_at fm target (fsm w) /\
  (can_record E (from_user_id message) w ->
   known_users (snd (all_messages E fm message w))
     = {[from_user_id message]} ∪ known_users w).
Proof.
  intros Hcmd Himm Haw Hflow Hstep Hne Hs Hmap Hup Hentry Htrig Hkind Htarget Hs'.
  split; [|now apply all_messages_users].
  rewrite (all_messages_delegates fm message w Hcmd Himm Haw Hflow).
  destruct (try_logger_fsm (handle_message E fm message)
              (LogException "handle_message") (received E message w)) as [-> _].
  destruct (received_fsm message w) as [Hf _].
  destruct (handle_message_goto_session E fm message (received E message w)
              sid target s s' map_local entry) as [-> _]; try assumption.
  - now rewrite Hf.
  - unfold receipt_upload, pending_of in *. now rewrite Hf.
  - now rewrite Hf.
Qed.


(** *** The broadcast command *)

Lemma broadcast_run (message : Message) (payload : pystr) (w : World) :
  let users := known_users w in
  let outcomes := send_outcomes E payload (length (sent w)) (sorted users) in
  let report :=
    report_call message (Z.of_nat (size users) - Z.of_nat (failures outcomes)) in
  broadcast E message payload w =
  (ends_with (transport_ok E (length (sent w) + size users) report) report,
   {| fsm := fsm w; users_file := users_file w;
      sent := sent w ++ broadcast_trace E message payload users (length (sent w));
      log := log w ++ map LogBroadcastFailed (refused_users (sorted users) outcomes) |}).
Proof.
  cbv zeta. unfold broadcast, broadcast_trace. rewrite bind_run.
  unfold load_users. fold (known_users w).
  rewrite bind_run, broadcast_loop_run. rewrite sorted_length, Z.add_0_l.
  unfold answer. rewrite transport_run. cbn [sent fsm users_file log].
  rewrite length_app, length_combine, length_map, send_outcomes_length, sorted_length.
  rewrite Nat.min_id. unfold report_call. now rewrite <- app_assoc.
Qed.

(** X18. A user who is not the admin cannot broadcast: [cmd_broadcast]
    answers with the refusal and does nothing else, whatever the text. *)
Theorem cmd_broadcast_refuses_others (message : Message) (w : World) :
  is_admin E message = false ->
  let c := plain_call message (py "Только администратор может использовать эту команду.") in
  let ok := transport_ok E (length (sent w)) c in
  cmd_broadcast E message w =
  (ends_with ok c,
   {| fsm := fsm w; users_file := users_file w;
      sent := sent w ++ [(c, ok)]; log := log w |}).
Proof.
  intros Hadmin. cbv zeta. unfold cmd_broadcast. rewrite Hadmin. cbn [negb].
  unfold answer. now rewrite transport_run.
Qed.

(** X19. For the admin, a command text with something after the command
    word always broadcasts: what follows the first space, stripped, is
    never empty, so neither the "empty message" reply nor an index error
    can occur.  Every known user gets one send, then the admin the
    report. *)
Theorem cmd_broadcast_inline_payload (message : Message) (w : World) :
  is_admin E message = true ->
  startswith (str_strip (default [] (msg_text message))) (py "/broadcast ") = true ->
  exists rest,
    str_strip (default [] (msg_text message)) = py "/broadcast " ++ rest /\
    str_strip rest <> [] /\
    cmd_broadcast E message w = broadcast E message (str_strip rest) w /\
    fsm (snd (cmd_broadcast E message w)) = fsm w /\
    sent (snd (cmd_broadcast E message w)) =
      sent w ++ broadcast_trace E message (str_strip rest) (known_users w)
                  (length (sent w)).
Proof.
  intros Hadmin Hcmd. destruct (inline_payload _ Hcmd) as (rest & Htext & Hafter & Hne).
  exists rest. split; [exact Htext|]. split; [exact Hne|].
  assert (Hrun : cmd_broadcast E message w = broadcast E message (str_strip rest) w).
  { unfold cmd_broadcast. rewrite Hadmin. cbn [negb]. rewrite Hcmd, Hafter.
    now destruct (str_strip rest). }
  split; [exact Hrun|]. rewrite Hrun, broadcast_run. split; reflexivity.
Qed.

(** The armed admin's plain message is broadcast and the flag cleared. *)
Lemma all_messages_awaiting_run (script_flow : FlowManager) (message : Message)
    (w : World) :
  startswith (default [] (msg_text message)) (py "/") = false ->
  startswith (str_strip (default [] (msg_text message))) (py "/broadcast ") = false ->
  awaiting_broadcast (fsm w) = Some true ->
  is_admin E message = true ->
  str_strip (default [] (msg_text message)) <> [] ->
  replies_delivered E message ->
  can_record E (from_user_id message) w ->
  exists lg,
    all_messages E script_flow message w =
    (Returned tt,
     {| fsm := set_awaiting_broadcast false (fsm w);
        users_file := users_file (received E message w);
        sent := sent w ++ broadcast_trace E message
                            (str_strip (default [] (msg_text message)))
                            ({[from_user_id message]} ∪ known_users w)
                            (length (sent w));
        log := lg |}).
Proof.
  intros Hcmd Himm Haw Hadmin Hne Hreplies Hrec.
  unfold all_messages. rewrite bind_run. unfold get_data.
  rewrite bind_run. unfold logger at 1. rewrite Hcmd.
  rewrite bind_run, received_run, Himm.
  destruct (received_fsm message w) as [Hf Hs].
  pose proof (received_known_users message w Hrec) as Hu.
  rewrite bind_run. unfold try_except at 1. unfold mret at 1, M_ret at 1.
  rewrite bind_run. unfold try_except at 1. rewrite bind_run.
  rewrite Hf, Haw.
  change (default false (Some true) && is_admin E message) with (is_admin E message).
  rewrite Hadmin.
  destruct (str_strip (default [] (msg_text message))) as [|c0 t0] eqn:Et;
    [contradiction|].
  assert (Hrep : forall n z, transport_ok E n (report_call message z) = true)
    by (intros n z; apply Hreplies).
  repeat first
    [ rewrite bind_run | rewrite broadcast_run | rewrite Hrep
    | progress unfold logger, update_data, set_fsm, mret, M_ret
    | progress cbn [sent fsm users_file log ends_with]
    | progress cbv beta iota ].
  assert (Hu' : forall f s l,
             known_users {| fsm := f; users_file := users_file (received E message w);
                            sent := s; log := l |}
             = {[from_user_id message]} ∪ known_users w)
    by (intros; exact Hu).
  rewrite !Hu', Hs, Hf. eexists. reflexivity.
Qed.

(** X20. The two-message broadcast, with replies to the admin delivered
    and the admin known or the known-user file writable.  The bare command
    from the admin arms the session and sends the instructions; the
    admin's next plain message is then broadcast, stripped, to every known
    user (the admin included), the flag is cleared, and the message is not
    given to the script flow. *)
Theorem broadcast_in_two_messages (script_flow : FlowManager)
    (command payload : Message) (w : World) :
  is_admin E command = true ->
  startswith (str_strip (default [] (msg_text command))) (py "/broadcast ") = false ->
  replies_delivered E command ->
  is_admin E payload = true ->
  msg_chat_id payload = msg_chat_id command ->
  startswith (default [] (msg_text payload)) (py "/") = false ->
  startswith (str_strip (default [] (msg_text payload))) (py "/broadcast ") = false ->
  str_strip (default [] (msg_text payload)) <> [] ->
  can_record E (from_user_id payload) w ->
  let w1 := snd (cmd_broadcast E command w) in
  let w2 := snd (all_messages E script_flow payload w1) in
  let users := {[from_user_id payload]} ∪ known_users w in
  fsm w1 = set_awaiting_broadcast true (fsm w) /\
  sent w1 = sent w ++ [(plain_call command broadcast_instr, true)] /\
  fsm w2 = set_awaiting_broadcast false (fsm w) /\
  sent w2 = sent w1 ++ broadcast_trace E payload
                         (str_strip (default [] (msg_text payload))) users
                         (length (sent w1)).
Proof.
  intros Hadmin Hbare Hreplies Hadmin2 Hchat Hcmd Himm Hne Hrec. cbv zeta.
  assert (Hrun1 : cmd_broadcast E command w =
    (Returned tt,
     {| fsm := set_awaiting_broadcast true (fsm w); users_file := users_file w;
        sent := sent w ++ [(plain_call command broadcast_instr, true)];
        log := log w |})).
  { unfold cmd_broadcast. rewrite Hadmin. cbn [negb]. rewrite Hbare.
    rewrite bind_run. unfold update_data. unfold answer.
    rewrite transport_run. cbn [sent fsm users_file log set_fsm].
    unfold plain_call. now rewrite Hreplies. }
  rewrite Hrun1. cbn [snd fsm sent].
  split; [reflexivity|]. split; [reflexivity|].
  set (w1 := {| fsm := set_awaiting_broadcast true (fsm w);
                users_file := users_file w;
                sent := sent w ++ [(plain_call command broadcast_instr, true)];
                log := log w |}).
  assert (Hreplies2 : replies_delivered E payload).
  { intros n t m md. rewrite Hchat. apply Hreplies. }
  destruct (all_messages_awaiting_run script_flow payload w1 Hcmd Himm eq_refl
              Hadmin2 Hne Hreplies2 Hrec) as [lg ->].
  cbn [snd fsm sent]. split; reflexivity.
Qed.

(** X21. [/start] starts the script at step "1": when that step is
    registered the session stands at it with empty meta, even if its
    messages are refused; when it is not, the user gets the "step not
    found" notice and the session is as before.  In both cases the user is
    recorded among the known users, when the user was known or the
    known-user file can be written. *)
Theorem cmd_start_enters_first_step (fm : FlowManager) (message : Message) (w : World) :
  (can_record E (from_user_id message) w ->
   known_users (snd (cmd_start E fm message w))
     = {[from_user_id message]} ∪ known_users w) /\
  (forall s, steps fm !! py "1" = Some s ->
     fsm (snd (cmd_start E fm message w)) = started_at fm (py "1") (fsm w)) /\
  (steps fm !! py "1" = None ->
     fsm (snd (cmd_start E fm message w)) = fsm w /\
     sent (snd (cmd_start E fm message w)) =
       sent w ++ [(step_not_found_call message (py "1"),
                   transport_ok E (length (sent w))
                     (step_not_found_call message (py "1")))]).
Proof.
  unfold cmd_start. rewrite bind_run, add_user_run.
  set (w1 := with_user E (from_user_id message) w).
  assert (Hf : fsm w1 = fsm w /\ sent w1 = sent w).
  { subst w1. unfold with_user. destruct (bool_decide _); [now split|].
    now destruct (write_users E _). }
  destruct Hf as [Hf Hs].
  split; [|split].
  - intros Hrec. unfold known_users at 1.
    rewrite (stable_start_users fm message (Some (py "1")) w1).
    exact (proj1 (with_user_recorded E (from_user_id message) w Hrec)).
  - intros s Hs1. rewrite (start_registered_run E fm message (py "1") s w1 Hs1).
    destruct (stable_enter_step E message s
                {| fsm := started_at fm (py "1") (fsm w1); users_file := users_file w1;
                   sent := sent w1;
                   log := log w1 ++ [LogGetStep (Some (py "1"));
                                     LogStart (from_user_id message) (py "1")] |})
      as [-> _].
    cbn [fsm]. unfold started_at. now rewrite Hf.
  - intros Hnone. rewrite (start_missing_run E fm message (py "1") w1 Hnone).
    cbn [snd fsm sent]. now rewrite Hf, Hs.
Qed.

End TopLevel.

(* ===================================================================== *)
(** * More on [escape_md_v2] *)
(* ===================================================================== *)

Section EscapeReadingFacts.
Local Open Scope N_scope.

Lemma render_cons (t : (bool * N)%type) toks :
  render (t :: toks) = (if fst t then [BACKSLASH; snd t] else [snd t]) ++ render toks.
Proof. reflexivity. Qed.

Lemma well_formed_cons m (t : (bool * N)%type) toks :
  well_formed m (t :: toks) = true ->
  (if fst t then snd t <> m else snd t <> BACKSLASH) /\ well_formed m toks = true.
Proof.
  unfold well_formed. cbn [forallb]. rewrite andb_true_iff. intros [Ht Hr].
  split; [|exact Hr].
  destruct (fst t); apply negb_true_iff, N.eqb_neq in Ht; exact Ht.
Qed.

Lemma plain_ok_cons (t : (bool * N)%type) toks :
  plain_ok (t :: toks) = true ->
  (fst t = false -> snd t <> BACKSLASH) /\ plain_ok toks = true.
Proof.
  unfold plain_ok. cbn [forallb]. rewrite andb_true_iff. intros [Ht Hr].
  split; [|exact Hr]. intros He. rewrite He in Ht. cbn [orb] in Ht.
  now apply negb_true_iff, N.eqb_neq in Ht.
Qed.

Lemma well_formed_plain_ok m toks : well_formed m toks = true -> plain_ok toks = true.
Proof.
  unfold well_formed, plain_ok. rewrite !forallb_forall. intros Hw t Ht.
  specialize (Hw t Ht). now destruct (fst t).
Qed.

Lemma unescape_render toks :
  plain_ok toks = true -> unescape (render toks) = map snd toks.
Proof.
  induction toks as [|[e c] toks IH]; [reflexivity|].
  intros Hw. apply plain_ok_cons in Hw as [Hc Hw]. cbn [fst snd] in Hc.
  rewrite render_cons. cbn [fst snd map]. destruct e; cbn [app unescape].
  - rewrite N.eqb_refl. f_equal. now apply IH.
  - specialize (Hc eq_refl). apply N.eqb_neq in Hc. rewrite Hc. f_equal. now apply IH.
Qed.

Lemma live_render m toks :
  plain_ok toks = true -> live m (render toks) = plain_count m toks.
Proof.
  unfold plain_count.
  induction toks as [|[e c] toks IH]; [reflexivity|].
  intros Hw. apply plain_ok_cons in Hw as [Hc Hw]. cbn [fst snd] in Hc.
  rewrite render_cons. cbn [fst snd List.filter]. destruct e; cbn [app live negb andb].
  - rewrite N.eqb_refl. now apply IH.
  - specialize (Hc eq_refl). apply N.eqb_neq in Hc. rewrite Hc, (IH Hw).
    now destruct (c =? m).
Qed.

Lemma no_unescaped_render bad toks :
  plain_ok toks = true ->
  forallb (fun t : (bool * N)%type => fst t || negb (bad (snd t))) toks = true ->
  no_unescaped bad (render toks) = true.
Proof.
  induction toks as [|[e c] toks IH]; [reflexivity|].
  intros Hw Hb. apply plain_ok_cons in Hw as [Hc Hw]. cbn [fst snd] in Hc.
  cbn [forallb fst snd] in Hb. apply andb_true_iff in Hb as [Hbc Hb].
  rewrite render_cons. cbn [fst snd]. destruct e; cbn [app no_unescaped].
  - rewrite N.eqb_refl. now apply IH.
  - specialize (Hc eq_refl). apply N.eqb_neq in Hc. rewrite Hc.
    cbn [orb] in Hbc. rewrite Hbc. now apply IH.
Qed.

Lemma pair_tokens_plain_ok k n m toks :
  m <> BACKSLASH -> plain_ok toks = true ->
  plain_ok (pair_tokens_from k n m toks) = true.
Proof.
  intros Hm. revert k. induction toks as [|[e c] toks IH]; intros k; [reflexivity|].
  intros Hw. apply plain_ok_cons in Hw as [Hc Hw]. cbn [fst snd] in Hc.
  cbn [pair_tokens_from]. unfold plain_ok in *.
  destruct e; cbn [negb andb forallb fst snd orb]; [now apply IH|].
  destruct (N.eqb_spec c m) as [->|Hcm]; cbn [forallb fst snd].
  - rewrite (IH _ Hw), andb_true_r.
    destruct (in_complete_pair k n); cbn [negb orb]; [|reflexivity].
    now apply negb_true_iff, N.eqb_neq.
  - rewrite (IH _ Hw), andb_true_r. cbn [orb].
    apply negb_true_iff, N.eqb_neq. now apply Hc.
Qed.

Lemma marker_count_render m toks :
  m <> BACKSLASH -> well_formed m toks = true ->
  length (List.filter (N.eqb m) (render toks)) = plain_count m toks.
Proof.
  intros Hm. unfold plain_count.
  induction toks as [|[e c] toks IH]; [reflexivity|].
  intros Hw. apply well_formed_cons in Hw as [Hc Hw]. cbn [fst snd] in Hc.
  rewrite render_cons. cbn [fst snd]. rewrite List.filter_app, length_app, (IH Hw).
  destruct e; cbn [List.filter negb andb fst snd].
  - apply N.eqb_neq in Hm. rewrite Hm.
    assert (Hmc : (m =? c) = false) by (apply N.eqb_neq; congruence).
    rewrite Hmc. reflexivity.
  - rewrite (N.eqb_sym m c). destruct (c =? m); reflexivity.
Qed.

(** On a well-formed text the pairing pass of the code is the pairing
    pass on its characters. *)
Lemma pair_markers_render k n m toks :
  m <> BACKSLASH -> well_formed m toks = true ->
  pair_markers_from k n m (render toks) = render (pair_tokens_from k n m toks).
Proof.
  intros Hm. revert k. induction toks as [|[e c] toks IH]; intros k; [reflexivity|].
  intros Hw. apply well_formed_cons in Hw as [Hc Hw]. cbn [fst snd] in Hc.
  rewrite render_cons. cbn [fst snd pair_tokens_from].
  destruct e; cbn [app pair_markers_from negb andb].
  - assert (Hbm : (BACKSLASH =? m) = false) by (apply N.eqb_neq; congruence).
    apply N.eqb_neq in Hc. rewrite Hbm, Hc. rewrite render_cons. cbn [fst snd app].
    do 2 f_equal. now apply IH.
  - destruct (c =? m) eqn:Ecm; rewrite render_cons; cbn [fst snd].
    + destruct (in_complete_pair k n); cbn [negb app]; repeat f_equal; now apply IH.
    + cbn [app]. f_equal. now apply IH.
Qed.

Lemma pair_tokens_chars k n m toks :
  map snd (pair_tokens_from k n m toks) = map snd toks.
Proof.
  revert k. induction toks as [|[e c] toks IH]; intros k; [reflexivity|].
  cbn [pair_tokens_from]. destruct (negb e && (c =? m)); cbn [map snd]; now rewrite IH.
Qed.

(** The pass for [m] keeps the text well formed for another marker
    [m']. *)
Lemma pair_tokens_well_formed k n m m' toks :
  m <> BACKSLASH -> m <> m' ->
  well_formed m' toks = true ->
  well_formed m' (pair_tokens_from k n m toks) = true.
Proof.
  intros Hm Hmm'. revert k. induction toks as [|[e c] toks IH]; intros k; [reflexivity|].
  intros Hw. apply well_formed_cons in Hw as [Hc Hw]. cbn [fst snd] in Hc.
  cbn [pair_tokens_from].
  destruct e; cbn [negb andb].
  - unfold well_formed. cbn [forallb fst snd]. apply N.eqb_neq in Hc. rewrite Hc.
    cbn [negb andb]. now apply IH.
  - destruct (N.eqb_spec c m) as [->|Hcm].
    + unfold well_formed. cbn [forallb fst snd].
      rewrite andb_true_iff. split; [|now apply IH].
      destruct (in_complete_pair k n); cbn [negb];
        apply negb_true_iff, N.eqb_neq; congruence.
    + unfold well_formed. cbn [forallb fst snd]. apply N.eqb_neq in Hc. rewrite Hc.
      cbn [negb andb]. now apply IH.
Qed.

Lemma pair_tokens_plain_count k n m toks :
  let L := (2 * Nat.div2 n)%nat in
  (plain_count m (pair_tokens_from k n m toks)
   = Nat.min (k + plain_count m toks) L - Nat.min k L)%nat.
Proof.
  cbv zeta. unfold plain_count. revert k.
  induction toks as [|[e c] toks IH]; intros k.
  - cbn. rewrite Nat.add_0_r. lia.
  - cbn [pair_tokens_from List.filter fst snd].
    destruct (negb e && (c =? m)) eqn:Ep; cbn [List.filter fst snd].
    + apply andb_true_iff in Ep as [_ Ecm]. rewrite Ecm, andb_true_r, negb_involutive.
      pose proof (in_complete_pair_lt k n) as Hk. cbn [length].
      destruct (in_complete_pair k n); cbn [length]; rewrite IH.
      * assert (k < 2 * Nat.div2 n)%nat by now apply Hk. lia.
      * assert (~ (k < 2 * Nat.div2 n)%nat) by (intros Hlt; apply Hk in Hlt; discriminate).
        lia.
    + rewrite Ep. apply IH.
Qed.

Lemma pair_tokens_other_count k n m m' toks :
  m <> m' ->
  plain_count m' (pair_tokens_from k n m toks) = plain_count m' toks.
Proof.
  intros Hmm'. unfold plain_count. revert k.
  induction toks as [|[e c] toks IH]; intros k; [reflexivity|].
  cbn [pair_tokens_from List.filter fst snd].
  destruct (negb e && (c =? m)) eqn:Ep; cbn [List.filter fst snd].
  - apply andb_true_iff in Ep as [_ Ecm]. apply N.eqb_eq in Ecm as ->.
    assert (Hx : (m =? m') = false) by now apply N.eqb_neq.
    rewrite Hx, !andb_false_r. apply IH.
  - destruct (negb e && (c =? m')); cbn [length]; now rewrite IH.
Qed.

Lemma base_tokens_render t : render (base_tokens t) = re_sub_escape base_pattern t.
Proof.
  unfold base_tokens, re_sub_escape, render.
  induction t as [|c t IH]; [reflexivity|]. cbn [map flat_map fst snd]. now rewrite IH.
Qed.

Lemma base_tokens_well_formed m t :
  base_pattern m = false -> well_formed m (base_tokens t) = true.
Proof.
  intros Hm. unfold base_tokens, well_formed.
  induction t as [|c t IH]; [reflexivity|]. cbn [map forallb fst snd]. rewrite IH, andb_true_r.
  destruct (base_pattern c) eqn:Ec; apply negb_true_iff, N.eqb_neq; intros ->;
    [congruence|discriminate].
Qed.

(** The text in markup mode, character by character. *)
Lemma escape_markup_render t : escape_str t true = render (markup_tokens t).
Proof.
  unfold escape_str, markup_tokens. cbn [negb]. cbv zeta.
  rewrite !preserve_pairs_spec. unfold pair_markers.
  rewrite <- base_tokens_render.
  rewrite (marker_count_render 0x2A) by (try discriminate; now apply base_tokens_well_formed).
  rewrite (pair_markers_render _ _ 0x2A)
    by (try discriminate; now apply base_tokens_well_formed).
  assert (Hw : well_formed 0x5F
                 (pair_tokens_from 0 (plain_count 0x2A (base_tokens t)) 0x2A
                    (base_tokens t)) = true).
  { apply pair_tokens_well_formed; try discriminate. now apply base_tokens_well_formed. }
  rewrite (marker_count_render 0x5F) by (try discriminate; exact Hw).
  now rewrite (pair_markers_render _ _ 0x5F) by (try discriminate; exact Hw).
Qed.


Lemma plain_tokens_render t : render (plain_tokens t) = escape_str t false.
Proof.
  rewrite escape_str_plain. unfold plain_tokens, plain_escape_char, render.
  induction t as [|c t IH]; [reflexivity|]. cbn [map flat_map fst snd]. now rewrite IH.
Qed.

Lemma plain_tokens_plain_ok t : plain_ok (plain_tokens t) = true.
Proof.
  unfold plain_tokens, plain_ok.
  induction t as [|c t IH]; [reflexivity|]. cbn [map forallb fst snd]. rewrite IH, andb_true_r.
  destruct (N.eqb_spec c BACKSLASH) as [->|Hc]; [reflexivity|].
  cbn [negb]. apply orb_true_r.
Qed.

Lemma markup_tokens_plain_ok t : plain_ok (markup_tokens t) = true.
Proof.
  unfold markup_tokens. cbv zeta.
  do 2 (apply pair_tokens_plain_ok; [discriminate|]).
  apply (well_formed_plain_ok 0x2A). now apply base_tokens_well_formed.
Qed.

Lemma markup_tokens_chars t : map snd (markup_tokens t) = t.
Proof.
  unfold markup_tokens. cbv zeta. rewrite !pair_tokens_chars.
  unfold base_tokens. rewrite map_map. cbn [snd]. apply map_id.
Qed.

(** X22. Escaping loses nothing: a reader that drops each escaping
    backslash and takes the character after it literally gets the original
    text back, with or without markup. *)
Theorem unescape_escape (t : pystr) (allow_markdown : bool) :
  exists out,
    escape_md_v2 (PStr t) allow_markdown = PStr out /\ unescape out = t.
Proof.
  exists (escape_str t allow_markdown). split; [reflexivity|].
  destruct allow_markdown.
  - rewrite escape_markup_render, unescape_render by apply markup_tokens_plain_ok.
    apply markup_tokens_chars.
  - rewrite <- plain_tokens_render, unescape_render by apply plain_tokens_plain_ok.
    unfold plain_tokens. rewrite map_map. cbn [snd]. apply map_id.
Qed.

Lemma pair_tokens_guard (P : N -> bool) k n m toks :
  P m = false ->
  forallb (fun t : (bool * N)%type => fst t || negb (P (snd t))) toks = true ->
  forallb (fun t : (bool * N)%type => fst t || negb (P (snd t)))
    (pair_tokens_from k n m toks) = true.
Proof.
  intros Hm. revert k. induction toks as [|[e c] toks IH]; intros k; [reflexivity|].
  cbn [forallb fst snd pair_tokens_from]. rewrite andb_true_iff. intros [Hc Hr].
  destruct (negb e && (c =? m)) eqn:Ep; cbn [forallb fst snd].
  - apply andb_true_iff in Ep as [_ Ecm]. apply N.eqb_eq in Ecm as ->.
    rewrite Hm, (IH _ Hr). cbn [negb]. now rewrite orb_true_r.
  - now rewrite Hc, (IH _ Hr).
Qed.

(** X23. Markup mode still escapes every character of the base set:
    read with its escapes, the output has none of them outside an
    escape. *)
Theorem escape_markup_base_escaped (t : pystr) :
  exists out,
    escape_md_v2 (PStr t) true = PStr out /\
    no_unescaped base_pattern out = true.
Proof.
  exists (escape_str t true). split; [reflexivity|].
  rewrite escape_markup_render.
  apply no_unescaped_render; [apply markup_tokens_plain_ok|].
  unfold markup_tokens. cbv zeta.
  do 2 (apply pair_tokens_guard; [reflexivity|]).
  unfold base_tokens. induction t as [|c t IH]; [reflexivity|].
  cbn [map forallb fst snd]. rewrite IH, andb_true_r.
  now destruct (base_pattern c).
Qed.

Lemma base_tokens_plain_count m t :
  base_pattern m = false -> plain_count m (base_tokens t) = occurrences m t.
Proof.
  intros Hm. unfold plain_count, base_tokens, occurrences.
  induction t as [|c t IH]; [reflexivity|].
  cbn [map List.filter fst snd]. rewrite (N.eqb_sym m c).
  destruct (N.eqb_spec c m) as [->|Hc].
  - rewrite Hm. cbn [negb andb length]. now rewrite IH.
  - rewrite andb_false_r. exact IH.
Qed.

Lemma div2_double_le n : (2 * Nat.div2 n <= n)%nat.
Proof.
  pose proof (Nat.div2_odd n) as Hn. destruct (Nat.odd n); cbn [Nat.b2n] in Hn; lia.
Qed.

(** X24. In markup mode the live markers come in pairs: of the [*] (and
    likewise of the [_]) of the text, the output leaves unescaped the
    largest even number, so an odd one out never reaches the renderer. *)
Theorem escape_markup_live_markers_even (t : pystr) :
  exists out,
    escape_md_v2 (PStr t) true = PStr out /\
    live 0x2A out = (2 * Nat.div2 (occurrences 0x2A t))%nat /\
    live 0x5F out = (2 * Nat.div2 (occurrences 0x5F t))%nat.
Proof.
  exists (escape_str t true). split; [reflexivity|].
  rewrite escape_markup_render, !live_render by apply markup_tokens_plain_ok.
  unfold markup_tokens. cbv zeta. split.
  - rewrite pair_tokens_other_count by discriminate.
    rewrite pair_tokens_plain_count. cbv zeta.
    rewrite base_tokens_plain_count by reflexivity.
    rewrite Nat.min_0_l, Nat.sub_0_r, Nat.add_0_l. apply Nat.min_r, div2_double_le.
  - rewrite pair_tokens_plain_count. cbv zeta.
    rewrite pair_tokens_other_count by discriminate.
    rewrite base_tokens_plain_count by reflexivity.
    rewrite Nat.min_0_l, Nat.sub_0_r, Nat.add_0_l. apply Nat.min_r, div2_double_le.
Qed.

Lemma pair_tokens_complete k n m toks :
  (k + plain_count m toks <= 2 * Nat.div2 n)%nat ->
  pair_tokens_from k n m toks = toks.
Proof.
  unfold plain_count. revert k.
  induction toks as [|[e c] toks IH]; intros k; [reflexivity|].
  cbn [pair_tokens_from List.filter fst snd].
  destruct (negb e && (c =? m)) eqn:Ep; cbn [length]; intros Hk.
  - apply andb_true_iff in Ep as [Ee _]. apply negb_true_iff in Ee as ->.
    assert (Hp : in_complete_pair k n = true) by (apply in_complete_pair_lt; lia).
    rewrite Hp. cbn [negb]. f_equal. apply IH. lia.
  - f_equal. now apply IH.
Qed.

Lemma even_div2_double n : Nat.even n = true -> (2 * Nat.div2 n = n)%nat.
Proof.
  intros He. pose proof (Nat.div2_odd n) as Hn.
  rewrite <- Nat.negb_even, He in Hn. cbn in Hn. lia.
Qed.

(** X25. Markup mode leaves balanced emphasis alone: when the text has
    an even number of [*] and an even number of [_], only the characters
    of the base set are escaped and every marker stays as it is.  A text
    without any character of the two classes is returned unchanged in
    either mode. *)
Theorem escape_markup_balanced (t : pystr) :
  (Nat.even (occurrences 0x2A t) = true ->
   Nat.even (occurrences 0x5F t) = true ->
   escape_md_v2 (PStr t) true = PStr (re_sub_escape base_pattern t))
  /\
  (forallb (fun c => negb (base_pattern c || emphasis_pattern c)) t = true ->
   forall allow_markdown, escape_md_v2 (PStr t) allow_markdown = PStr t).
Proof.
  assert (Hbal : Nat.even (occurrences 0x2A t) = true ->
                 Nat.even (occurrences 0x5F t) = true ->
                 escape_str t true = re_sub_escape base_pattern t).
  { intros Hs Hu. rewrite escape_markup_render, <- base_tokens_render. f_equal.
    unfold markup_tokens. cbv zeta.
    rewrite (pair_tokens_complete 0 _ 0x2A).
    2:{ rewrite base_tokens_plain_count by reflexivity.
        rewrite (even_div2_double _ Hs). lia. }
    apply pair_tokens_complete.
    rewrite base_tokens_plain_count by reflexivity.
    rewrite (even_div2_double _ Hu). lia. }
  split; [intros Hs Hu; cbn [escape_md_v2]; now rewrite Hbal|].
  intros Hclean.
  assert (Hplain : flat_map plain_escape_char t = t).
  { clear Hbal. induction t as [|c t IH]; [reflexivity|].
    cbn [forallb] in Hclean. apply andb_true_iff in Hclean as [Hc Ht].
    cbn [flat_map]. unfold plain_escape_char at 1.
    apply negb_true_iff in Hc. rewrite Hc. cbn [app]. f_equal. now apply IH. }
  assert (Hbase : re_sub_escape base_pattern t = t).
  { unfold re_sub_escape. clear Hbal Hplain.
    induction t as [|c t IH]; [reflexivity|].
    cbn [forallb] in Hclean. apply andb_true_iff in Hclean as [Hc Ht].
    apply negb_true_iff, orb_false_iff in Hc as [Hc _].
    cbn [flat_map]. rewrite Hc. cbn [app]. f_equal. now apply IH. }
  assert (Hnone : forall m, emphasis_pattern m = true -> occurrences m t = 0%nat).
  { intros m Hm. unfold occurrences. clear Hbal Hplain Hbase.
    induction t as [|c t IH]; [reflexivity|].
    cbn [forallb] in Hclean. apply andb_true_iff in Hclean as [Hc Ht].
    apply negb_true_iff, orb_false_iff in Hc as [_ Hc].
    cbn [List.filter]. destruct (N.eqb_spec m c) as [->|_]; [congruence|].
    now apply IH. }
  intros [|]; cbn [escape_md_v2]; f_equal.
  - rewrite Hbal, Hbase; [reflexivity| |]; now rewrite Hnone.
  - now rewrite escape_str_plain.
Qed.

End EscapeReadingFacts.

(* ===================================================================== *)
(** * The payment exchange and the shape of a normalised label *)
(* ===================================================================== *)

Section PaymentFacts.
Context `{CaseProps}.

#[local] Arguments py : simpl never.
#[local] Arguments escape_md_v2 : simpl never.
#[local] Arguments normalize_label : simpl never.
#[local] Arguments str_of_int : simpl never.

(** The receipt branch of [on_msg] when the admin is reached. *)
Lemma on_msg_receipt_run (E : Env) (fm : FlowManager)
    (map_local : list (pystr * ActionEntry)) (message : Message) (w : World)
    (pending : Pending) (admin_id : Z) :
  receipt_upload message w = Some pending ->
  truthy_id (ADMIN_ID E) = Some admin_id ->
  all_delivered E ->
  on_msg E fm map_local message w =
  (Returned tt,
   {| fsm := set_meta (delete "pending_payment"%string (default ∅ (meta (fsm w)))) (fsm w);
      users_file := users_file w;
      sent := sent w ++ [(forward_call admin_id message, true);
                         (admin_note_call admin_id message pending, true);
                         (notice_call E message "receipt_sent", true)];
      log := log w |}).
Proof.
  intros Hup Hadmin Hall.
  unfold on_msg. rewrite !bind_run. unfold get_data.
  unfold receipt_upload, pending_of in Hup. rewrite Hup, Hadmin.
  fold (forward_call admin_id message).
  fold (admin_note_call admin_id message pending).
  unfold try_except.
  repeat first [rewrite bind_run | rewrite transport_run | rewrite notice_run
               | rewrite Hall | progress cbn [ends_with sent]
               | progress cbv beta iota ].
  unfold update_data, set_fsm. cbn [fsm users_file sent log].
  now rewrite <- !app_assoc.
Qed.

(** X26. The payment exchange end to end.  A declared label that begins
    with the trigger word, then a photo or document: the first message
    stores the pending payment, the second forwards the receipt to the
    admin with a note that carries the order tag and the method stored by
    the first, acknowledges the user and clears the pending payment; the
    current step is the same throughout.  (For the second message the
    transport is taken to deliver.) *)
Theorem payment_then_receipt (E1 E2 : Env) (fm : FlowManager)
    (map_local : list (pystr * ActionEntry)) (m1 m2 : Message) (w : World)
    (entry : ActionEntry) (admin_id : Z) :
  receipt_upload m1 w = None ->
  dict_get (normalized_text m1) map_local = Some entry ->
  startswith (normalized_text m1) PAYMENT_TRIGGER = true ->
  msg_photo m2 || msg_document m2 = true ->
  truthy_id (ADMIN_ID E2) = Some admin_id ->
  all_delivered E2 ->
  let p := {| order_tag := str_of_int (int_of_float (time_time E1));
              method := normalized_text m1 |} in
  let w1 := snd (on_msg E1 fm map_local m1 w) in
  let w2 := snd (on_msg E2 fm map_local m2 w1) in
  pending_of w1 = Some p /\
  pending_of w2 = None /\
  sent w2 = sent w1 ++ [(forward_call admin_id m2, true);
                        (admin_note_call admin_id m2 p, true);
                        (notice_call E2 m2 "receipt_sent", true)] /\
  step (fsm w2) = step (fsm w) /\ flow (fsm w2) = flow (fsm w).
Proof.
  intros Hup Hentry Htrig Hatt Hadmin Hall. cbv zeta.
  rewrite (on_msg_trigger_run E1 fm map_local m1 w entry Hup Hentry Htrig).
  cbn [snd].
  match goal with |- context [on_msg E2 fm map_local m2 ?x] => set (w1 := x) end.
  assert (Hp : pending_of w1 =
               Some {| order_tag := str_of_int (int_of_float (time_time E1));
                       method := normalized_text m1 |})
    by apply lookup_insert_eq.
  assert (Hup2 : receipt_upload m2 w1 =
                 Some {| order_tag := str_of_int (int_of_float (time_time E1));
                         method := normalized_text m1 |})
    by (unfold receipt_upload; now rewrite Hatt).
  rewrite (on_msg_receipt_run E2 fm map_local m2 w1 _ admin_id Hup2 Hadmin Hall).
  cbn [snd]. split; [exact Hp|]. split; [apply lookup_delete_eq|].
  repeat split.
Qed.

(** *** The shape of a normalised label *)

Lemma loose_from_chars b s :
  loose_from b s = true -> Forall (fun c => c = 0x20%N \/ wordchar c = true) s.
Proof.
  revert b. induction s as [|c s IH]; intros b; [constructor|].
  cbn [loose_from]. destruct (N.eqb_spec c 0x20) as [->|Hc];
    rewrite andb_true_iff; intros [Hh Hr]; constructor; eauto.
Qed.

Lemma loose_from_no_double_space b s i :
  loose_from b s = true ->
  s !! i = Some 0x20%N -> s !! S i <> Some 0x20%N.
Proof.
  revert b i. induction s as [|c s IH]; intros b i; [discriminate|].
  cbn [loose_from]. destruct (N.eqb_spec c 0x20) as [->|Hc];
    rewrite andb_true_iff; intros [Hh Hr].
  - destruct i as [|i]; [|apply (IH _ _ Hr)].
    intros _. cbn. destruct s as [|d s]; [discriminate|].
    cbn [loose_from] in Hr. destruct (N.eqb_spec d 0x20) as [->|Hd]; [discriminate|].
    cbn. congruence.
  - destruct i as [|i]; [cbn; congruence|apply (IH _ _ Hr)].
Qed.

(** X27. A normalised label is tidy: every whitespace character in it is
    an ordinary space, it has no curly quote, no two spaces in a row and no
    space at either end, and lower-casing leaves it as it is. *)
Theorem normalize_label_shape (x : option pystr) :
  let s := normalize_label x in
  Forall (fun c => c = 0x20%N \/
                   (Py_UNICODE_ISSPACE c = false /\ is_curly c = false)) s /\
  (forall i, s !! i = Some 0x20%N -> s !! S i <> Some 0x20%N) /\
  hd 0%N s <> 0x20%N /\ List.last s 0%N <> 0x20%N /\
  str_lower s = s.
Proof.
  cbv zeta. destruct (normalize_label_tidy x) as [Hl Hlast].
  split.
  - eapply Forall_impl; [apply (loose_from_chars _ _ Hl)|].
    intros c [->|Hc]; [now left|right].
    unfold wordchar in Hc. apply andb_true_iff in Hc as [Hs Hq].
    now rewrite !negb_true_iff in *.
  - split; [intros i; apply (loose_from_no_double_space _ _ _ Hl)|].
    split.
    + destruct (normalize_label x) as [|c s]; [discriminate|].
      cbn [loose_from] in Hl. cbn [hd].
      destruct (N.eqb_spec c 0x20) as [->|Hc]; [discriminate|exact Hc].
    + split; [exact Hlast|].
      destruct x as [t|]; [apply str_lower_idem|reflexivity].
Qed.

End PaymentFacts.

(* ===================================================================== *)
(** * The payment decision callbacks *)
(* ===================================================================== *)

Section SplitFacts.

Lemma str_split_no_sep (sep : N) (a : pystr) :
  sep ∉ a -> str_split sep a = [a].
Proof.
  induction a as [|c a IH]; [reflexivity|].
  intros Hn. apply not_elem_of_cons in Hn as [Hc Ha].
  cbn [str_split]. destruct (N.eqb_spec c sep) as [->|_]; [congruence|].
  now rewrite IH.
Qed.

Lemma str_split_app (sep : N) (a b : pystr) :
  sep ∉ a -> str_split sep (a ++ sep :: b) = a :: str_split sep b.
Proof.
  induction a as [|c a IH]; intros Hn.
  - cbn [app str_split]. now rewrite N.eqb_refl.
  - apply not_elem_of_cons in Hn as [Hc Ha].
    cbn [app str_split]. destruct (N.eqb_spec c sep) as [->|_]; [congruence|].
    now rewrite IH.
Qed.

Lemma digits_no_colon (d : Decimal.uint) : COLON ∉ digits_of_uint d.
Proof.
  induction d; cbn [digits_of_uint];
    [apply not_elem_of_nil|apply not_elem_of_cons; split; [discriminate|assumption]..].
Qed.

Lemma str_of_int_no_colon (z : Z) : COLON ∉ str_of_int z.
Proof.
  unfold str_of_int. destruct (Z.to_int z).
  - apply digits_no_colon.
  - apply not_elem_of_cons; split; [discriminate|apply digits_no_colon].
Qed.

(** The data of a decision button splits into the verb, the user and the
    order tag. *)
Lemma decision_data_fields (verb : pystr) (user : Z) (order_tag : pystr) :
  COLON ∉ verb -> COLON ∉ order_tag ->
  str_split COLON (verb ++ [COLON] ++ str_of_int user ++ [COLON] ++ order_tag) =
  [verb; str_of_int user; order_tag].
Proof.
  intros Hv Ht. cbn [app].
  rewrite (str_split_app _ _ _ Hv).
  rewrite (str_split_app _ _ _ (str_of_int_no_colon user)).
  now rewrite (str_split_no_sep _ _ Ht).
Qed.

Lemma decision_buttons (user : Z) (order_tag : pystr) (b : InlineKeyboardButton) :
  b ∈ buttons (decision_keyboard user order_tag) ->
  callback_data b = py "pay_confirm" ++ [COLON] ++ str_of_int user ++ [COLON] ++ order_tag \/
  callback_data b = py "pay_decline" ++ [COLON] ++ str_of_int user ++ [COLON] ++ order_tag.
Proof.
  unfold decision_keyboard, buttons. cbn [concat app].
  rewrite !elem_of_cons, elem_of_nil. intros [->|[->|[]]]; cbn [callback_data].
  - left. change (py ":") with [COLON].
    change (py "pay_confirm:") with (py "pay_confirm" ++ [COLON]).
    now rewrite <- !app_assoc.
  - right. change (py ":") with [COLON].
    change (py "pay_decline:") with (py "pay_decline" ++ [COLON]).
    now rewrite <- !app_assoc.
Qed.

Lemma confirm_data_not_declined (rest : pystr) :
  decline_filter (py "pay_confirm" ++ [COLON] ++ rest) = false.
Proof. reflexivity. Qed.


Lemma verbs_no_colon : (COLON ∉ py "pay_confirm") /\ (COLON ∉ py "pay_decline").
Proof.
  split; apply (bool_decide_unpack _); vm_compute; reflexivity.
Qed.

(** The fields a handler reads from a button of the decision keyboard
    that its filter routes to it. *)
Lemma decline_button_fields (user : Z) (order_tag : pystr) (b : InlineKeyboardButton) :
  COLON ∉ order_tag ->
  b ∈ buttons (decision_keyboard user order_tag) ->
  decline_filter (callback_data b) = true ->
  str_split COLON (callback_data b) = [py "pay_decline"; str_of_int user; order_tag].
Proof.
  intros Ht Hb Hf. destruct (decision_buttons _ _ _ Hb) as [Hd|Hd]; rewrite Hd in *.
  - now rewrite confirm_data_not_declined in Hf.
  - apply decision_data_fields; [apply verbs_no_colon|exact Ht].
Qed.


End SplitFacts.

Section CallbackFacts.
Context (E : Env) (CE : CallbackEnv).

#[local] Arguments py : simpl never.
#[local] Arguments escape_md_v2 : simpl never.
#[local] Arguments str_of_int : simpl never.

Lemma cb_call_trace (c : CbCall) (t : list (CbCall * bool)) :
  snd (cb_call CE c t) = t ++ [(c, callback_ok CE (length t) c)].
Proof. unfold cb_call. now destruct (callback_ok CE (length t) c). Qed.

Lemma cb_call_outcome (c : CbCall) (t : list (CbCall * bool)) :
  fst (cb_call CE c t) =
  if callback_ok CE (length t) c then CbReturned tt else CbRaised (CbTransportError c).
Proof. unfold cb_call. now destruct (callback_ok CE (length t) c). Qed.

Lemma cb_call_run (c : CbCall) (t : list (CbCall * bool)) :
  cb_call CE c t =
  (if callback_ok CE (length t) c then CbReturned tt else CbRaised (CbTransportError c),
   t ++ [(c, callback_ok CE (length t) c)]).
Proof. unfold cb_call. now destruct (callback_ok CE (length t) c). Qed.

Lemma short_data_cases (l : list pystr) :
  length l < 3 ->
  l = [] \/ (exists a, l = [a]) \/ (exists a b, l = [a; b]).
Proof.
  destruct l as [|a [|b [|c l]]]; cbn [length]; intros Hl;
    [now left|right; left; eauto|right; right; eauto|lia].
Qed.

(** X28. Neither decision handler reaches a user unless the pressed
    button's data has three fields and the admin pressed it: otherwise
    every call made is an acknowledgement of the button. *)
Theorem decision_callbacks_guarded (script : list (pystr * StepInfo))
    (callback : CallbackQuery) (t : list (CbCall * bool)) :
  length (str_split COLON (cq_data callback)) < 3 \/
  Some (cq_from_user_id callback) <> ADMIN_ID E ->
  (exists l, snd (cb_pay_confirm E CE script callback t) = t ++ l /\ acks_only l) /\
  (exists l, snd (cb_pay_decline E CE callback t) = t ++ l /\ acks_only l).
Proof.
  intros Hguard. unfold cb_pay_confirm, cb_pay_decline.
  assert (Hack : forall x t0, exists l, snd (cb_call CE (CallbackAnswer x) t0) = t0 ++ l /\ acks_only l).
  { intros x t0. rewrite cb_call_trace. eexists; split; [reflexivity|].
    constructor; [cbn; eauto|constructor]. }
  destruct Hguard as [Hshort|Hother].
  - destruct (short_data_cases _ Hshort) as [->|[[a ->]|[a [b ->]]]]; split; apply Hack.
  - destruct (str_split COLON (cq_data callback)) as [|a [|b [|c l]]];
      try (split; apply Hack).
    rewrite (bool_decide_eq_false_2 _ Hother). cbn [negb].
    split; [|apply Hack].
    unfold cb_finally. rewrite !cb_call_run.
    destruct (callback_ok CE (length t) _); cbn [fst snd];
      match goal with |- context [callback_ok CE ?n ?c] =>
        destruct (callback_ok CE n c) end; cbn [snd];
      rewrite <- app_assoc; (eexists; split; [reflexivity|]);
      repeat constructor; cbn; eauto.
Qed.

(** X29. The decline button end to end.  When the admin presses the
    decline button that [on_msg] put under the receipt of user [user], the
    declined text goes to that very user, then the note with the user and
    the order tag to the admin's chat, and the button is acknowledged
    whether or not the two messages were accepted; a refused first message
    leaves out the note only. *)
Theorem decline_button_round_trip (user admin chat : Z) (order_tag : pystr)
    (b : InlineKeyboardButton) (t : list (CbCall * bool)) :
  COLON ∉ order_tag ->
  b ∈ buttons (decision_keyboard user order_tag) ->
  decline_filter (callback_data b) = true ->
  ADMIN_ID E = Some admin ->
  int_of_str CE (str_of_int user) = Some user ->
  let callback := {| cq_data := callback_data b; cq_from_user_id := admin;
                     cq_chat_id := chat |} in
  let ok1 := callback_ok CE (length t) (declined_call E user) in
  let sends :=
    (declined_call E user, ok1) ::
    (if ok1
     then [(declined_note_call chat user order_tag,
            callback_ok CE (S (length t)) (declined_note_call chat user order_tag))]
     else []) in
  snd (cb_pay_decline E CE callback t) =
  t ++ sends ++ [(CallbackAnswer PNone,
                  callback_ok CE (length t + length sends) (CallbackAnswer PNone))].
Proof.
  intros Ht Hb Hf Hadmin Hint. cbv zeta.
  unfold cb_pay_decline. cbn [cq_data cq_from_user_id cq_chat_id].
  rewrite (decline_button_fields _ _ _ Ht Hb Hf), Hadmin.
  rewrite bool_decide_eq_true_2 by reflexivity. cbn [negb]. rewrite Hint.
  fold (declined_call E user). fold (declined_note_call chat user order_tag).
  unfold cb_finally, cb_bind. rewrite (cb_call_run (declined_call E user)).
  destruct (callback_ok CE (length t) (declined_call E user)).
  - rewrite cb_call_run, cb_call_run.
    rewrite !length_app. cbn [length].
    replace (length t + 1) with (S (length t)) by lia.
    replace (S (length t) + 1) with (length t + 2) by lia.
    destruct (callback_ok CE (S (length t)) _);
      destruct (callback_ok CE (length t + 2) _); cbn [snd];
      now rewrite <- !app_assoc.
  - rewrite cb_call_run. rewrite !length_app. cbn [length].
    destruct (callback_ok CE (length t + 1) _); cbn [snd];
      now rewrite <- !app_assoc.
Qed.


End CallbackFacts.

(* ===================================================================== *)
(** * The further properties on sample sessions *)
(* ===================================================================== *)

Section MoreExamples.
Local Existing Instance no_sigma_context.

Ltac by_evaluation :=
  first [ vm_compute; reflexivity
        | intros; reflexivity
        | let Hc := fresh in intros Hc; vm_compute in Hc; discriminate ].

Lemma start_reports_or_enters_witness :
  steps sample_flow !! py "zz" = None /\
  fsm (snd (start quiet_env sample_flow (sample_message 11 None false)
              (Some (py "zz")) (sample_world ∅)))
  = fsm (sample_world ∅) /\
  steps tour_flow !! py "1" = Some (tour_step (py "1")) /\
  sent (snd (start quiet_env tour_flow (sample_message 11 None false)
               (Some (py "1")) (sample_world ∅)))
  = [(step_document_call (sample_message 11 None false) (py "guide.pdf"), true);
     (step_text_call (sample_message 11 None false) (tour_step (py "1")) ∅, true)].
Proof.
  split; [vm_compute; reflexivity|]. split.
  - rewrite (proj1 (start_reports_or_enters quiet_env sample_flow
                      (sample_message 11 None false) (py "zz") (sample_world ∅)));
      [reflexivity|vm_compute; reflexivity].
  - split; [vm_compute; reflexivity|].
    destruct (proj2 (start_reports_or_enters quiet_env tour_flow
                       (sample_message 11 None false) (py "1") (sample_world ∅))
                (tour_step (py "1")))
      as (_ & _ & _ & ->); vm_compute; reflexivity.
Defined.

Lemma unmatched_text_keeps_session_witness :
  receipt_upload (sample_message 11 (Some (py "maybe")) false) (sample_world ∅) = None /\
  fsm (snd (on_msg quiet_env sample_flow (build_action_map sample_answers)
              (sample_message 11 (Some (py "maybe")) false) (sample_world ∅)))
  = fsm (sample_world ∅) /\
  log (snd (on_msg quiet_env sample_flow (build_action_map sample_answers)
              (sample_message 11 (Some (py "maybe")) false) (sample_world ∅)))
  = [LogUnmatched 11 (Some (py "1")) (py "maybe") (py "maybe")
       [py "Да"; py "Оплатил картой"]].
Proof.
  split; [vm_compute; reflexivity|].
  destruct (unmatched_text_keeps_session quiet_env sample_flow sample_answers
              (sample_message 11 (Some (py "maybe")) false) (sample_world ∅))
    as (_ & Hfsm & _ & Hlog & _).
  - vm_compute. reflexivity.
  - repeat constructor; vm_compute; discriminate.
  - split; [exact Hfsm|]. rewrite Hlog. vm_compute. reflexivity.
Defined.

Lemma start_commits_before_sending_witness :
  steps sample_flow !! py "2" <> None /\
  fsm (snd (start quiet_env sample_flow (sample_message 11 None false)
              (Some (py "2")) (sample_world ∅)))
  = started_at sample_flow (py "2") (fsm (sample_world ∅)).
Proof.
  split; [by_evaluation|].
  refine (proj1 (start_commits_before_sending quiet_env sample_flow
                   (sample_message 11 None false) (py "2")
                   (build_step (py "2")
                      {| info_text := Some (ScriptStr (py "Спасибо."));
                         info_answers := None;
                         info_document := None; info_md_v2 := false |})
                   (sample_world ∅) _)).
  vm_compute. reflexivity.
Defined.

Lemma enter_step_document_first_witness :
  on_enter (tour_step (py "1")) = Some (py "guide.pdf") /\
  sent (snd (_enter_step quiet_env (sample_message 11 None false)
               (tour_step (py "1")) (sample_world ∅)))
  = [(step_document_call (sample_message 11 None false) (py "guide.pdf"), true);
     (step_text_call (sample_message 11 None false) (tour_step (py "1")) ∅, true)].
Proof.
  split; [by_evaluation|].
  refine (proj2 (enter_step_document_first quiet_env (sample_message 11 None false)
                   (tour_step (py "1")) (py "guide.pdf") (sample_world ∅) _ _ _));
    by_evaluation.
Defined.

Lemma handle_message_without_handler_witness :
  steps tour_flow !! py "2" ≫= on_message = None /\
  fsm (snd (handle_message quiet_env tour_flow
              (sample_message 11 (Some (py "Дальше")) false)
              (set_fsm (started_at tour_flow (py "2") fsm_empty) (sample_world ∅))))
  = started_at tour_flow (py "2") fsm_empty.
Proof.
  split; [by_evaluation|].
  refine (proj1 (proj2 (proj2 (handle_message_without_handler quiet_env tour_flow
                   (sample_message 11 (Some (py "Дальше")) false)
                   (set_fsm (started_at tour_flow (py "2") fsm_empty) (sample_world ∅)))
                   (py "2") _ _ _))); by_evaluation.
Defined.

Lemma goto_answer_moves_session_witness :
  action_target (action (tour_entry (py "дальше"))) = Some (py "2") /\
  fsm (snd (handle_message quiet_env tour_flow
              (sample_message 11 (Some (py " ДАЛЬШЕ ")) false) (sample_world ∅)))
  = started_at tour_flow (py "2") (fsm (sample_world ∅)).
Proof.
  split; [by_evaluation|].
  refine (proj1 (goto_answer_moves_session quiet_env tour_flow
                   (sample_message 11 (Some (py " ДАЛЬШЕ ")) false) (sample_world ∅)
                   (py "1") (py "2") (tour_step (py "1")) (tour_step (py "2"))
                   tour_map (tour_entry (py "дальше"))
                   _ _ _ _ _ _ _ _ _ _)); by_evaluation.
Defined.

Lemma goto_unregistered_target_reports_witness :
  steps tour_flow !! py "zz" = None /\
  fsm (snd (handle_message quiet_env tour_flow
              (sample_message 11 (Some (py "В никуда")) false) (sample_world ∅)))
  = fsm (sample_world ∅) /\
  sent (snd (handle_message quiet_env tour_flow
               (sample_message 11 (Some (py "В никуда")) false) (sample_world ∅)))
  = [(step_not_found_call (sample_message 11 (Some (py "В никуда")) false) (py "zz"),
      true)].
Proof.
  split; [by_evaluation|].
  refine (proj2 (goto_unregistered_target_reports quiet_env tour_flow
                   (sample_message 11 (Some (py "В никуда")) false) (sample_world ∅)
                   (py "1") (py "zz") (tour_step (py "1"))
                   tour_map (tour_entry (py "в никуда"))
                   _ _ _ _ _ _ _ _ _ _)); by_evaluation.
Defined.

Lemma goto_without_target_raises_witness :
  action_target (action (tour_entry (py "без цели"))) = None /\
  fst (handle_message quiet_env tour_flow
         (sample_message 11 (Some (py "Без цели")) false) (sample_world ∅))
  = Raised TypeError.
Proof.
  split; [by_evaluation|].
  refine (proj1 (goto_without_target_raises quiet_env tour_flow
                   (sample_message 11 (Some (py "Без цели")) false) (sample_world ∅)
                   (py "1") (tour_step (py "1"))
                   tour_map (tour_entry (py "без цели"))
                   _ _ _ _ _ _ _ _ _)); by_evaluation.
Defined.

Lemma other_actions_keep_session_witness :
  action_type (action (tour_entry (py "помощь"))) = Some (py "raw") /\
  fsm (snd (on_msg quiet_env tour_flow tour_map
              (sample_message 11 (Some (py "Помощь")) false) (sample_world ∅)))
  = fsm (sample_world ∅) /\
  sent (snd (on_msg quiet_env tour_flow tour_map
               (sample_message 11 (Some (py "Помощь")) false) (sample_world ∅)))
  = [(raw_call (sample_message 11 (Some (py "Помощь")) false)
        (action (tour_entry (py "помощь"))), true)].
Proof.
  split; [by_evaluation|].
  destruct (other_actions_keep_session quiet_env tour_flow tour_map
              (sample_message 11 (Some (py "Помощь")) false) (sample_world ∅)
              (tour_entry (py "помощь")))
    as (_ & Hfsm & _ & Hsent); try by_evaluation.
  split; [exact Hfsm|exact Hsent].
Defined.

Lemma screenshot_skips_missing_files_witness :
  action_type (action (tour_entry (py "скриншот"))) = Some (py "screenshot") /\
  sent (snd (on_msg quiet_env tour_flow tour_map
               (sample_message 11 (Some (py "Скриншот")) false) (sample_world ∅)))
  = [(MessageAnswerPhoto 11 (py "screenshot1.png"), true);
     (MessageAnswerPhoto 11 (py "screenshot2.png"), true)].
Proof.
  split; [by_evaluation|].
  rewrite (screenshot_skips_missing_files quiet_env tour_flow tour_map
             (sample_message 11 (Some (py "Скриншот")) false) (sample_world ∅)
             (tour_entry (py "скриншот"))); by_evaluation.
Defined.

Lemma add_user_records_user_witness :
  (11%Z ∉ known_users (sample_world ∅)) /\
  known_users (snd (add_user quiet_env 11 (sample_world ∅)))
  = {[11%Z]} ∪ known_users (sample_world ∅) /\
  known_users (snd (add_user read_only_env 11 (sample_world ∅)))
  = known_users (sample_world ∅).
Proof.
  assert (Hnew : 11%Z ∉ known_users (sample_world ∅))
    by (apply (bool_decide_unpack _); vm_compute; reflexivity).
  split; [exact Hnew|]. split.
  - destruct (add_user_records_user quiet_env 11 (sample_world ∅))
      as (_ & _ & _ & _ & Hw).
    specialize (Hw Hnew). cbn [write_users quiet_env sample_env] in Hw.
    exact (proj1 Hw).
  - destruct (add_user_records_user read_only_env 11 (sample_world ∅))
      as (_ & _ & _ & _ & Hw).
    specialize (Hw Hnew). cbn [write_users read_only_env] in Hw.
    exact (proj1 Hw).
Defined.

Lemma all_messages_records_sender_witness :
  startswith (default [] (msg_text (sample_message 11 (Some (py "/start")) false)))
    (py "/") = true /\
  all_messages quiet_env sample_flow (sample_message 11 (Some (py "/start")) false)
    (sample_world ∅)
  = (Returned tt,
     {| fsm := fsm (sample_world ∅); users_file := Some [5; 3; 9]%Z; sent := [];
        log := [LogIncoming 11 11 (Some (py "/start")) (fsm (sample_world ∅));
                LogIgnoringCommand (py "/start")] |}) /\
  known_users (snd (all_messages quiet_env sample_flow
                      (sample_message 11 (Some (py "maybe")) false) (sample_world ∅)))
  = {[11%Z]} ∪ known_users (sample_world ∅).
Proof.
  split; [by_evaluation|]. split.
  - rewrite (proj2 (all_messages_records_sender quiet_env sample_flow
                      (sample_message 11 (Some (py "/start")) false) (sample_world ∅)));
      by_evaluation.
  - apply (proj1 (all_messages_records_sender quiet_env sample_flow
                    (sample_message 11 (Some (py "maybe")) false) (sample_world ∅)));
      [by_evaluation|right; reflexivity].
Defined.

Lemma cmd_start_enters_first_step_witness :
  steps sample_flow !! py "1" <> None /\
  fsm (snd (cmd_start quiet_env sample_flow (sample_message 11 (Some (py "/start")) false)
              (sample_world ∅)))
  = started_at sample_flow (py "1") (fsm (sample_world ∅)) /\
  known_users (snd (cmd_start quiet_env sample_flow
                      (sample_message 11 (Some (py "/start")) false) (sample_world ∅)))
  = {[11%Z]} ∪ known_users (sample_world ∅).
Proof.
  split; [by_evaluation|].
  destruct (cmd_start_enters_first_step quiet_env sample_flow
              (sample_message 11 (Some (py "/start")) false) (sample_world ∅))
    as (Hknown & Hfsm & _).
  split.
  - apply (Hfsm (default (tour_step (py "1")) (steps sample_flow !! py "1"))).
    vm_compute. reflexivity.
  - apply Hknown. right. reflexivity.
Defined.

Lemma add_user_writes_sorted_file_witness :
  (11%Z ∉ known_users (sample_world ∅)) /\
  exists l,
    users_file (snd (add_user quiet_env 11 (sample_world ∅))) = Some l /\
    StronglySorted Z.le l /\ NoDup l /\
    (forall x, x ∈ l <-> x = 11%Z \/ x ∈ known_users (sample_world ∅)).
Proof.
  assert (Hnew : 11%Z ∉ known_users (sample_world ∅))
    by (apply (bool_decide_unpack _); vm_compute; reflexivity).
  split; [exact Hnew|].
  exact (add_user_writes_sorted_file quiet_env 11 (sample_world ∅) Hnew eq_refl).
Defined.

Lemma all_messages_follows_goto_witness :
  is_admin quiet_env (sample_message 11 (Some (py "Дальше")) false) = false /\
  fsm (snd (all_messages quiet_env tour_flow
              (sample_message 11 (Some (py "Дальше")) false) (sample_world ∅)))
  = started_at tour_flow (py "2") (fsm (sample_world ∅)) /\
  known_users (snd (all_messages quiet_env tour_flow
                      (sample_message 11 (Some (py "Дальше")) false) (sample_world ∅)))
  = {[11%Z]} ∪ known_users (sample_world ∅).
Proof.
  split; [by_evaluation|].
  destruct (all_messages_follows_goto quiet_env tour_flow
              (sample_message 11 (Some (py "Дальше")) false) (sample_world ∅)
              (py "1") (py "2") (tour_step (py "1")) (tour_step (py "2"))
              tour_map (tour_entry (py "дальше")))
    as [Hfsm Hknown]; try by_evaluation.
  split; [exact Hfsm|]. apply Hknown. right. reflexivity.
Defined.

Lemma cmd_broadcast_refuses_others_witness :
  is_admin quiet_env (sample_message 11 (Some (py "/broadcast hi")) false) = false /\
  sent (snd (cmd_broadcast quiet_env
               (sample_message 11 (Some (py "/broadcast hi")) false) (sample_world ∅)))
  = [(plain_call (sample_message 11 (Some (py "/broadcast hi")) false)
        (py "Только администратор может использовать эту команду."), true)].
Proof.
  split; [by_evaluation|].
  rewrite (cmd_broadcast_refuses_others quiet_env
             (sample_message 11 (Some (py "/broadcast hi")) false) (sample_world ∅));
    by_evaluation.
Defined.

Lemma cmd_broadcast_inline_payload_witness :
  is_admin quiet_env (sample_message 7 (Some (py " /broadcast  hi ")) false) = true /\
  exists rest,
    str_strip rest <> [] /\
    sent (snd (cmd_broadcast quiet_env
                 (sample_message 7 (Some (py " /broadcast  hi ")) false)
                 (sample_world ∅)))
    = broadcast_trace quiet_env (sample_message 7 (Some (py " /broadcast  hi ")) false)
        (str_strip rest) (known_users (sample_world ∅)) 0.
Proof.
  split; [by_evaluation|].
  destruct (cmd_broadcast_inline_payload quiet_env
              (sample_message 7 (Some (py " /broadcast  hi ")) false) (sample_world ∅))
    as (rest & _ & Hrest & _ & _ & Hsent); try by_evaluation.
  exists rest. split; [exact Hrest|exact Hsent].
Defined.

Lemma broadcast_in_two_messages_witness :
  is_admin quiet_env (sample_message 7 (Some (py "/broadcast")) false) = true /\
  fsm (snd (all_messages quiet_env sample_flow
              (sample_message 7 (Some (py "hi")) false)
              (snd (cmd_broadcast quiet_env
                      (sample_message 7 (Some (py "/broadcast")) false)
                      (sample_world ∅)))))
  = set_awaiting_broadcast false (fsm (sample_world ∅)).
Proof.
  split; [by_evaluation|].
  refine (proj1 (proj2 (proj2
    (broadcast_in_two_messages quiet_env sample_flow
       (sample_message 7 (Some (py "/broadcast")) false)
       (sample_message 7 (Some (py "hi")) false) (sample_world ∅)
       _ _ _ _ _ _ _ _ (or_intror eq_refl))))); by_evaluation.
Defined.

Lemma payment_then_receipt_witness :
  startswith
    (normalized_text (sample_message 11 (Some (py "Оплатил картой")) false))
    PAYMENT_TRIGGER = true /\
  pending_of
    (snd (on_msg quiet_env sample_flow sample_map
            (sample_message 11 (Some (py "Оплатил картой")) false)
            (sample_world ∅))) = Some sample_pending /\
  pending_of
    (snd (on_msg later_env sample_flow sample_map (sample_message 11 None true)
            (snd (on_msg quiet_env sample_flow sample_map
                    (sample_message 11 (Some (py "Оплатил картой")) false)
                    (sample_world ∅))))) = None.
Proof.
  split; [by_evaluation|].
  destruct (payment_then_receipt quiet_env later_env sample_flow sample_map
              (sample_message 11 (Some (py "Оплатил картой")) false)
              (sample_message 11 None true) (sample_world ∅)
              (entry_of {| label := py "Оплатил картой";
                           answer_action := Some {| action_type := Some (py "goto");
                                                    action_target := Some (py "2");
                                                    action_payload := None |} |})
              7)
    as (Hp & Hnone & _); try by_evaluation.
  split; [exact Hp|exact Hnone].
Defined.

Lemma escape_markup_balanced_witness :
  Nat.even (occurrences 0x2A (py "*bold* and _it_")) = true /\
  escape_md_v2 (PStr (py "*bold* and _it_")) true = PStr (py "*bold* and _it_").
Proof.
  split; [by_evaluation|].
  rewrite (proj1 (escape_markup_balanced (py "*bold* and _it_"))); by_evaluation.
Defined.

Lemma decision_callbacks_guarded_witness :
  Some 11%Z <> ADMIN_ID decision_env /\
  exists l,
    snd (cb_pay_confirm decision_env decision_callback_env tour_script
           {| cq_data := callback_data (confirm_button 11 (py "1700000000"));
              cq_from_user_id := 11; cq_chat_id := 11 |} []) = [] ++ l /\
    acks_only l.
Proof.
  split; [by_evaluation|].
  refine (proj1 (decision_callbacks_guarded decision_env decision_callback_env
                   tour_script _ [] _)).
  right. by_evaluation.
Defined.

Lemma decline_button_round_trip_witness :
  decline_filter (callback_data (decline_button 11 (py "1700000000"))) = true /\
  snd (cb_pay_decline decision_env decision_callback_env
         {| cq_data := callback_data (decline_button 11 (py "1700000000"));
            cq_from_user_id := 7; cq_chat_id := 7 |} [])
  = [(declined_call decision_env 11, true);
     (declined_note_call 7 11 (py "1700000000"), true);
     (CallbackAnswer PNone, true)].
Proof.
  split; [by_evaluation|].
  refine (decline_button_round_trip decision_env decision_callback_env 11 7 7
            (py "1700000000") (decline_button 11 (py "1700000000")) [] _ _ _ _ _).
  - apply (bool_decide_unpack _). vm_compute. reflexivity.
  - unfold decision_keyboard, buttons, decline_button. cbn [concat app].
    rewrite !elem_of_cons. right. left. reflexivity.
  - by_evaluation.
  - by_evaluation.
  - by_evaluation.
Defined.


(** With the known-user file closed to writing, a new user is not
    recorded: [add_user] logs the failure and returns. *)
Example add_user_failed_write :
  add_user read_only_env 11 (sample_world ∅)
  = (Returned tt,
     {| fsm := fsm (sample_world ∅); users_file := Some [5; 3; 9]%Z;
        sent := []; log := [LogException "save_users"] |}).
Proof. vm_compute. reflexivity. Qed.

End MoreExamples.
